(** * LogViewer: ingestion, flattening and filtering of JSON log records

    A shallow embedding of [LogViewer-v11.3.py] (the Sophos SIEM log
    viewer) and the properties of its loader, flattener, filter engine
    and refresh boundary.

    Conventions of the embedding:
    - Python [str] is [string]; a character stands for one code point
      below 256.
    - A Python [dict] is an association list in insertion order whose
      keys are pairwise distinct ([PyDict.set] keeps that shape).
    - Library functions whose code is not part of the program
      ([json.loads], [str()] on a JSON value) are section variables:
      every theorem holds for any behaviour of those functions. *)

From Stdlib Require Import ZArith String Ascii List Bool Lia.
From Stdlib Require Import Floats.PrimFloat.
From stdpp Require Import base list strings gmap pretty.

Local Open Scope string_scope.

(** ** Python text primitives *)

Module PyText.

(** [str.isspace] on one code point below 256. *)
Definition is_space (c : ascii) : bool :=
  let n := N_of_ascii c in
  ((9 <=? n) && (n <=? 13) || (28 <=? n) && (n <=? 32)
   || (n =? 133) || (n =? 160))%N.

Fixpoint lstrip (s : string) : string :=
  match s with
  | String c s' => if is_space c then lstrip s' else s
  | EmptyString => EmptyString
  end.

(** Removes trailing white space: a character is kept when it is not
    white space or when something is kept after it. *)
Fixpoint rstrip (s : string) : string :=
  match s with
  | String c s' =>
      match rstrip s' with
      | EmptyString => if is_space c then EmptyString else String c EmptyString
      | r => String c r
      end
  | EmptyString => EmptyString
  end.

(** [s.strip()] *)
Definition strip (s : string) : string := rstrip (lstrip s).

(** Line boundaries of [str.splitlines] other than CR and CR LF. *)
Definition is_linebreak (c : ascii) : bool :=
  let n := N_of_ascii c in
  ((n =? 10) || (n =? 11) || (n =? 12) || (28 <=? n) && (n <=? 30)
   || (n =? 133))%N.

Definition is_cr (c : ascii) : bool := (N_of_ascii c =? 13)%N.
Definition is_lf (c : ascii) : bool := (N_of_ascii c =? 10)%N.

(** [splitlines_from cur s]: [cur] is the line being read, reversed.
    A boundary closes the current line; text after the last boundary is
    a line only when it is not empty. *)
Fixpoint splitlines_from (cur : string) (s : string) : list string :=
  match s with
  | EmptyString =>
      match cur with
      | EmptyString => []
      | _ => [String.rev cur]
      end
  | String c s' =>
      if is_cr c then
        match s' with
        | String c' s'' =>
            if is_lf c' then String.rev cur :: splitlines_from EmptyString s''
            else String.rev cur :: splitlines_from EmptyString s'
        | EmptyString => [String.rev cur]
        end
      else if is_linebreak c then String.rev cur :: splitlines_from EmptyString s'
      else splitlines_from (String c cur) s'
  end.

(** [s.splitlines()] *)
Definition splitlines (s : string) : list string := splitlines_from EmptyString s.

(** [str.lower] on one code point below 256: A-Z and the Latin-1
    capitals (except the multiplication sign) move up by 32. *)
Definition lower_char (c : ascii) : ascii :=
  let n := N_of_ascii c in
  if ((65 <=? n) && (n <=? 90)
      || (192 <=? n) && (n <=? 222) && negb (n =? 215))%N
  then ascii_of_N (n + 32) else c.

Fixpoint lower (s : string) : string :=
  match s with
  | String c s' => String (lower_char c) (lower s')
  | EmptyString => EmptyString
  end.

(** [needle in hay] for two strings. *)
Fixpoint contains (needle hay : string) : bool :=
  String.prefix needle hay ||
  match hay with
  | String _ hay' => contains needle hay'
  | EmptyString => false
  end.

(** Truth value of a string: [if s:]. *)
Definition truthy (s : string) : bool :=
  match s with EmptyString => false | _ => true end.

End PyText.

(** ** JSON values and Python dictionaries *)

Unset Elimination Schemes.
Inductive json : Type :=
| JNull
| JBool (b : bool)
| JInt (z : Z)
| JFloat (f : float)
| JStr (s : string)
| JArr (items : list json)
| JObj (members : list (string * json)).
Set Elimination Schemes.

(** A record, and a flattened record, is the member list of a [dict]. *)
Definition pydict : Type := list (string * json).

Definition is_dict (j : json) : bool :=
  match j with JObj _ => true | _ => false end.

Definition is_list (j : json) : bool :=
  match j with JArr _ => true | _ => false end.

Section json_induction.
Variable P : json -> Prop.
Hypothesis Hnull : P JNull.
Hypothesis Hbool : forall b, P (JBool b).
Hypothesis Hint : forall z, P (JInt z).
Hypothesis Hfloat : forall f, P (JFloat f).
Hypothesis Hstr : forall s, P (JStr s).
Hypothesis Harr : forall items, Forall P items -> P (JArr items).
Hypothesis Hobj : forall members, Forall (fun kv => P (snd kv)) members -> P (JObj members).

Fixpoint json_ind (j : json) : P j :=
  match j with
  | JNull => Hnull
  | JBool b => Hbool b
  | JInt z => Hint z
  | JFloat f => Hfloat f
  | JStr s => Hstr s
  | JArr items =>
      Harr items
        ((fix all (l : list json) : Forall P l :=
            match l with
            | [] => List.Forall_nil P
            | x :: l' => @List.Forall_cons _ P x l' (json_ind x) (all l')
            end) items)
  | JObj members =>
      Hobj members
        ((fix all (l : list (string * json)) : Forall (fun kv => P (snd kv)) l :=
            match l with
            | [] => List.Forall_nil _
            | kv :: l' => @List.Forall_cons _ _ kv l' (json_ind (snd kv)) (all l')
            end) members)
  end.
End json_induction.

Module PyDict.

(** [d.get(k)] *)
Fixpoint get {V} (k : string) (d : list (string * V)) : option V :=
  match d with
  | [] => None
  | (k', v) :: d' => if String.eqb k k' then Some v else get k d'
  end.

(** [k in d] *)
Definition mem {V} (k : string) (d : list (string * V)) : bool :=
  match get k d with Some _ => true | None => false end.

(** [d[k] = v]: an existing key keeps its position and takes the new
    value, a new key goes last. *)
Fixpoint set {V} (k : string) (v : V) (d : list (string * V)) : list (string * V) :=
  match d with
  | [] => [(k, v)]
  | (k', v') :: d' =>
      if String.eqb k k' then (k, v) :: d' else (k', v') :: set k v d'
  end.

(** [dict(items)] for a list of (key, value) pairs. *)
Definition of_items {V} (items : list (string * V)) : list (string * V) :=
  fold_left (fun d kv => set (fst kv) (snd kv) d) items [].

Definition keys {V} (d : list (string * V)) : list string := map fst d.

End PyDict.

(** ** Flattener: [flatten_dict] *)

(** [f"{parent_key}{sep}{k}" if parent_key else k] *)
Definition new_key (parent_key sep k : string) : string :=
  if PyText.truthy parent_key then parent_key ++ sep ++ k else k.

(** [flatten_dict] on the dictionary held by [j]; the inner [items]
    loop runs over the members and recurses on mapping values. *)
Fixpoint flatten_json (j : json) (parent_key sep : string) : pydict :=
  match j with
  | JObj d =>
      PyDict.of_items
        ((fix items (d : list (string * json)) : list (string * json) :=
            match d with
            | [] => []
            | (k, v) :: d' =>
                ((if is_dict v
                  then flatten_json v (new_key parent_key sep k) sep
                  else [(new_key parent_key sep k, v)]) ++ items d')%list
            end) d)
  | _ => []
  end.

Definition flatten_dict (d : pydict) (parent_key sep : string) : pydict :=
  flatten_json (JObj d) parent_key sep.

(** The pairs collected in [items] before [dict(items)]. *)
Fixpoint flatten_items (d : pydict) (parent_key sep : string) : list (string * json) :=
  match d with
  | [] => []
  | (k, v) :: d' =>
      ((if is_dict v
        then flatten_json v (new_key parent_key sep k) sep
        else [(new_key parent_key sep k, v)]) ++ flatten_items d' parent_key sep)%list
  end.

(** Leaf paths of a record: the key sequences that lead to a value that
    is not a mapping. *)
Fixpoint leaf_paths_json (j : json) : list (list string) :=
  match j with
  | JObj d =>
      (fix go (d : list (string * json)) : list (list string) :=
         match d with
         | [] => []
         | (k, v) :: d' =>
             ((if is_dict v then map (cons k) (leaf_paths_json v) else [[k]]) ++ go d')%list
         end) d
  | _ => []
  end.

Definition leaf_paths (d : pydict) : list (list string) := leaf_paths_json (JObj d).

(** The dotted key the flattener gives to a path below [parent_key]. *)
Definition dotted (parent_key sep : string) (path : list string) : string :=
  fold_left (fun p k => new_key p sep k) path parent_key.

(** No list anywhere on the way to a leaf, nor as a leaf. *)
Fixpoint no_list_branch (j : json) : bool :=
  match j with
  | JArr _ => false
  | JObj d =>
      (fix go (d : list (string * json)) : bool :=
         match d with
         | [] => true
         | (_, v) :: d' => no_list_branch v && go d'
         end) d
  | _ => true
  end.

(** ** Filter engine: [filter_data] *)

Section Filter.

(** Python's [str()] on a JSON value. *)
Variable py_str : json -> string.

(** The inner loop over [filters.items()], with its [break]: the
    answer is the final value of [match]. *)
Fixpoint filters_match (item : pydict) (filters : list (string * string)) : bool :=
  match filters with
  | [] => true
  | (col, filter_text) :: rest =>
      if PyText.truthy filter_text then
        let value := PyText.lower (py_str (default (JStr "") (PyDict.get col item))) in
        if negb (PyText.contains (PyText.lower filter_text) value)
        then false
        else filters_match item rest
      else filters_match item rest
  end.

(** The outer loop: [filtered_data] grows by [append]. *)
Definition filter_data (data : list pydict) (filters : list (string * string))
    (desired_columns : list string) : list pydict :=
  fold_left
    (fun filtered_data item =>
       if filters_match item filters then (filtered_data ++ [item])%list else filtered_data)
    data [].

End Filter.

(** ** Program state, exceptions and the effect monad *)

(** Exceptions the loader can see.  [LoadError e] is the
    [ValueError(f"Error loading JSON: {str(e)}")] raised by the outer
    handler of [load_json] for the cause [e]. *)
Inductive exn : Type :=
| OSError
| JSONDecodeError
| ValueError (msg : string)
| LoadError (cause : exn).

Inductive level : Type := INFO | WARNING | ERROR.

(** Log lines, by event; the fields are the values formatted into the
    message. *)
Inductive log_msg : Type :=
| LoadingFile (file_path : string) (partial_load : bool) (last_record_count : nat)
| LoadedPartial (n : nat) (file_path : string)
| LoadedDocument (n : nat) (file_path : string)
| LoadedLines (n : nat) (file_path : string)
| LoadFailed (file_path : string) (e : exn)
| RefreshingTable (file_path : string) (is_auto_refresh : bool) (record_count : nat)
| NoDataFound (file_path : string)
| AppliedGroupColor (group color : string)
| AppliedSeverityColor (severity color : string)
| TableRefreshed (file_path : string) (displayed total : nat)
| RefreshFailed (file_path : string) (e : exn)
| PeriodicRefreshFailed (file_path : string) (e : exn)
| ManualRefreshFailed (file_path : string) (e : exn)
| PopupOpened
| PopupClosed.

(** Text of a tab's status label. *)
Inductive status : Type :=
| StatusBlank
| StatusNoData
| StatusError (e : exn)
| StatusLoaded (displayed total : nat) (last_manual_sync last_auto_sync : option Z)
    (countdown : option string).

(** [messagebox.showerror("Error", f"Failed to load JSON from {file_path}: {str(e)}")] *)
Inductive dialog : Type :=
| ShowError (file_path : string) (e : exn).

(** A [ttk.Treeview]: its columns, its rows (values and tag) in display
    order, the background of each tag, and whether the view was last
    moved to the bottom. *)
Record treeview : Type := {
  tree_columns : list string;
  tree_children : list (list string * string);
  tree_tags : gmap string string;
  tree_at_bottom : bool
}.

(** A [PleaseWaitPopup]: open until [close]; [popup_value] is the last
    fraction given to [update_progress], as numerator and denominator. *)
Record popup_state : Type := {
  popup_open : bool;
  popup_value : option (nat * nat)
}.

(** The state the program runs in: the file system, the globals of the
    module, the widgets and the log.  [now] answers [datetime.now()];
    [clock] holds the readings [time.time()] will give, in the order of
    its calls, in milliseconds. *)
Record world : Type := {
  files : gmap string string;
  now : Z;
  raw_data_cache : gmap string (list json);
  use_severity_colors : bool;
  custom_severity_colors : list (string * string);
  auto_scroll_enabled : bool;
  refresh_interval_ms : Z;
  next_sync_time : option Z;
  trees : gmap nat treeview;
  labels : gmap nat status;
  popups : list popup_state;
  dialogs : list dialog;
  log : list (level * log_msg);
  clock : nat -> Z
}.

Definition empty_tree : treeview :=
  {| tree_columns := []; tree_children := []; tree_tags := ∅; tree_at_bottom := false |}.

Definition set_raw_data_cache (c : gmap string (list json)) (w : world) : world :=
  {| files := files w; now := now w; raw_data_cache := c;
     use_severity_colors := use_severity_colors w;
     custom_severity_colors := custom_severity_colors w;
     auto_scroll_enabled := auto_scroll_enabled w;
     refresh_interval_ms := refresh_interval_ms w;
     next_sync_time := next_sync_time w;
     trees := trees w; labels := labels w; popups := popups w;
     dialogs := dialogs w; log := log w; clock := clock w |}.

Definition set_next_sync_time (t : option Z) (w : world) : world :=
  {| files := files w; now := now w; raw_data_cache := raw_data_cache w;
     use_severity_colors := use_severity_colors w;
     custom_severity_colors := custom_severity_colors w;
     auto_scroll_enabled := auto_scroll_enabled w;
     refresh_interval_ms := refresh_interval_ms w;
     next_sync_time := t;
     trees := trees w; labels := labels w; popups := popups w;
     dialogs := dialogs w; log := log w; clock := clock w |}.

Definition set_trees (t : gmap nat treeview) (w : world) : world :=
  {| files := files w; now := now w; raw_data_cache := raw_data_cache w;
     use_severity_colors := use_severity_colors w;
     custom_severity_colors := custom_severity_colors w;
     auto_scroll_enabled := auto_scroll_enabled w;
     refresh_interval_ms := refresh_interval_ms w;
     next_sync_time := next_sync_time w;
     trees := t; labels := labels w; popups := popups w;
     dialogs := dialogs w; log := log w; clock := clock w |}.

Definition set_labels (l : gmap nat status) (w : world) : world :=
  {| files := files w; now := now w; raw_data_cache := raw_data_cache w;
     use_severity_colors := use_severity_colors w;
     custom_severity_colors := custom_severity_colors w;
     auto_scroll_enabled := auto_scroll_enabled w;
     refresh_interval_ms := refresh_interval_ms w;
     next_sync_time := next_sync_time w;
     trees := trees w; labels := l; popups := popups w;
     dialogs := dialogs w; log := log w; clock := clock w |}.

Definition set_popups (p : list popup_state) (w : world) : world :=
  {| files := files w; now := now w; raw_data_cache := raw_data_cache w;
     use_severity_colors := use_severity_colors w;
     custom_severity_colors := custom_severity_colors w;
     auto_scroll_enabled := auto_scroll_enabled w;
     refresh_interval_ms := refresh_interval_ms w;
     next_sync_time := next_sync_time w;
     trees := trees w; labels := labels w; popups := p;
     dialogs := dialogs w; log := log w; clock := clock w |}.

Definition set_dialogs (d : list dialog) (w : world) : world :=
  {| files := files w; now := now w; raw_data_cache := raw_data_cache w;
     use_severity_colors := use_severity_colors w;
     custom_severity_colors := custom_severity_colors w;
     auto_scroll_enabled := auto_scroll_enabled w;
     refresh_interval_ms := refresh_interval_ms w;
     next_sync_time := next_sync_time w;
     trees := trees w; labels := labels w; popups := popups w;
     dialogs := d; log := log w; clock := clock w |}.

Definition set_log (l : list (level * log_msg)) (w : world) : world :=
  {| files := files w; now := now w; raw_data_cache := raw_data_cache w;
     use_severity_colors := use_severity_colors w;
     custom_severity_colors := custom_severity_colors w;
     auto_scroll_enabled := auto_scroll_enabled w;
     refresh_interval_ms := refresh_interval_ms w;
     next_sync_time := next_sync_time w;
     trees := trees w; labels := labels w; popups := popups w;
     dialogs := dialogs w; log := l; clock := clock w |}.

Definition set_clock (c : nat -> Z) (w : world) : world :=
  {| files := files w; now := now w; raw_data_cache := raw_data_cache w;
     use_severity_colors := use_severity_colors w;
     custom_severity_colors := custom_severity_colors w;
     auto_scroll_enabled := auto_scroll_enabled w;
     refresh_interval_ms := refresh_interval_ms w;
     next_sync_time := next_sync_time w;
     trees := trees w; labels := labels w; popups := popups w;
     dialogs := dialogs w; log := log w; clock := c |}.

(** A computation ends with a value or with a raised exception; the
    state reached is kept in both cases. *)
Inductive outcome (A : Type) : Type :=
| Return (a : A)
| Raise (e : exn).
Arguments Return {A} a.
Arguments Raise {A} e.

Definition M (A : Type) : Type := world -> outcome A * world.

Definition ret {A} (a : A) : M A := fun w => (Return a, w).

Definition raise {A} (e : exn) : M A := fun w => (Raise e, w).

Definition bind {A B} (m : M A) (k : A -> M B) : M B :=
  fun w =>
    match m w with
    | (Return a, w') => k a w'
    | (Raise e, w') => (Raise e, w')
    end.

(** [try: m except Exception as e: handler e] *)
Definition try_except {A} (m : M A) (handler : exn -> M A) : M A :=
  fun w =>
    match m w with
    | (Return a, w') => (Return a, w')
    | (Raise e, w') => handler e w'
    end.

Definition gets {A} (f : world -> A) : M A := fun w => (Return (f w), w).

Definition modify (f : world -> world) : M unit := fun w => (Return tt, f w).

Declare Scope py_scope.
Delimit Scope py_scope with py.
Notation "x <- m ;; k" := (bind m (fun x => k))
  (at level 100, m at next level, right associativity) : py_scope.
Notation "m ;;; k" := (bind m (fun _ => k))
  (at level 100, right associativity) : py_scope.
Local Open Scope py_scope.

Definition logging (lvl : level) (msg : log_msg) : M unit :=
  modify (fun w => set_log (log w ++ [(lvl, msg)])%list w).

(** [time.time()]: the next reading of the clock. *)
Definition time_time : M Z :=
  t <- gets (fun w => clock w 0%nat) ;;
  modify (fun w => set_clock (fun n => clock w (S n)) w) ;;;
  ret t.

(** ** The "Please Wait" popup *)

(** [PleaseWaitPopup(parent)]: a new popup; its handle is its index. *)
Definition PleaseWaitPopup : M nat :=
  h <- gets (fun w => length (popups w)) ;;
  modify (fun w => set_popups
            (popups w ++ [{| popup_open := true; popup_value := None |}])%list w) ;;;
  logging INFO PopupOpened ;;;
  ret h.

(** [popup.update_progress(value)] for the fraction [num / den]. *)
Definition update_progress (popup : nat) (num den : nat) : M unit :=
  modify (fun w => set_popups
            (alter (fun p => {| popup_open := popup_open p;
                                popup_value := Some (num, den) |}) popup (popups w)) w).

(** [popup.close()] *)
Definition popup_close (popup : nat) : M unit :=
  modify (fun w => set_popups
            (alter (fun p => {| popup_open := false;
                                popup_value := popup_value p |}) popup (popups w)) w) ;;;
  logging INFO PopupClosed.

(** The closure [progress_callback] of [refresh_table]: it is fixed by
    the [popup] it captures, [None] when there is no popup. *)
Definition callback : Type := option nat.

Definition call_progress (cb : callback) (num den : nat) : M unit :=
  match cb with
  | Some popup => update_progress popup num den
  | None => ret tt
  end.

(** ** Loader: [load_json] *)

Section Loader.

(** [json.loads]: [None] stands for [json.JSONDecodeError]. *)
Variable json_loads : string -> option json.

Definition py_json_loads (s : string) : M json :=
  match json_loads s with
  | Some j => ret j
  | None => raise JSONDecodeError
  end.

(** [open(file_path, 'r')] followed by [f.read()]. *)
Definition read_file (file_path : string) : M string :=
  fun w =>
    match files w !! file_path with
    | Some text => (Return text, w)
    | None => (Raise OSError, w)
    end.

(** The loop over [enumerate(lines)], written twice in [load_json]
    (for [new_lines] with [n = len(new_lines)], for [lines] with
    [n = total_lines]); [i] is the index of the first line of [lines]
    and [data] the list built so far. *)
Fixpoint json_lines_loop (progress_callback : option callback) (n : nat)
    (i : nat) (lines : list string) (data : list json) : M (list json) :=
  match lines with
  | [] => ret data
  | line :: rest =>
      let line := PyText.strip line in
      data <- (if PyText.truthy line then
                 item <- py_json_loads line ;;
                 ret (if is_dict item then (data ++ [item])%list else data)
               else ret data) ;;
      match progress_callback with
      | Some cb => if (0 <? n)%nat then call_progress cb (i + 1) n else ret tt
      | None => ret tt
      end ;;;
      json_lines_loop progress_callback n (S i) rest data
  end.

(** [raw_data_cache[file_path].extend(data)], or a new entry. *)
Definition cache_extend (file_path : string) (data : list json) : M unit :=
  modify (fun w =>
    match raw_data_cache w !! file_path with
    | Some cached =>
        set_raw_data_cache (<[file_path := (cached ++ data)%list]> (raw_data_cache w)) w
    | None =>
        set_raw_data_cache (<[file_path := data]> (raw_data_cache w)) w
    end).

(** [raw_data_cache[file_path] = data] *)
Definition cache_store (file_path : string) (data : list json) : M unit :=
  modify (fun w => set_raw_data_cache (<[file_path := data]> (raw_data_cache w)) w).

Definition load_json (file_path : string) (progress_callback : option callback)
    (last_record_count : nat) (partial_load : bool) : M (list json * nat) :=
  logging INFO (LoadingFile file_path partial_load last_record_count) ;;;
  try_except
    (text <- read_file file_path ;;
     let content := PyText.strip text in
     let lines := PyText.splitlines content in
     let total_lines := length lines in
     if partial_load && (0 <? last_record_count)%nat then
       (* Only process new lines *)
       let new_lines := drop last_record_count lines in
       data <- json_lines_loop progress_callback (length new_lines) 0 new_lines [] ;;
       logging INFO (LoadedPartial (length data) file_path) ;;;
       cache_extend file_path data ;;;
       ret (data, length lines)
     else
       (* Full load *)
       try_except
         (doc <- py_json_loads content ;;
          data <- (if negb (is_list doc) then
                     if is_dict doc then ret [doc]
                     else raise (ValueError
                            "JSON must be a list of dictionaries or a single dictionary.")
                   else ret (match doc with JArr items => items | _ => [] end)) ;;
          if negb (forallb is_dict data) then
            raise (ValueError "JSON items must be dictionaries.")
          else
            logging INFO (LoadedDocument (length data) file_path) ;;;
            match progress_callback with
            | Some cb => call_progress cb 1 1
            | None => ret tt
            end ;;;
            cache_store file_path data ;;;
            ret (data, length lines))
         (fun e =>
            match e with
            | JSONDecodeError =>
                (* Handle JSON Lines format *)
                data <- json_lines_loop progress_callback total_lines 0 lines [] ;;
                if negb (match data with [] => false | _ => true end) then
                  raise (ValueError "No valid JSON objects found.")
                else
                  logging INFO (LoadedLines (length data) file_path) ;;;
                  cache_store file_path data ;;;
                  ret (data, length lines)
            | _ => raise e
            end))
    (fun e =>
       logging ERROR (LoadFailed file_path e) ;;;
       raise (LoadError e)).

End Loader.

(** ** Refresh boundary: [refresh_table], [manual_refresh], [periodic_refresh] *)

(** [format_time_remaining], on a duration in milliseconds. *)
Definition format_time_remaining (ms : Z) : string :=
  if (ms <=? 0)%Z then "Syncing now..."
  else
    let total := (ms / 1000)%Z in
    let minutes := (total / 60)%Z in
    let secs := (total mod 60)%Z in
    let hours := (minutes / 60)%Z in
    let minutes := (minutes mod 60)%Z in
    if (0 <? hours)%Z then pretty hours ++ "h " ++ pretty minutes ++ "m " ++ pretty secs ++ "s"
    else if (0 <? minutes)%Z then pretty minutes ++ "m " ++ pretty secs ++ "s"
    else pretty secs ++ "s".

(** One entry of [tabs]: the tuple kept for a tracked file. *)
Record tab : Type := {
  tab_tree : nat;
  tab_error_label : nat;
  tab_filters : list (string * string);
  tab_group_colors : list (string * string);
  tab_last_manual_sync : option Z;
  tab_last_auto_sync : option Z;
  tab_record_count : nat;
  tab_json_text : nat
}.

Definition label_config (error_label : nat) (text : status) : M unit :=
  modify (fun w => set_labels (<[error_label := text]> (labels w)) w).

Definition showerror (file_path : string) (e : exn) : M unit :=
  modify (fun w => set_dialogs (dialogs w ++ [ShowError file_path e])%list w).

Definition get_tree (tree : nat) : M treeview :=
  gets (fun w => default empty_tree (trees w !! tree)).

Definition update_tree (tree : nat) (f : treeview -> treeview) : M unit :=
  modify (fun w => set_trees (<[tree := f (default empty_tree (trees w !! tree))]> (trees w)) w).

(** [for item in tree.get_children(): tree.delete(item)] *)
Definition tree_clear (t : treeview) : treeview :=
  {| tree_columns := tree_columns t; tree_children := [];
     tree_tags := tree_tags t; tree_at_bottom := tree_at_bottom t |}.

(** [tree['columns'] = columns] *)
Definition tree_set_columns (columns : list string) (t : treeview) : treeview :=
  {| tree_columns := columns; tree_children := tree_children t;
     tree_tags := tree_tags t; tree_at_bottom := tree_at_bottom t |}.

(** [tree.insert('', 'end', values=values, tags=(tag,))] *)
Definition tree_insert (values : list string) (tag : string) (t : treeview) : treeview :=
  {| tree_columns := tree_columns t;
     tree_children := (tree_children t ++ [(values, tag)])%list;
     tree_tags := tree_tags t; tree_at_bottom := tree_at_bottom t |}.

(** [tree.tag_configure(tag, background=color)] *)
Definition tree_tag_configure (tag color : string) (t : treeview) : treeview :=
  {| tree_columns := tree_columns t; tree_children := tree_children t;
     tree_tags := <[tag := color]> (tree_tags t); tree_at_bottom := tree_at_bottom t |}.

(** [tree.yview_moveto(1.0)] *)
Definition tree_yview_bottom (t : treeview) : treeview :=
  {| tree_columns := tree_columns t; tree_children := tree_children t;
     tree_tags := tree_tags t; tree_at_bottom := true |}.

(** A [for] loop whose body has effects only. *)
Fixpoint for_each {A} (l : list A) (body : A -> M unit) : M unit :=
  match l with
  | [] => ret tt
  | x :: l' => body x ;;; for_each l' body
  end.

Section Refresh.

Variable json_loads : string -> option json.
Variable py_str : json -> string.

(** The row loop of [refresh_table]: [idx] is the line number of the
    first item of [filtered_data]. *)
Fixpoint insert_rows (tree : nat) (group_colors : list (string * string))
    (desired_columns : list string) (idx : nat) (filtered_data : list pydict) : M unit :=
  match filtered_data with
  | [] => ret tt
  | item :: rest =>
      let group := py_str (default (JStr "") (PyDict.get "group" item)) in
      let severity := PyText.lower (py_str (default (JStr "") (PyDict.get "severity" item))) in
      use_colors <- gets use_severity_colors ;;
      severity_colors <- gets custom_severity_colors ;;
      let tag :=
        if PyDict.mem group group_colors then "group_" ++ group
        else if use_colors && PyDict.mem severity severity_colors then "severity_" ++ severity
        else "" in
      let values :=
        pretty idx ::
        map (fun col => py_str (default (JStr "") (PyDict.get col item))) desired_columns in
      update_tree tree (tree_insert values tag) ;;;
      insert_rows tree group_colors desired_columns (S idx) rest
  end.

Definition refresh_table (tree : nat) (file_path : string) (error_label : nat)
    (filters : list (string * string)) (group_colors : list (string * string))
    (desired_columns : list string) (json_text : nat) (is_auto_refresh : bool)
    (last_manual_sync last_auto_sync : option Z) (popup : option nat)
    (record_count : nat) : M (option Z * option Z * nat) :=
  logging INFO (RefreshingTable file_path is_auto_refresh record_count) ;;;
  try_except
    (loaded <- load_json json_loads file_path (Some popup) record_count is_auto_refresh ;;
     let data := fst loaded in
     let new_record_count := snd loaded in
     match popup with Some p => popup_close p | None => ret tt end ;;;
     if match data with [] => true | _ => false end && negb is_auto_refresh then
       label_config error_label StatusNoData ;;;
       logging WARNING (NoDataFound file_path) ;;;
       ret (last_manual_sync, last_auto_sync, record_count)
     else
       (* Flatten nested dictionaries *)
       let flattened_data := map (fun item => flatten_json item "" ".") data in
       (* Apply filters *)
       let filtered_data := filter_data py_str flattened_data filters desired_columns in
       (if negb is_auto_refresh then update_tree tree tree_clear else ret tt) ;;;
       (if negb is_auto_refresh
        then update_tree tree (tree_set_columns ("Line" :: desired_columns))
        else ret tt) ;;;
       (* Insert rows with line numbers and apply colors *)
       t <- get_tree tree ;;
       let start_idx := if is_auto_refresh then (length (tree_children t) + 1)%nat else 1%nat in
       insert_rows tree group_colors desired_columns start_idx filtered_data ;;;
       (* Apply colors to tags *)
       for_each group_colors (fun gc =>
         update_tree tree (tree_tag_configure ("group_" ++ fst gc) (snd gc)) ;;;
         logging INFO (AppliedGroupColor (fst gc) (snd gc))) ;;;
       use_colors <- gets use_severity_colors ;;
       (if use_colors then
          severity_colors <- gets custom_severity_colors ;;
          for_each severity_colors (fun sc =>
            update_tree tree (tree_tag_configure ("severity_" ++ fst sc) (snd sc)) ;;;
            logging INFO (AppliedSeverityColor (fst sc) (snd sc)))
        else ret tt) ;;;
       (* Scroll to the bottom if auto-scroll is enabled *)
       auto_scroll <- gets auto_scroll_enabled ;;
       (if auto_scroll then update_tree tree tree_yview_bottom else ret tt) ;;;
       (* Update sync timestamps *)
       current_time <- gets now ;;
       (if is_auto_refresh
        then
          time <- time_time ;;
          modify (fun w => set_next_sync_time (Some (time + refresh_interval_ms w)%Z) w)
        else ret tt) ;;;
       let last_auto_sync := if is_auto_refresh then Some current_time else last_auto_sync in
       let last_manual_sync := if is_auto_refresh then last_manual_sync else Some current_time in
       (* Display with even spacing, including countdown *)
       let total_records := new_record_count in
       t <- get_tree tree ;;
       next <- gets next_sync_time ;;
       countdown <-
         match next with
         | Some next =>
             if (next =? 0)%Z then ret None
             else
               time <- time_time ;;
               ret (Some (format_time_remaining (Z.max 0 (next - time))))
         | None => ret None
         end ;;
       label_config error_label
         (StatusLoaded (length (tree_children t)) total_records
            last_manual_sync last_auto_sync countdown) ;;;
       logging INFO (TableRefreshed file_path (length (tree_children t)) total_records) ;;;
       ret (last_manual_sync, last_auto_sync, new_record_count))
    (fun e =>
       label_config error_label (StatusError e) ;;;
       showerror file_path e ;;;
       logging ERROR (RefreshFailed file_path e) ;;;
       ret (last_manual_sync, last_auto_sync, record_count)).

Definition tab_refreshed (t : tab) (r : option Z * option Z * nat) : tab :=
  {| tab_tree := tab_tree t; tab_error_label := tab_error_label t;
     tab_filters := tab_filters t; tab_group_colors := tab_group_colors t;
     tab_last_manual_sync := fst (fst r); tab_last_auto_sync := snd (fst r);
     tab_record_count := snd r; tab_json_text := tab_json_text t |}.

(** The body of the loop over [list(tabs.items())], shared in shape by
    [manual_refresh] and by the cycle of [periodic_refresh]; the two
    differ in [is_auto_refresh], in the count handed to
    [refresh_table] and in the log line of their handler. *)
Definition refresh_tab (desired_columns : list string) (is_auto_refresh : bool)
    (failed : string -> exn -> log_msg) (tabs : list (string * tab))
    (entry : string * tab) : M (list (string * tab)) :=
  let file_path := fst entry in
  let t := snd entry in
  try_except
    (popup <- PleaseWaitPopup ;;
     r <- refresh_table (tab_tree t) file_path (tab_error_label t) (tab_filters t)
            (tab_group_colors t) desired_columns (tab_json_text t) is_auto_refresh
            (tab_last_manual_sync t) (tab_last_auto_sync t) (Some popup)
            (if is_auto_refresh then tab_record_count t else 0%nat) ;;
     ret (PyDict.set file_path (tab_refreshed t r) tabs))
    (fun e =>
       label_config (tab_error_label t) (StatusError e) ;;;
       showerror file_path e ;;;
       logging ERROR (failed file_path e) ;;;
       ret tabs).

Fixpoint refresh_tabs (desired_columns : list string) (is_auto_refresh : bool)
    (failed : string -> exn -> log_msg) (snapshot : list (string * tab))
    (tabs : list (string * tab)) : M (list (string * tab)) :=
  match snapshot with
  | [] => ret tabs
  | entry :: rest =>
      tabs <- refresh_tab desired_columns is_auto_refresh failed tabs entry ;;
      refresh_tabs desired_columns is_auto_refresh failed rest tabs
  end.

(** [manual_refresh]: a full refresh of every tab; the count is reset
    to 0. *)
Definition manual_refresh (tabs : list (string * tab)) (desired_columns : list string)
    : M (list (string * tab)) :=
  refresh_tabs desired_columns false ManualRefreshFailed tabs tabs.

(** One cycle of the [while True] loop in [periodic_refresh]: an
    automatic refresh of every tab, each from its own seen count.  The
    thread then sleeps for the interval and runs the cycle again. *)
Definition periodic_refresh (tabs : list (string * tab)) (desired_columns : list string)
    : M (list (string * tab)) :=
  refresh_tabs desired_columns true PeriodicRefreshFailed tabs tabs.

End Refresh.

(** ** The state at start-up *)

(** The module-level globals as their initialisers leave them, over a
    given file system and time; each later reading of [time.time()] is
    one millisecond after the one before. *)
Definition initial_world (fs : gmap string string) (time : Z) : world :=
  {| files := fs; now := time; raw_data_cache := ∅;
     use_severity_colors := true;
     custom_severity_colors :=
       [("low", "#00FF00"); ("medium", "#FFFF00"); ("high", "#FF0000")];
     auto_scroll_enabled := true;
     refresh_interval_ms := 3600000;
     next_sync_time := None;
     trees := ∅; labels := ∅; popups := []; dialogs := []; log := [];
     clock := fun n => (time + Z.of_nat (S n))%Z |}.

(** ** A decoder and a [str()] for worked examples

    The theorems below hold for every [json_loads] and every [py_str].
    Worked examples need concrete ones.  [JsonText.loads] reads the JSON
    texts made of objects, arrays, strings without escapes, integers and
    the three literals, and on these it gives the value [json.loads]
    gives; any other text (fractions, exponents, escapes, the constants
    NaN and Infinity among them) is outside its domain and is answered
    with [None], so the examples stay inside the fragment. *)

Module JsonText.

Definition is_ws (c : ascii) : bool :=
  let n := N_of_ascii c in ((n =? 32) || (n =? 9) || (n =? 10) || (n =? 13))%N.

Fixpoint skip_ws (s : string) : string :=
  match s with
  | String c s' => if is_ws c then skip_ws s' else s
  | EmptyString => EmptyString
  end.

(** The double quote that delimits a JSON string. *)
Definition quote : ascii := ascii_of_N 34.

Definition is_digit (c : ascii) : bool :=
  let n := N_of_ascii c in ((48 <=? n) && (n <=? 57))%N.

Definition digit_value (c : ascii) : Z := Z.of_N (N_of_ascii c) - 48.

(** The body of a string up to its closing quote. *)
Fixpoint scan_string (s : string) : option (string * string) :=
  match s with
  | EmptyString => None
  | String c r =>
      if Ascii.eqb c quote then Some (EmptyString, r)
      else if Ascii.eqb c "\"%char || (N_of_ascii c <? 32)%N then None
      else match scan_string r with
           | Some (body, rest) => Some (String c body, rest)
           | None => None
           end
  end.

(** The digits at the head of [s], read after the value [acc]. *)
Fixpoint scan_digits (acc : Z) (s : string) : Z * string :=
  match s with
  | String c r => if is_digit c then scan_digits (10 * acc + digit_value c) r else (acc, s)
  | EmptyString => (acc, s)
  end.

(** An integer without sign: a lone 0, or digits that start with 1-9;
    a fraction or exponent after it leaves the fragment. *)
Definition scan_nat (s : string) : option (Z * string) :=
  match s with
  | String c r =>
      if is_digit c then
        let '(n, rest) := if Ascii.eqb c "0"%char then (0%Z, r) else scan_digits (digit_value c) r in
        match rest with
        | String d _ =>
            if Ascii.eqb d "."%char || Ascii.eqb d "e"%char || Ascii.eqb d "E"%char
            then None else Some (n, rest)
        | EmptyString => Some (n, rest)
        end
      else None
  | EmptyString => None
  end.

Definition scan_literal (s : string) : option (json * string) :=
  if String.prefix "true" s then Some (JBool true, String.substring 4 (String.length s - 4) s)
  else if String.prefix "false" s then Some (JBool false, String.substring 5 (String.length s - 5) s)
  else if String.prefix "null" s then Some (JNull, String.substring 4 (String.length s - 4) s)
  else match s with
       | String c r =>
           if Ascii.eqb c "-"%char
           then match scan_nat r with
                | Some (n, rest) => Some (JInt (- n), rest)
                | None => None
                end
           else match scan_nat s with
                | Some (n, rest) => Some (JInt n, rest)
                | None => None
                end
       | EmptyString => None
       end.

(** [parse_value] reads one value at the head of [s];
    [parse_elements] and [parse_members] read the rest of an array or
    object whose earlier entries are [acc].  A repeated member name
    keeps its first position and takes the last value, as in a
    [dict]. *)
Fixpoint parse_value (fuel : nat) (s : string) : option (json * string) :=
  match fuel with
  | O => None
  | S fuel =>
      match s with
      | EmptyString => None
      | String c r =>
          if Ascii.eqb c "{"%char then
            match skip_ws r with
            | String c' r' =>
                if Ascii.eqb c' "}"%char then Some (JObj [], r')
                else parse_members fuel (String c' r') []
            | EmptyString => None
            end
          else if Ascii.eqb c "["%char then
            match skip_ws r with
            | String c' r' =>
                if Ascii.eqb c' "]"%char then Some (JArr [], r')
                else parse_elements fuel (String c' r') []
            | EmptyString => None
            end
          else if Ascii.eqb c quote then
            match scan_string r with
            | Some (body, rest) => Some (JStr body, rest)
            | None => None
            end
          else scan_literal s
      end
  end
with parse_elements (fuel : nat) (s : string) (acc : list json) : option (json * string) :=
  match fuel with
  | O => None
  | S fuel =>
      match parse_value fuel s with
      | Some (v, r) =>
          match skip_ws r with
          | String c r' =>
              if Ascii.eqb c ","%char then parse_elements fuel (skip_ws r') (acc ++ [v])%list
              else if Ascii.eqb c "]"%char then Some (JArr (acc ++ [v])%list, r')
              else None
          | EmptyString => None
          end
      | None => None
      end
  end
with parse_members (fuel : nat) (s : string) (acc : list (string * json))
    : option (json * string) :=
  match fuel with
  | O => None
  | S fuel =>
      match s with
      | String q r =>
          if Ascii.eqb q quote then
            match scan_string r with
            | Some (k, r1) =>
                match skip_ws r1 with
                | String c r2 =>
                    if Ascii.eqb c ":"%char then
                      match parse_value fuel (skip_ws r2) with
                      | Some (v, r3) =>
                          match skip_ws r3 with
                          | String c' r4 =>
                              if Ascii.eqb c' ","%char
                              then parse_members fuel (skip_ws r4) (PyDict.set k v acc)
                              else if Ascii.eqb c' "}"%char
                              then Some (JObj (PyDict.set k v acc), r4)
                              else None
                          | EmptyString => None
                          end
                      | None => None
                      end
                    else None
                | EmptyString => None
                end
            | None => None
            end
          else None
      | EmptyString => None
      end
  end.

(** One value, white space allowed around it, and nothing else. *)
Definition loads (s : string) : option json :=
  match parse_value (2 * String.length s + 2) (skip_ws s) with
  | Some (v, rest) =>
      match skip_ws rest with
      | EmptyString => Some v
      | _ => None
      end
  | None => None
  end.

(** [str()] on the scalars [str], [int], [bool] and [None]; the
    examples hold no other value ([float], [list] and [dict] are
    outside its domain and answered with the empty string). *)
Definition str (j : json) : string :=
  match j with
  | JStr s => s
  | JInt z => pretty z
  | JBool true => "True"
  | JBool false => "False"
  | JNull => "None"
  | _ => ""
  end.

End JsonText.

(** Example texts are written with an apostrophe where the JSON text has
    a double quote; [json_text] puts the double quotes in. *)
Fixpoint json_text (s : string) : string :=
  match s with
  | String c s' =>
      String (if Ascii.eqb c "'"%char then JsonText.quote else c) (json_text s')
  | EmptyString => EmptyString
  end.

(** The line feed. *)
Definition LF : string := String (ascii_of_N 10) EmptyString.

(** ** The properties, as the specification words them *)

(** [needle] occurs in [hay]. *)
Definition substring_of (needle hay : string) : Prop :=
  exists before after, hay = before ++ needle ++ after.

Section FilterSpec.

Variable py_str : json -> string.

(** The string form of the record's value for a column, a missing
    column being the empty string. *)
Definition string_form (item : pydict) (col : string) : string :=
  match PyDict.get col item with
  | Some v => py_str v
  | None => EmptyString
  end.

(** A record passes a filter map when every column whose filter string
    is not empty has the lowered filter inside the lowered string form. *)
Definition passes (filters : list (string * string)) (item : pydict) : Prop :=
  forall col filter_text,
    In (col, filter_text) filters ->
    filter_text <> EmptyString ->
    substring_of (PyText.lower filter_text) (PyText.lower (string_form item col)).

End FilterSpec.

(** The example of the specification: two flattened records and the
    filter map [{severity: high}]. *)
Definition example_records : list pydict :=
  [ [("severity", JStr "High"); ("name", JStr "A")];
    [("severity", JStr "low"); ("name", JStr "B")] ].

Definition example_filters : list (string * string) := [("severity", "high")].

(** The dotted name of a leaf path, as the specification words it: the
    keys on the path joined with the separator. *)
Definition dotted_name (sep : string) (path : list string) : string :=
  String.concat sep path.

(** Number of distinct leaf paths of a record. *)
Definition leaf_path_count (d : pydict) : nat :=
  length (remove_dups (leaf_paths d)).

Definition no_dict_values (d : pydict) : Prop :=
  Forall (fun kv => is_dict (snd kv) = false) d.

(** The flatten invariant as claimed: without list-valued branches, no
    mapping-typed value is left and there are as many dotted keys as
    distinct leaf paths. *)
Definition flatten_invariant_as_claimed (d : pydict) : Prop :=
  no_list_branch (JObj d) = true ->
  no_dict_values (flatten_dict d EmptyString ".") /\
  length (flatten_dict d EmptyString ".") = leaf_path_count d.

(** A record with one nested mapping and one plain value. *)
Definition nested_record : pydict :=
  [("source_info", JObj [("ip", JStr "10.0.0.1")]); ("severity", JStr "high")].

(** A record with a dotted key beside a nested key of the same path. *)
Definition colliding_record : pydict :=
  [("a.b", JInt 1); ("a", JObj [("b", JInt 2)])].

(** White space, by code point: tab, line feed, vertical tab, form
    feed, carriage return, the separators FS, GS, RS and US, space, next
    line and no-break space. *)
Definition white_space : list N := [9; 10; 11; 12; 13; 28; 29; 30; 31; 32; 133; 160]%N.

Definition white (c : ascii) : Prop :=
  existsb (N.eqb (N_of_ascii c)) white_space = true.

(** A text of white space only. *)
Fixpoint blank (s : string) : Prop :=
  match s with
  | EmptyString => True
  | String c s' => white c /\ blank s'
  end.

Definition first_char (s : string) : option ascii :=
  match s with
  | String c _ => Some c
  | EmptyString => None
  end.

Fixpoint last_char (s : string) : option ascii :=
  match s with
  | EmptyString => None
  | String c s' =>
      match s' with
      | EmptyString => Some c
      | String _ _ => last_char s'
      end
  end.

(** [content] is [text] without its leading and trailing white space. *)
Definition trimmed (text content : string) : Prop :=
  exists before after,
    text = before ++ content ++ after
    /\ blank before /\ blank after
    /\ (forall c, first_char content = Some c -> ~ white c)
    /\ (forall c, last_char content = Some c -> ~ white c).

(** Line ends other than the carriage return, by code point: line feed,
    vertical tab, form feed, FS, GS, RS and next line. *)
Definition line_ends : list N := [10; 11; 12; 28; 29; 30; 133]%N.

(** The number of lines of a text: one for each line end, a carriage
    return taking a line feed that follows it along, and one more for
    text left after the last line end.  [pending] tells whether text
    was read since the last line end. *)
Fixpoint line_count_from (pending : bool) (s : string) : nat :=
  match s with
  | EmptyString => if pending then 1 else 0
  | String c s' =>
      if (N_of_ascii c =? 13)%N then
        match s' with
        | String c' s'' =>
            if (N_of_ascii c' =? 10)%N then S (line_count_from false s'')
            else S (line_count_from false s')
        | EmptyString => 1
        end
      else if existsb (N.eqb (N_of_ascii c)) line_ends then S (line_count_from false s')
      else line_count_from true s'
  end.

Definition line_count (s : string) : nat := line_count_from false s.

Section LoaderSpec.

Variable json_loads : string -> option json.

(** The lines the loader works on: [f.read().strip().splitlines()]. *)
Definition stripped_lines (text : string) : list string :=
  PyText.splitlines (PyText.strip text).

(** The per-line rule of the line-oriented mode: each non-empty line is
    parsed on its own, mapping-typed results are kept, and a line that
    does not parse fails the whole list. *)
Fixpoint line_records (lines : list string) : option (list json) :=
  match lines with
  | [] => Some []
  | line :: rest =>
      if PyText.truthy (PyText.strip line) then
        match json_loads (PyText.strip line), line_records rest with
        | Some item, Some records => Some (if is_dict item then item :: records else records)
        | _, _ => None
        end
      else line_records rest
  end.

(** A non-empty line that fails to parse as JSON; the line is taken
    stripped, as the loop takes it before it tests and parses it. *)
Definition bad_line (line : string) : Prop :=
  PyText.strip line <> EmptyString /\ json_loads (PyText.strip line) = None.

(** The cached record list of a path; none is the empty list. *)
Definition cached (w : world) (file_path : string) : list json :=
  default [] (raw_data_cache w !! file_path).

(** The round trip as claimed: a full load of a file whose content
    parses as one JSON array of mappings returns the entries of the
    array with the line count of the file's content. *)
Definition round_trip_as_claimed (w : world) (file_path : string)
    (progress_callback : option callback) : Prop :=
  forall text items,
    files w !! file_path = Some text ->
    json_loads text = Some (JArr items) ->
    forallb is_dict items = true ->
    exists w',
      load_json json_loads file_path progress_callback 0 false w
      = (Return (items, line_count text), w').

(** The cache bound as claimed: after any successful load the cached
    list is no longer than the line count of the stripped content. *)
Definition cache_bound_as_claimed (w : world) (file_path : string)
    (progress_callback : option callback) (last_record_count : nat)
    (partial_load : bool) : Prop :=
  forall text data total w',
    files w !! file_path = Some text ->
    load_json json_loads file_path progress_callback last_record_count partial_load w
      = (Return (data, total), w') ->
    length (cached w' file_path) <= length (stripped_lines text).

(** The incremental contract as claimed, for a seen count [N]: the
    records of the lines after index [N] come back with the new line
    count, and are appended to what was cached. *)
Definition incremental_load_as_claimed (w : world) (file_path : string)
    (progress_callback : option callback) (N : nat) : Prop :=
  forall text records,
    files w !! file_path = Some text ->
    line_records (drop N (stripped_lines text)) = Some records ->
    exists w',
      load_json json_loads file_path progress_callback N true w
        = (Return (records, length (stripped_lines text)), w') /\
      cached w' file_path = (cached w file_path ++ records)%list.

(** The incremental failure rule as claimed: a bad new line aborts the
    load and leaves the cached list of the path as it was. *)
Definition incremental_abort_as_claimed (w : world) (file_path : string)
    (progress_callback : option callback) (N : nat) : Prop :=
  forall text,
    files w !! file_path = Some text ->
    Exists bad_line (drop N (stripped_lines text)) ->
    (exists e w',
       load_json json_loads file_path progress_callback N true w = (Raise e, w')) /\
    raw_data_cache
      (snd (load_json json_loads file_path progress_callback N true w)) !! file_path
    = raw_data_cache w !! file_path.

Variable py_str : json -> string.

(** The state in which [refresh_table] calls [load_json]: its first
    statement has written one log line. *)
Definition refresh_entry (file_path : string) (is_auto_refresh : bool)
    (record_count : nat) (w : world) : world :=
  snd (logging INFO (RefreshingTable file_path is_auto_refresh record_count) w).

(** The failure rule as claimed for an automatic refresh: when the load
    fails no modal notification is shown. *)
Definition auto_failure_as_claimed (w : world) (t : tab) (file_path : string)
    (desired_columns : list string) (popup : option nat) : Prop :=
  forall e w',
    load_json json_loads file_path (Some popup) (tab_record_count t) true
      (refresh_entry file_path true (tab_record_count t) w) = (Raise e, w') ->
    dialogs
      (snd (refresh_table json_loads py_str (tab_tree t) file_path (tab_error_label t)
              (tab_filters t) (tab_group_colors t) desired_columns (tab_json_text t) true
              (tab_last_manual_sync t) (tab_last_auto_sync t) popup (tab_record_count t) w))
    = dialogs w.

End LoaderSpec.

(** *** The loader as a function of the file and the cache

    [load_result] gives, from the text of the file (if it can be read),
    the seen count, the mode and the cached list of the path, what
    [load_json] returns or raises and the list it leaves cached ([None]:
    the cache is not written).  [load_json_result] below proves that
    [load_json] computes exactly this, and beyond the cache touches the
    log and the popups only. *)

Definition load_result (json_loads : string -> option json) (text : option string)
    (last_record_count : nat) (partial_load : bool) (old : option (list json))
    : outcome (list json * nat) * option (list json) :=
  match text with
  | None => (Raise (LoadError OSError), None)
  | Some text =>
      let lines := stripped_lines text in
      if partial_load && (0 <? last_record_count)%nat then
        match line_records json_loads (drop last_record_count lines) with
        | Some records =>
            (Return (records, length lines), Some (default [] old ++ records)%list)
        | None => (Raise (LoadError JSONDecodeError), None)
        end
      else
        match json_loads (PyText.strip text) with
        | Some (JArr items) =>
            if forallb is_dict items then (Return (items, length lines), Some items)
            else (Raise (LoadError (ValueError "JSON items must be dictionaries.")), None)
        | Some (JObj d) => (Return ([JObj d], length lines), Some [JObj d])
        | Some _ =>
            (Raise (LoadError (ValueError
               "JSON must be a list of dictionaries or a single dictionary.")), None)
        | None =>
            match line_records json_loads lines with
            | Some [] => (Raise (LoadError (ValueError "No valid JSON objects found.")), None)
            | Some records => (Return (records, length lines), Some records)
            | None => (Raise (LoadError JSONDecodeError), None)
            end
        end
  end.

(** The cache after a load that leaves [entry] under [file_path]. *)
Definition write_cache (file_path : string) (entry : option (list json)) (w : world) : world :=
  match entry with
  | Some records => set_raw_data_cache (<[file_path := records]> (raw_data_cache w)) w
  | None => w
  end.

(** [w'] differs from [w] in the log and the popups at most. *)
Definition quiet (w w' : world) : Prop :=
  w' = set_log (log w') (set_popups (popups w') w).

(** *** Worked inputs *)

(** A tab as [main] sets it up for its columns, before the first load. *)
Definition fresh_tab (desired_columns : list string) : tab :=
  {| tab_tree := 0; tab_error_label := 0;
     tab_filters := map (fun col => (col, EmptyString)) desired_columns;
     tab_group_colors := [];
     tab_last_manual_sync := Some 0%Z; tab_last_auto_sync := None;
     tab_record_count := 0; tab_json_text := 0 |}.

(** The same tab once [record_count] lines of its file are seen. *)
Definition seen_tab (desired_columns : list string) (record_count : nat) : tab :=
  {| tab_tree := 0; tab_error_label := 0;
     tab_filters := map (fun col => (col, EmptyString)) desired_columns;
     tab_group_colors := [];
     tab_last_manual_sync := Some 0%Z; tab_last_auto_sync := None;
     tab_record_count := record_count; tab_json_text := 0 |}.

(** The columns [main] asks for. *)
Definition main_columns : list string :=
  ["source_info.ip"; "severity"; "type"; "name"; "id"; "group"; "rt"; "dhost";
   "endpoint_id"; "endpoint_type"].

(** A file system with one file. *)
Definition one_file (file_path text : string) : gmap string string :=
  {[ file_path := text ]}.

(** A JSON array of two mappings on one line. *)
Definition array_text : string := json_text "[{'a':1},{'b':2}]".

(** The same array after one empty line and before three line ends:
    a file of four lines. *)
Definition padded_array_text : string := LF ++ array_text ++ LF ++ LF ++ LF.

(** One mapping, pretty-printed over three lines. *)
Definition pretty_text : string :=
  json_text ("{" ++ LF ++ "'a': 1" ++ LF ++ "}").

(** Five JSON lines; the third is not JSON. *)
Definition five_lines_bad_third : string :=
  json_text ("{'id':1}" ++ LF ++ "{'id':2}" ++ LF ++ "{'id':" ++ LF
             ++ "{'id':4}" ++ LF ++ "{'id':5}" ++ LF).

(** Three JSON lines, of which two are already seen, then one more. *)
Definition three_lines : string :=
  json_text ("{'id':1}" ++ LF ++ "{'id':2}" ++ LF ++ "{'id':3}" ++ LF).

(** A tracked file with two lines seen and a malformed third line, at
    the point where the periodic cycle has opened its popup (handle 0). *)
Definition tracked_world : world :=
  snd (PleaseWaitPopup (initial_world (one_file "app.jsonl" five_lines_bad_third) 0)).

(** *** The rows of a table

    What the row loop of [refresh_table] writes, as values: the row of
    one record under the colour settings of a state, and the rows of a
    list of records numbered from [idx]. *)

(** The table a handle stands for; a handle not yet used is an empty
    table. *)
Definition tree_of (w : world) (tree : nat) : treeview :=
  default empty_tree (trees w !! tree).

Section Rows.

Variable py_str : json -> string.

(** The tag of a row: the colour of its group when one is set, else the
    colour of its severity when severity colours are on, else none. *)
Definition row_tag (w : world) (group_colors : list (string * string)) (item : pydict)
    : string :=
  let group := py_str (default (JStr "") (PyDict.get "group" item)) in
  let severity := PyText.lower (py_str (default (JStr "") (PyDict.get "severity" item))) in
  if PyDict.mem group group_colors then "group_" ++ group
  else if use_severity_colors w && PyDict.mem severity (custom_severity_colors w)
       then "severity_" ++ severity
       else "".

(** The cells of a row: the line number, then one cell per column. *)
Definition row_values (desired_columns : list string) (idx : nat) (item : pydict)
    : list string :=
  pretty idx ::
  map (fun col => py_str (default (JStr "") (PyDict.get col item))) desired_columns.

Fixpoint table_rows (w : world) (group_colors : list (string * string))
    (desired_columns : list string) (idx : nat) (items : list pydict)
    : list (list string * string) :=
  match items with
  | [] => []
  | item :: rest =>
      (row_values desired_columns idx item, row_tag w group_colors item)
      :: table_rows w group_colors desired_columns (S idx) rest
  end.

End Rows.


(** The countdown part of the status text, from the next sync time and
    the clock. *)
Definition countdown_text (next : option Z) (time : Z) : option string :=
  match next with
  | Some next =>
      if (next =? 0)%Z then None
      else Some (format_time_remaining (Z.max 0 (next - time)))
  | None => None
  end.

(** [popup.close()] on the popup states. *)
Definition closed (p : popup_state) : popup_state :=
  {| popup_open := false; popup_value := popup_value p |}.

(** Which popups are open, by handle. *)
Definition popup_flags (w : world) : list bool := popup_open <$> popups w.

(** The popups open in [w] are those of [flags]. *)
Definition flags_are (flags : list bool) (w : world) : Prop := popup_flags w = flags.

(** A computation keeps a property of the state when every run from a
    state that has it, returning or raising, ends in a state that has
    it. *)
Definition keeps {A} (I : world -> Prop) (m : M A) : Prop :=
  forall w, I w -> I (snd (m w)).

(** The log lines of a refresh cycle itself: the popup opened for a
    tab, the first line of [refresh_table], and the failure line of the
    handler of [periodic_refresh] or of [manual_refresh]. *)
Definition cycle_event (entry : level * log_msg) : bool :=
  match snd entry with
  | PopupOpened | RefreshingTable _ _ _
  | PeriodicRefreshFailed _ _ | ManualRefreshFailed _ _ => true
  | _ => false
  end.

(** Those lines for a cycle that refreshes each tab in turn and never
    reaches its handler: per tab, a popup is opened and [refresh_table]
    starts on the path of the tab, with the seen count of the tab in a
    periodic cycle and the count 0 in a manual one. *)
Definition cycle_events (is_auto_refresh : bool) (tabs : list (string * tab))
    : list (level * log_msg) :=
  flat_map
    (fun entry =>
       [(INFO, PopupOpened);
        (INFO, RefreshingTable (fst entry) is_auto_refresh
                 (if is_auto_refresh then tab_record_count (snd entry) else 0%nat))])
    tabs.

(** The log of [w] is [base] followed by lines of which those of the
    cycle are [marks]. *)
Definition log_marks (base marks : list (level * log_msg)) (w : world) : Prop :=
  exists added, log w = (base ++ added)%list /\ List.filter cycle_event added = marks.

(** [w'] differs from [w] in the table [tree] and in the log at most. *)
Definition table_step (tree : nat) (w w' : world) : Prop :=
  w' = set_log (log w') (set_trees (trees w') w)
  /\ forall other, other <> tree -> trees w' !! other = trees w !! other.

(** * Proofs *)

(** ** Text primitives *)

Lemma append_nil_l (s : string) : EmptyString ++ s = s.
Proof. reflexivity. Qed.

Lemma append_cons (c : ascii) (p s : string) : String c p ++ s = String c (p ++ s).
Proof. reflexivity. Qed.

Lemma prefix_spec (p s : string) :
  String.prefix p s = true <-> exists rest, s = p ++ rest.
Proof.
  revert s. induction p as [|c p IH]; intros [|c' s]; cbn [String.prefix].
  - split; [intros _; by exists EmptyString | done].
  - split; [intros _; by eexists | done].
  - split; [done | intros [rest Hrest]; discriminate].
  - setoid_rewrite append_cons. destruct (Ascii.ascii_dec c c') as [->|Hne].
    + rewrite IH. split; intros [rest Hrest]; exists rest; congruence.
    + split; [done | intros [rest Hrest]; congruence].
Qed.

(** [PyText.contains] decides the substring relation. *)
Lemma contains_spec (needle hay : string) :
  PyText.contains needle hay = true <-> substring_of needle hay.
Proof.
  unfold substring_of.
  induction hay as [|c hay IH]; cbn [PyText.contains].
  - rewrite orb_false_r, prefix_spec. split.
    + intros [rest Hrest]. by exists EmptyString, rest.
    + intros [[|c b] [a Ha]]; [by exists a | discriminate].
  - rewrite orb_true_iff, prefix_spec, IH. split.
    + intros [[rest Hrest] | (b & a & Hba)].
      * by exists EmptyString, rest.
      * exists (String c b), a. by rewrite append_cons, Hba.
    + intros ([|c' b] & a & Hba).
      * left. by exists a.
      * right. exists b, a. rewrite append_cons in Hba. congruence.
Qed.

Lemma truthy_spec (s : string) : PyText.truthy s = true <-> s <> EmptyString.
Proof. destruct s; simpl; split; congruence. Qed.

(** ** Filter engine *)

Section FilterFacts.

Variable py_str : json -> string.

(** The accumulating loop is a filter on the flag computed by the inner
    loop. *)
Lemma filter_loop_acc (filters : list (string * string)) (data acc : list pydict) :
  fold_left
    (fun filtered_data item =>
       if filters_match py_str item filters then (filtered_data ++ [item])%list
       else filtered_data)
    data acc
  = (acc ++ List.filter (fun item => filters_match py_str item filters) data)%list.
Proof.
  revert acc. induction data as [|item data IH]; intros acc; simpl.
  - by rewrite app_nil_r.
  - rewrite IH. destruct (filters_match py_str item filters); [|done].
    by rewrite <- app_assoc.
Qed.

Lemma filter_data_filter (data : list pydict) (filters : list (string * string))
    (desired_columns : list string) :
  filter_data py_str data filters desired_columns
  = List.filter (fun item => filters_match py_str item filters) data.
Proof. unfold filter_data. by rewrite filter_loop_acc. Qed.

Lemma filter_data_app (d1 d2 : list pydict) filters cols :
  filter_data py_str (d1 ++ d2) filters cols
  = (filter_data py_str d1 filters cols ++ filter_data py_str d2 filters cols)%list.
Proof. rewrite !filter_data_filter. apply List.filter_app. Qed.

Lemma filter_data_sublist (data : list pydict) filters cols :
  filter_data py_str data filters cols `sublist_of` data.
Proof.
  rewrite filter_data_filter.
  induction data as [|item data IH]; simpl; [constructor|].
  destruct (filters_match py_str item filters); by constructor.
Qed.

Hypothesis py_str_str : forall s, py_str (JStr s) = s.

(** What [str(item.get(col, ''))] evaluates to. *)
Lemma value_string_form (item : pydict) (col : string) :
  py_str (default (JStr EmptyString) (PyDict.get col item)) = string_form py_str item col.
Proof. unfold string_form. destruct (PyDict.get col item); simpl; [done | apply py_str_str]. Qed.

(** The flag left by the inner loop is the specification's condition. *)
Lemma filters_match_passes (filters : list (string * string)) (item : pydict) :
  filters_match py_str item filters = true <-> passes py_str filters item.
Proof.
  unfold passes. induction filters as [|[col filter_text] rest IH]; simpl.
  - split; [intros _ ? ? [] | done].
  - rewrite value_string_form.
    destruct (PyText.truthy filter_text) eqn:Htruthy.
    + destruct (PyText.contains _ _) eqn:Hin; simpl.
      * rewrite IH. split.
        -- intros Hrest c f [[= <- <-]|Hmem] Hne; [by apply contains_spec | by apply Hrest].
        -- intros Hall c f Hmem. apply Hall. by right.
      * split; [done|]. intros Hall.
        assert (substring_of (PyText.lower filter_text)
                  (PyText.lower (string_form py_str item col))) as Hsub.
        { apply Hall; [by left | by apply truthy_spec]. }
        apply contains_spec in Hsub. congruence.
    + rewrite IH. split.
      * intros Hrest c f [[= <- <-]|Hmem] Hne; [|by apply Hrest].
        apply truthy_spec in Hne. congruence.
      * intros Hall c f Hmem. apply Hall. by right.
Qed.

End FilterFacts.

(** C7. Filtering keeps exactly the records that pass: the kept list is
    the input restricted to the records whose flag is set, and the flag is
    set if and only if every column with a non-empty filter string has
    the lowered filter inside the lowered string form of the record's
    value (the empty string for a missing column).  On the example of
    the specification only the record with severity High is returned. *)
Theorem filter_data_keeps_passing (py_str : json -> string)
    (py_str_str : forall s, py_str (JStr s) = s)
    (data : list pydict) (filters : list (string * string)) (desired_columns : list string) :
  filter_data py_str data filters desired_columns
    = List.filter (fun item => filters_match py_str item filters) data
  /\ (forall item, filters_match py_str item filters = true <-> passes py_str filters item)
  /\ (forall item, In item (filter_data py_str data filters desired_columns)
                   <-> In item data /\ passes py_str filters item)
  /\ filter_data py_str example_records example_filters desired_columns
     = [ [("severity", JStr "High"); ("name", JStr "A")] ].
Proof.
  split; [apply filter_data_filter|].
  split; [intros item; by apply filters_match_passes|].
  split.
  - intros item. rewrite filter_data_filter, List.filter_In.
    by rewrite filters_match_passes.
  - rewrite filter_data_filter. unfold example_records, example_filters. simpl.
    rewrite !py_str_str. reflexivity.
Qed.

Lemma filter_data_keeps_passing_witness :
  (forall s, JsonText.str (JStr s) = s)
  /\ filter_data JsonText.str example_records example_filters main_columns
     = List.filter (fun item => filters_match JsonText.str item example_filters) example_records
  /\ (forall item, filters_match JsonText.str item example_filters = true
                   <-> passes JsonText.str example_filters item)
  /\ (forall item,
        In item (filter_data JsonText.str example_records example_filters main_columns)
        <-> In item example_records /\ passes JsonText.str example_filters item)
  /\ filter_data JsonText.str example_records example_filters main_columns
     = [ [("severity", JStr "High"); ("name", JStr "A")] ].
Proof.
  split; [reflexivity|].
  exact (filter_data_keeps_passing JsonText.str (fun s => eq_refl)
           example_records example_filters main_columns).
Defined.

(** C9. Filtering twice with the same filter map gives what filtering
    once gives, and the result depends on the input list and the filter
    map only: the column list handed over plays no part. *)
Theorem filter_data_idempotent (py_str : json -> string)
    (data : list pydict) (filters : list (string * string))
    (desired_columns desired_columns' : list string) :
  filter_data py_str (filter_data py_str data filters desired_columns) filters desired_columns'
    = filter_data py_str data filters desired_columns
  /\ filter_data py_str data filters desired_columns
     = filter_data py_str data filters desired_columns'.
Proof.
  rewrite !filter_data_filter. split; [|done].
  induction data as [|item data IH]; simpl; [done|].
  destruct (filters_match py_str item filters) eqn:Hflag; simpl; [|done].
  by rewrite Hflag, IH.
Qed.

(** C10. The filter engine returns a subsequence of its input: the
    output is obtained by deleting records, every output record is an
    input record, and each occurrence is kept or dropped where it stands,
    so duplicates and the relative order are kept. *)
Theorem filter_data_subsequence (py_str : json -> string)
    (data : list pydict) (filters : list (string * string)) (desired_columns : list string) :
  filter_data py_str data filters desired_columns `sublist_of` data
  /\ (forall item, In item (filter_data py_str data filters desired_columns) -> In item data)
  /\ (forall before item after,
        data = (before ++ item :: after)%list ->
        filter_data py_str data filters desired_columns
        = (filter_data py_str before filters desired_columns
           ++ (if filters_match py_str item filters then [item] else [])
           ++ filter_data py_str after filters desired_columns)%list).
Proof.
  split; [apply filter_data_sublist|]. split.
  - intros item. rewrite filter_data_filter, List.filter_In. tauto.
  - intros before item after ->.
    rewrite filter_data_app. f_equal.
    change (item :: after) with ([item] ++ after)%list.
    rewrite filter_data_app. f_equal.
Qed.

(** ** Dictionaries *)

Section DictFacts.

Context {V : Type}.
Implicit Types (d : list (string * V)) (k : string) (v : V).

Lemma elem_of_map {A B} (f : A -> B) (l : list A) (y : B) :
  y ∈ map f l <-> exists x, f x = y /\ x ∈ l.
Proof.
  rewrite list_elem_of_In, in_map_iff.
  split; intros (x & Hx & Hin); exists x; by rewrite ?list_elem_of_In in *.
Qed.

Lemma keys_set_elem k v d x :
  x ∈ PyDict.keys (PyDict.set k v d) <-> x = k \/ x ∈ PyDict.keys d.
Proof.
  unfold PyDict.keys. induction d as [|[k' v'] d IH]; simpl.
  - rewrite list_elem_of_singleton. split; [by left | intros [?|Hin]; [done | inversion Hin]].
  - destruct (String.eqb_spec k k') as [->|Hne]; simpl.
    + rewrite !elem_of_cons. tauto.
    + rewrite !elem_of_cons, IH. tauto.
Qed.

Lemma keys_set_NoDup k v d :
  NoDup (PyDict.keys d) -> NoDup (PyDict.keys (PyDict.set k v d)).
Proof.
  induction d as [|[k' v'] d IH]; simpl.
  - intros _. apply NoDup_singleton.
  - destruct (String.eqb_spec k k') as [->|Hne]; simpl; [done|].
    rewrite !NoDup_cons. intros [Hnotin Hnodup]. split; [|by apply IH].
    change (k' ∉ PyDict.keys (PyDict.set k v d)).
    rewrite keys_set_elem. intros [?|?]; [congruence | done].
Qed.

Lemma set_Forall (P : string * V -> Prop) k v d :
  P (k, v) -> Forall P d -> Forall P (PyDict.set k v d).
Proof.
  intros Hkv. induction 1 as [|[k' v'] d Hhead Htail IH]; simpl.
  - by constructor.
  - destruct (String.eqb k k'); by constructor.
Qed.

Lemma fold_set_elem (items : list (string * V)) d x :
  x ∈ PyDict.keys (fold_left (fun d kv => PyDict.set (fst kv) (snd kv) d) items d)
  <-> x ∈ PyDict.keys d \/ x ∈ map fst items.
Proof.
  revert d. induction items as [|[k v] items IH]; intros d; simpl.
  - split; [by left | intros [?|Hin]; [done | inversion Hin]].
  - rewrite IH, keys_set_elem, elem_of_cons. tauto.
Qed.

Lemma fold_set_NoDup (items : list (string * V)) d :
  NoDup (PyDict.keys d) ->
  NoDup (PyDict.keys (fold_left (fun d kv => PyDict.set (fst kv) (snd kv) d) items d)).
Proof.
  revert d. induction items as [|[k v] items IH]; intros d Hd; simpl; [done|].
  by apply IH, keys_set_NoDup.
Qed.

Lemma fold_set_Forall (P : string * V -> Prop) (items : list (string * V)) d :
  Forall P items -> Forall P d ->
  Forall P (fold_left (fun d kv => PyDict.set (fst kv) (snd kv) d) items d).
Proof.
  intros Hitems. revert d. induction Hitems as [|[k v] items Hkv Hitems IH]; intros d Hd; simpl.
  - done.
  - by apply IH, set_Forall.
Qed.

(** [dict(items)] has the keys of [items], each once. *)
Lemma of_items_elem (items : list (string * V)) x :
  x ∈ PyDict.keys (PyDict.of_items items) <-> x ∈ map fst items.
Proof.
  unfold PyDict.of_items. rewrite fold_set_elem. simpl.
  split; [intros [Hin|?]; [inversion Hin | done] | by right].
Qed.

Lemma of_items_NoDup (items : list (string * V)) :
  NoDup (PyDict.keys (PyDict.of_items items)).
Proof. apply fold_set_NoDup. constructor. Qed.

Lemma of_items_Forall (P : string * V -> Prop) (items : list (string * V)) :
  Forall P items -> Forall P (PyDict.of_items items).
Proof. intros Hitems. by apply fold_set_Forall. Qed.

End DictFacts.

Lemma remove_dups_length_le `{EqDecision A} (l : list A) :
  length (remove_dups l) <= length l.
Proof.
  induction l as [|x l IH]; simpl; [done|].
  destruct (decide_rel elem_of x l); simpl; lia.
Qed.

(** Two lists with the same elements have as many distinct elements. *)
Lemma remove_dups_length_same `{EqDecision A} (l k : list A) :
  (forall x, x ∈ l <-> x ∈ k) -> length (remove_dups l) = length (remove_dups k).
Proof.
  intros Hsame. apply Permutation_length, NoDup_Permutation.
  - apply NoDup_remove_dups.
  - apply NoDup_remove_dups.
  - intros x. by rewrite !elem_of_remove_dups.
Qed.

Lemma NoDup_length_remove_dups `{EqDecision A} (l : list A) :
  NoDup l -> length l = length (remove_dups l).
Proof.
  intros Hl. apply Permutation_length, NoDup_Permutation; [done | apply NoDup_remove_dups |].
  intros x. by rewrite elem_of_remove_dups.
Qed.

(** ** Flattener *)

Lemma flatten_json_items (d : pydict) (parent_key sep : string) :
  flatten_json (JObj d) parent_key sep = PyDict.of_items (flatten_items d parent_key sep).
Proof.
  simpl. f_equal. induction d as [|[k v] d IH]; simpl; [done|]. by rewrite IH.
Qed.

(** The leaf paths of a dictionary, member by member. *)
Lemma leaf_paths_cons (k : string) (v : json) (d : pydict) :
  leaf_paths ((k, v) :: d)
  = ((if is_dict v then map (cons k) (leaf_paths_json v) else [[k]]) ++ leaf_paths d)%list.
Proof. reflexivity. Qed.

Lemma dotted_cons (parent_key sep k : string) (path : list string) :
  dotted parent_key sep (k :: path) = dotted (new_key parent_key sep k) sep path.
Proof. reflexivity. Qed.

(** No value of a flattened record is a mapping. *)
Lemma flatten_json_no_dict (j : json) :
  forall parent_key sep, no_dict_values (flatten_json j parent_key sep).
Proof.
  unfold no_dict_values.
  induction j as [| | | | | |members IH] using json_ind; intros parent_key sep;
    try by constructor.
  rewrite flatten_json_items. apply of_items_Forall.
  induction IH as [|[k v] d Hv Hd IHd]; simpl; [constructor|].
  apply Forall_app. split; [|done].
  destruct (is_dict v) eqn:Hdict.
  - apply Hv.
  - by repeat constructor.
Qed.

(** The keys of a flattened record are the dotted names of the leaf
    paths. *)
Lemma flatten_json_keys (j : json) :
  forall parent_key sep x,
    x ∈ PyDict.keys (flatten_json j parent_key sep)
    <-> x ∈ map (dotted parent_key sep) (leaf_paths_json j).
Proof.
  induction j as [| | | | | |members IH] using json_ind; intros parent_key sep x;
    try solve [simpl; split; intros Hin; inversion Hin].
  rewrite flatten_json_items, of_items_elem.
  change (leaf_paths_json (JObj members)) with (leaf_paths members).
  induction IH as [|[k v] d Hv Hd IHd]; [done|].
  rewrite leaf_paths_cons. simpl flatten_items.
  rewrite !map_app, !elem_of_app, IHd.
  apply or_iff_compat_r.
  destruct (is_dict v) eqn:Hdict.
  - simpl in Hv. unfold PyDict.keys in Hv. rewrite Hv, map_map.
    by setoid_rewrite dotted_cons.
  - simpl. by rewrite !list_elem_of_singleton.
Qed.

Lemma append_assoc_s (a b c : string) : (a ++ b) ++ c = a ++ (b ++ c).
Proof. induction a as [|x a IH]; [done|]. by rewrite !append_cons, IH. Qed.

Lemma concat_head (sep p k : string) (rest : list string) :
  String.concat sep ((p ++ sep ++ k) :: rest) = p ++ sep ++ String.concat sep (k :: rest).
Proof.
  destruct rest as [|r rest]; cbn [String.concat]; [done|].
  by rewrite !append_assoc_s.
Qed.

(** The dotted key the flattener builds for a path is the dotted name
    of the specification, below a parent key that is not empty and for
    a path that starts with a key that is not empty. *)
Lemma dotted_below (sep : string) (path : list string) :
  forall p, p <> EmptyString -> dotted p sep path = dotted_name sep (p :: path).
Proof.
  unfold dotted_name.
  induction path as [|k rest IH]; intros p Hp; [done|].
  rewrite dotted_cons. unfold new_key.
  apply truthy_spec in Hp. rewrite Hp.
  rewrite IH.
  - rewrite concat_head. reflexivity.
  - by destruct p.
Qed.

Lemma dotted_top (sep : string) (k : string) (rest : list string) :
  k <> EmptyString -> dotted EmptyString sep (k :: rest) = dotted_name sep (k :: rest).
Proof. intros Hk. rewrite dotted_cons. cbn [new_key PyText.truthy]. by apply dotted_below. Qed.

Lemma leaf_paths_head (d : pydict) (path : list string) :
  path ∈ leaf_paths d -> exists k rest, path = k :: rest /\ k ∈ PyDict.keys d.
Proof.
  induction d as [|[k v] d IH]; [by intros ?%elem_of_nil|].
  rewrite leaf_paths_cons, elem_of_app. intros [Hhere|Hrest].
  - destruct (is_dict v).
    + apply elem_of_map in Hhere as (rest & Heq & _). exists k, rest. split; [done|]. by left.
    + apply list_elem_of_singleton in Hhere as ->. exists k, []. split; [done|]. by left.
  - destruct (IH Hrest) as (k' & rest & -> & Hk). exists k', rest. split; [done|]. by right.
Qed.

Lemma dotted_names (d : pydict) (sep : string) :
  Forall (fun kv => fst kv <> EmptyString) d ->
  map (dotted EmptyString sep) (leaf_paths d) = map (dotted_name sep) (leaf_paths d).
Proof.
  intros Hkeys. apply map_ext_in. intros path Hin.
  apply list_elem_of_In in Hin.
  destruct (leaf_paths_head d path Hin) as (k & rest & -> & Hk).
  apply dotted_top.
  unfold PyDict.keys in Hk. apply elem_of_map in Hk as ([k' v] & Heq & Hkv). simpl in Heq. subst k'.
  rewrite Forall_forall in Hkeys. exact (Hkeys _ Hkv).
Qed.

(** C8 as claimed fails: a record without lists whose dotted key "a.b"
    meets the nested path a, b has two distinct leaf paths and one
    dotted key. *)
Lemma flatten_invariant_counterexample :
  ~ flatten_invariant_as_claimed colliding_record.
Proof.
  intros Hclaim. destruct (Hclaim eq_refl) as [_ Hcount].
  vm_compute in Hcount. discriminate.
Qed.

(** C8, amended. For every record, the flattened result has no
    mapping-typed value and no key twice, and has at most as many keys
    as the record has distinct leaf paths.  When no top-level key of the
    record is the empty string, its keys are exactly the dotted names of
    the leaf paths, each the keys on the path joined with the separator:
    their number is the number of distinct dotted names, and it is the
    number of distinct leaf paths when distinct leaf paths have distinct
    dotted names. *)
Theorem flatten_dict_dotted_keys (d : pydict) (sep : string) :
  no_dict_values (flatten_dict d EmptyString sep)
  /\ NoDup (PyDict.keys (flatten_dict d EmptyString sep))
  /\ length (flatten_dict d EmptyString sep) <= leaf_path_count d
  /\ (Forall (fun kv => fst kv <> EmptyString) d ->
      (forall key,
         key ∈ PyDict.keys (flatten_dict d EmptyString sep)
         <-> exists path, path ∈ leaf_paths d /\ dotted_name sep path = key)
      /\ length (flatten_dict d EmptyString sep)
         = length (remove_dups (map (dotted_name sep) (leaf_paths d)))
      /\ (NoDup (map (dotted_name sep) (remove_dups (leaf_paths d))) ->
          length (flatten_dict d EmptyString sep) = leaf_path_count d)).
Proof.
  assert (NoDup (PyDict.keys (flatten_dict d EmptyString sep))) as Hnodup.
  { unfold flatten_dict. rewrite flatten_json_items. apply of_items_NoDup. }
  assert (length (flatten_dict d EmptyString sep)
          = length (remove_dups (map (dotted EmptyString sep) (leaf_paths d)))) as Hkeys.
  { unfold flatten_dict.
    rewrite <- (length_map fst (flatten_json (JObj d) EmptyString sep)).
    rewrite (NoDup_length_remove_dups (map fst (flatten_json (JObj d) EmptyString sep)));
      [|exact Hnodup].
    apply remove_dups_length_same. intros x. apply flatten_json_keys. }
  assert (forall name : list string -> string,
            length (remove_dups (map name (leaf_paths d)))
            = length (remove_dups (map name (remove_dups (leaf_paths d))))) as Hdistinct.
  { intros name. apply remove_dups_length_same. intros x. rewrite !elem_of_map.
    by setoid_rewrite elem_of_remove_dups. }
  split; [apply flatten_json_no_dict|].
  split; [exact Hnodup|].
  unfold leaf_path_count. split.
  - rewrite Hkeys, Hdistinct.
    etransitivity; [apply remove_dups_length_le|]. by rewrite length_map.
  - intros Hnames. rewrite (dotted_names d sep Hnames) in Hkeys.
    split; [|split].
    + intros key. unfold flatten_dict. rewrite flatten_json_keys.
      change (leaf_paths_json (JObj d)) with (leaf_paths d).
      rewrite (dotted_names d sep Hnames), elem_of_map.
      split; intros (path & Hpath & Hin); exists path; done.
    + exact Hkeys.
    + intros Hinj. rewrite Hkeys, Hdistinct.
      by rewrite <- NoDup_length_remove_dups, length_map.
Qed.

Lemma flatten_dict_dotted_keys_witness :
  PyDict.keys (flatten_dict nested_record EmptyString ".") = ["source_info.ip"; "severity"]
  /\ (forall key,
        key ∈ PyDict.keys (flatten_dict nested_record EmptyString ".")
        <-> exists path, path ∈ leaf_paths nested_record /\ dotted_name "." path = key)
  /\ length (flatten_dict nested_record EmptyString ".") = leaf_path_count nested_record.
Proof.
  split; [vm_compute; reflexivity|].
  destruct (proj2 (proj2 (proj2 (flatten_dict_dotted_keys nested_record "."))))
    as (Hkeys & _ & Hcount).
  { unfold nested_record. repeat constructor; discriminate. }
  split; [exact Hkeys|].
  apply Hcount. apply (bool_decide_unpack _). vm_compute. reflexivity.
Defined.

(** ** Loader *)

Lemma quiet_refl (w : world) : quiet w w.
Proof. by destruct w. Qed.

Lemma quiet_trans (w1 w2 w3 : world) : quiet w1 w2 -> quiet w2 w3 -> quiet w1 w3.
Proof.
  unfold quiet. destruct w1, w2, w3; simpl. intros [= -> -> -> -> -> -> -> -> -> -> -> ->].
  by intros [= -> -> -> -> -> -> -> -> -> -> -> ->].
Qed.

Lemma quiet_log (w : world) (entries : list (level * log_msg)) : quiet w (set_log entries w).
Proof. by destruct w. Qed.

Lemma quiet_popups (w : world) (p : list popup_state) : quiet w (set_popups p w).
Proof. by destruct w. Qed.

Lemma quiet_write_cache (file_path : string) (entry : option (list json)) (w w' : world) :
  quiet w w' -> quiet (write_cache file_path entry w) (write_cache file_path entry w').
Proof.
  unfold quiet. destruct w, w', entry; simpl; [|done].
  by intros [= -> -> -> -> -> -> -> -> -> -> -> ->].
Qed.

(** What a quiet step leaves alone. *)
Lemma quiet_frame (w w' : world) :
  quiet w w' ->
  files w' = files w /\ raw_data_cache w' = raw_data_cache w /\ dialogs w' = dialogs w
  /\ labels w' = labels w /\ trees w' = trees w.
Proof. unfold quiet. intros ->. by destruct w. Qed.

Create HintDb quiet.
Global Hint Resolve quiet_refl quiet_log quiet_popups : quiet.

Section LoaderFacts.

Variable json_loads : string -> option json.

Lemma call_progress_quiet (cb : callback) (num den : nat) (w : world) :
  exists w', call_progress cb num den w = (Return tt, w') /\ quiet w w'.
Proof.
  destruct cb as [popup|]; simpl; eexists; (split; [reflexivity|]); auto with quiet.
Qed.

(** The line loop computes [line_records]: it returns the list built so
    far followed by the records of its lines, or raises at the first
    line that does not parse; on the way it moves progress bars only. *)
Lemma json_lines_loop_result (progress_callback : option callback) (n : nat)
    (lines : list string) :
  forall (i : nat) (data : list json) (w : world),
  exists w',
    json_lines_loop json_loads progress_callback n i lines data w
    = (match line_records json_loads lines with
       | Some records => Return (data ++ records)%list
       | None => Raise JSONDecodeError
       end, w')
    /\ quiet w w'.
Proof.
  induction lines as [|line rest IH]; intros i data w.
  - exists w. simpl. rewrite app_nil_r. auto with quiet.
  - cbn [json_lines_loop line_records].
    assert (forall data' w0, quiet w w0 ->
      exists w',
        bind (match progress_callback with
              | Some cb => if (0 <? n)%nat then call_progress cb (i + 1) n else ret tt
              | None => ret tt
              end)
             (fun _ => json_lines_loop json_loads progress_callback n (S i) rest data') w0
        = (match line_records json_loads rest with
           | Some records => Return (data' ++ records)%list
           | None => Raise JSONDecodeError
           end, w') /\ quiet w w') as Hrest.
    { intros data' w0 Hw0. unfold bind.
      assert (exists w1,
        (match progress_callback with
         | Some cb => if (0 <? n)%nat then call_progress cb (i + 1) n else ret tt
         | None => ret tt
         end) w0 = (Return tt, w1) /\ quiet w0 w1) as (w1 & -> & Hw1).
      { destruct progress_callback as [cb|]; [destruct (0 <? n)%nat|];
          try (exists w0; split; [reflexivity | apply quiet_refl]).
        apply call_progress_quiet. }
      destruct (IH (S i) data' w1) as (w' & -> & Hw').
      exists w'. split; [done|]. eauto using quiet_trans. }
    destruct (PyText.truthy (PyText.strip line)).
    + unfold py_json_loads.
      destruct (json_loads (PyText.strip line)) as [item|].
      * destruct (Hrest (if is_dict item then (data ++ [item])%list else data) w
                    (quiet_refl w)) as (w' & Heq & Hw').
        exists w'. split; [|done].
        etransitivity; [exact Heq|].
        destruct (line_records json_loads rest) as [records|]; [|done].
        destruct (is_dict item); [|done]. by rewrite <- app_assoc.
      * exists w. split; [done | apply quiet_refl].
    + destruct (Hrest data w (quiet_refl w)) as (w' & Heq & Hw').
      exists w'. split; [exact Heq | done].
Qed.

(** Closes a [quiet] goal between two worlds related by [Hq], by cases
    on the fields. *)
Ltac quiet_worlds w w1 Hq :=
  unfold quiet, set_log, set_popups, set_raw_data_cache in Hq |- *;
  destruct w, w1; simpl in *; injection Hq; clear Hq; intros; subst; simpl;
  repeat case_match; simplify_eq; try reflexivity.

(** [load_json] computes [load_result]: the value returned or raised and
    the list left cached are those of [load_result]; the rest of the
    state changes in the log and the popups only. *)
Lemma load_json_result (file_path : string) (cb : option callback) (N : nat)
    (partial_load : bool) (w : world) :
  exists w',
    load_json json_loads file_path cb N partial_load w
    = (fst (load_result json_loads (files w !! file_path) N partial_load
              (raw_data_cache w !! file_path)), w')
    /\ quiet (write_cache file_path
               (snd (load_result json_loads (files w !! file_path) N partial_load
                       (raw_data_cache w !! file_path))) w) w'.
Proof.
  unfold load_json, load_result, bind, try_except, logging, modify, read_file,
    cache_extend, cache_store, py_json_loads, ret, raise, stripped_lines.
  cbn [files raw_data_cache set_log fst snd].
  destruct (files w !! file_path) as [text|] eqn:Hfile.
  2:{ simpl. eexists. split; [reflexivity|]. by destruct w. }
  set (w0 := set_log _ w).
  assert (quiet w w0) as Hw0 by apply quiet_log.
  clearbody w0.
  destruct (partial_load && (0 <? N)%nat).
  - destruct (json_lines_loop_result cb
                (length (drop N (PyText.splitlines (PyText.strip text)))) 
                (drop N (PyText.splitlines (PyText.strip text))) 0 [] w0) as (w1 & -> & Hw1).
    pose proof (quiet_trans _ _ _ Hw0 Hw1) as Hq. clear Hw0 Hw1 Hfile.
    destruct (line_records json_loads _) as [records|]; cbn [fst snd write_cache].
    + eexists. split; [reflexivity|]. quiet_worlds w w1 Hq.
    + eexists. split; [reflexivity|]. quiet_worlds w w1 Hq.
  - destruct (json_loads (PyText.strip text)) as [doc|].
    + clear Hfile. destruct doc as [| | | | |items|d]; cbn [is_list is_dict negb forallb andb fst snd write_cache];
        try (eexists; split; [reflexivity|]; quiet_worlds w w0 Hw0).
      * destruct (forallb is_dict items); cbn [negb fst snd write_cache].
        -- destruct cb as [cb|].
           ++ destruct (call_progress_quiet cb 1 1 (set_log (log w0 ++ [(INFO, LoadedDocument (length items) file_path)]) w0)) as (w1 & -> & Hw1).
              eexists; split; [reflexivity|].
              pose proof (quiet_trans _ _ _ Hw0 (quiet_trans _ _ _ (quiet_log _ _) Hw1)) as Hq.
              clear Hw0 Hw1. quiet_worlds w w1 Hq.
           ++ eexists; split; [reflexivity|]. quiet_worlds w w0 Hw0.
        -- eexists; split; [reflexivity|]. quiet_worlds w w0 Hw0.
      * destruct cb as [cb|].
           ++ destruct (call_progress_quiet cb 1 1 (set_log (log w0 ++ [(INFO, LoadedDocument (length [JObj d]) file_path)]) w0)) as (w1 & -> & Hw1).
              eexists; split; [reflexivity|].
              pose proof (quiet_trans _ _ _ Hw0 (quiet_trans _ _ _ (quiet_log _ _) Hw1)) as Hq.
              clear Hw0 Hw1. quiet_worlds w w1 Hq.
           ++ eexists; split; [reflexivity|]. quiet_worlds w w0 Hw0.
    + destruct (json_lines_loop_result cb
                (length (PyText.splitlines (PyText.strip text)))
                (PyText.splitlines (PyText.strip text)) 0 [] w0) as (w1 & -> & Hw1).
      pose proof (quiet_trans _ _ _ Hw0 Hw1) as Hq. clear Hw0 Hw1 Hfile.
      destruct (line_records json_loads _) as [[|r records]|]; cbn [app negb fst snd write_cache].
      * eexists. split; [reflexivity|]. quiet_worlds w w1 Hq.
      * eexists. split; [reflexivity|]. quiet_worlds w w1 Hq.
      * eexists. split; [reflexivity|]. quiet_worlds w w1 Hq.
Qed.

Lemma line_records_bad_line (lines : list string) :
  Exists (bad_line json_loads) lines -> line_records json_loads lines = None.
Proof.
  induction 1 as [line rest [Hne Hbad]|line rest Hrest IH]; cbn [line_records].
  - apply truthy_spec in Hne. by rewrite Hne, Hbad.
  - rewrite IH. destruct (PyText.truthy _); [|done]. by destruct (json_loads _).
Qed.

Lemma line_records_length (lines : list string) (records : list json) :
  line_records json_loads lines = Some records -> length records <= length lines.
Proof.
  revert records. induction lines as [|line rest IH]; intros records; cbn [line_records].
  - intros [= <-]. done.
  - destruct (PyText.truthy _).
    + destruct (json_loads _) as [item|]; [|done].
      destruct (line_records json_loads rest) as [rs|]; [|done].
      intros [= <-]. specialize (IH rs eq_refl).
      destruct (is_dict item); simpl; lia.
    + intros Hrest. specialize (IH records Hrest). simpl. lia.
Qed.

End LoaderFacts.

Lemma cached_write_cache (file_path : string) (records : list json) (w w' : world) :
  quiet (write_cache file_path (Some records) w) w' ->
  cached w' file_path = records
  /\ forall other, other <> file_path ->
       raw_data_cache w' !! other = raw_data_cache w !! other.
Proof.
  intros Hq. apply quiet_frame in Hq as (_ & Hcache & _).
  unfold cached. rewrite Hcache. destruct w; simpl. split.
  - by rewrite lookup_insert_eq.
  - intros other Hne. by rewrite lookup_insert_ne.
Qed.

Lemma cache_kept (file_path : string) (w w' : world) :
  quiet (write_cache file_path None w) w' -> raw_data_cache w' = raw_data_cache w.
Proof. intros Hq. by apply quiet_frame in Hq as (_ & Hcache & _). Qed.

(** *** The stripped content and its lines

    [PyText.strip] computes the trimmed content of the specification
    and [PyText.splitlines] has as many lines as [line_count] counts. *)

Lemma is_space_white (c : ascii) : PyText.is_space c = true <-> white c.
Proof. unfold white. by destruct c as [[] [] [] [] [] [] [] []]. Qed.

Lemma is_linebreak_line_end (c : ascii) :
  PyText.is_linebreak c = existsb (N.eqb (N_of_ascii c)) line_ends.
Proof. by destruct c as [[] [] [] [] [] [] [] []]. Qed.

Lemma lstrip_blank (before s : string) :
  blank before -> PyText.lstrip (before ++ s) = PyText.lstrip s.
Proof.
  induction before as [|c before IH]; [done|].
  intros [Hc Hrest]. rewrite append_cons. cbn [PyText.lstrip].
  apply is_space_white in Hc. rewrite Hc. by apply IH.
Qed.

Lemma lstrip_all_blank (s : string) : blank s -> PyText.lstrip s = EmptyString.
Proof.
  induction s as [|c s IH]; [done|].
  intros [Hc Hrest]. cbn [PyText.lstrip]. apply is_space_white in Hc. rewrite Hc. by apply IH.
Qed.

Lemma rstrip_all_blank (s : string) : blank s -> PyText.rstrip s = EmptyString.
Proof.
  induction s as [|c s IH]; [done|].
  intros [Hc Hrest]. cbn [PyText.rstrip]. rewrite (IH Hrest).
  apply is_space_white in Hc. by rewrite Hc.
Qed.

Lemma rstrip_blank (s after : string) :
  blank after -> PyText.rstrip (s ++ after) = PyText.rstrip s.
Proof.
  intros Hafter. induction s as [|c s IH].
  - rewrite append_nil_l. by apply rstrip_all_blank.
  - rewrite append_cons. cbn [PyText.rstrip]. by rewrite IH.
Qed.

Lemma rstrip_edge (s : string) :
  (forall c, last_char s = Some c -> ~ white c) -> PyText.rstrip s = s.
Proof.
  induction s as [|c s IH]; [done|].
  intros Hlast. cbn [PyText.rstrip]. destruct s as [|c' s].
  - cbn [PyText.rstrip].
    destruct (PyText.is_space c) eqn:Hc; [|done].
    apply is_space_white in Hc. by destruct (Hlast c eq_refl).
  - rewrite IH; [done|]. intros x Hx. apply Hlast. exact Hx.
Qed.

Lemma trimmed_strip (text content : string) :
  trimmed text content -> content = PyText.strip text.
Proof.
  intros (before & after & -> & Hbefore & Hafter & Hfirst & Hlast).
  unfold PyText.strip. rewrite (lstrip_blank before _ Hbefore).
  destruct content as [|c rest].
  - rewrite append_nil_l, (lstrip_all_blank after Hafter). done.
  - rewrite append_cons. cbn [PyText.lstrip].
    destruct (PyText.is_space c) eqn:Hc.
    + apply is_space_white in Hc. by destruct (Hfirst c eq_refl).
    + rewrite <- append_cons, (rstrip_blank _ after Hafter).
      symmetry. by apply rstrip_edge.
Qed.

Lemma splitlines_from_count (s : string) :
  (forall cur, length (PyText.splitlines_from cur s)
               = line_count_from (PyText.truthy cur) s)
  /\ (forall c cur, length (PyText.splitlines_from cur (String c s))
                    = line_count_from (PyText.truthy cur) (String c s)).
Proof.
  induction s as [|a s [IH1 IH2]].
  - split.
    + intros cur. by destruct cur.
    + intros c cur. cbn [PyText.splitlines_from line_count_from].
      unfold PyText.is_cr. destruct (N_of_ascii c =? 13)%N; [done|].
      rewrite is_linebreak_line_end.
      destruct (existsb _ line_ends); [done|]. done.
  - split; [apply IH2|].
    intros c cur. cbn [PyText.splitlines_from line_count_from].
    unfold PyText.is_cr, PyText.is_lf. destruct (N_of_ascii c =? 13)%N.
    + destruct (N_of_ascii a =? 10)%N; cbn [length]; f_equal.
      * apply (IH1 EmptyString).
      * apply (IH2 a EmptyString).
    + rewrite is_linebreak_line_end.
      destruct (existsb _ line_ends); cbn [length].
      * f_equal. apply (IH2 a EmptyString).
      * apply (IH2 a (String c cur)).
Qed.

Lemma splitlines_count (s : string) : length (PyText.splitlines s) = line_count s.
Proof. apply (proj1 (splitlines_from_count s) EmptyString). Qed.

(** C6 as claimed fails: an array of two mappings on the second line of
    a file of four lines loads with the count 1, not 4. *)
Lemma round_trip_counterexample :
  ~ round_trip_as_claimed JsonText.loads
      (initial_world (one_file "app.json" padded_array_text) 0) "app.json" None.
Proof.
  intros Hclaim.
  destruct (Hclaim padded_array_text [JObj [("a", JInt 1)]; JObj [("b", JInt 2)]])
    as (w' & Hload).
  - vm_compute. reflexivity.
  - vm_compute. reflexivity.
  - reflexivity.
  - vm_compute in Hload. discriminate.
Qed.

(** C6, amended. A file whose content, without its leading and
    trailing white space, parses as one JSON document that is an array
    of mappings: a full load returns exactly the entries of the array, in
    their order, and caches them under the path; the count returned is
    the line count of that trimmed content, so blank lines at the start
    and at the end of the file are not counted. *)
Theorem load_json_array_round_trip (json_loads : string -> option json)
    (file_path : string) (progress_callback : option callback)
    (last_record_count : nat) (partial_load : bool) (w : world)
    (text content : string) (items : list json) :
  files w !! file_path = Some text ->
  partial_load && (0 <? last_record_count)%nat = false ->
  trimmed text content ->
  json_loads content = Some (JArr items) ->
  forallb is_dict items = true ->
  exists w',
    load_json json_loads file_path progress_callback last_record_count partial_load w
    = (Return (items, line_count content), w')
    /\ cached w' file_path = items.
Proof.
  intros Hfile Hfull Htrim Hdoc Hdicts.
  apply trimmed_strip in Htrim. subst content.
  destruct (load_json_result json_loads file_path progress_callback last_record_count
              partial_load w) as (w' & Heq & Hq).
  rewrite Hfile in Heq, Hq. unfold load_result in Heq, Hq.
  rewrite Hfull, Hdoc, Hdicts in Heq, Hq. cbn [fst snd] in Heq, Hq.
  unfold stripped_lines in Heq. rewrite splitlines_count in Heq.
  exists w'. split; [exact Heq|]. by apply cached_write_cache in Hq as [Hcached _].
Qed.

Lemma load_json_array_round_trip_witness :
  fst (load_json JsonText.loads "app.json" None 0 false
         (initial_world (one_file "app.json" padded_array_text) 0))
  = Return ([JObj [("a", JInt 1)]; JObj [("b", JInt 2)]], 1%nat)
  /\ exists w',
       load_json JsonText.loads "app.json" None 0 false
         (initial_world (one_file "app.json" padded_array_text) 0)
       = (Return ([JObj [("a", JInt 1)]; JObj [("b", JInt 2)]], 1%nat), w')
       /\ cached w' "app.json" = [JObj [("a", JInt 1)]; JObj [("b", JInt 2)]].
Proof.
  split; [vm_compute; reflexivity|].
  apply (load_json_array_round_trip JsonText.loads "app.json" None 0 false
           (initial_world (one_file "app.json" padded_array_text) 0)
           padded_array_text array_text).
  - vm_compute. reflexivity.
  - reflexivity.
  - exists LF, (LF ++ LF ++ LF). split; [reflexivity|].
    split; [by vm_compute|]. split; [by vm_compute|].
    split; intros c [= <-]; vm_compute; discriminate.
  - vm_compute. reflexivity.
  - reflexivity.
Defined.

(** C4. A full load whose content is not one JSON document: when some
    non-empty line fails to parse as JSON the load fails with an error,
    no record list is returned and the cache is not written, whatever
    the other lines hold.  The witness is a file of five lines whose
    third line is invalid. *)
Theorem load_json_bad_line_fails (json_loads : string -> option json)
    (file_path : string) (progress_callback : option callback)
    (last_record_count : nat) (partial_load : bool) (w : world) (text : string) :
  files w !! file_path = Some text ->
  partial_load && (0 <? last_record_count)%nat = false ->
  json_loads (PyText.strip text) = None ->
  Exists (bad_line json_loads) (stripped_lines text) ->
  exists w',
    load_json json_loads file_path progress_callback last_record_count partial_load w
    = (Raise (LoadError JSONDecodeError), w')
    /\ raw_data_cache w' = raw_data_cache w.
Proof.
  intros Hfile Hfull Hdoc Hbad.
  destruct (load_json_result json_loads file_path progress_callback last_record_count
              partial_load w) as (w' & Heq & Hq).
  rewrite Hfile in Heq, Hq. unfold load_result in Heq, Hq.
  rewrite Hfull, Hdoc, (line_records_bad_line _ _ Hbad) in Heq, Hq.
  cbn [fst snd] in Heq, Hq.
  exists w'. split; [exact Heq | by apply cache_kept in Hq].
Qed.

Lemma load_json_bad_line_fails_witness :
  exists w',
    load_json JsonText.loads "app.jsonl" None 0 false
      (initial_world (one_file "app.jsonl" five_lines_bad_third) 0)
    = (Raise (LoadError JSONDecodeError), w')
    /\ raw_data_cache w'
       = raw_data_cache (initial_world (one_file "app.jsonl" five_lines_bad_third) 0).
Proof.
  apply (load_json_bad_line_fails JsonText.loads "app.jsonl" None 0 false
           (initial_world (one_file "app.jsonl" five_lines_bad_third) 0)
           five_lines_bad_third).
  - vm_compute. reflexivity.
  - reflexivity.
  - vm_compute. reflexivity.
  - assert (stripped_lines five_lines_bad_third
            = map json_text ["{'id':1}"; "{'id':2}"; "{'id':"; "{'id':4}"; "{'id':5}"])
      as -> by (vm_compute; reflexivity).
    apply Exists_cons_tl, Exists_cons_tl, Exists_cons_hd.
    split; [discriminate | vm_compute; reflexivity].
Defined.

(** C5 as claimed fails for the seen count 0: the loader then runs a
    full load, which reads a pretty-printed document as a whole although
    its first line alone is not JSON, and returns it. *)
Lemma incremental_abort_counterexample :
  ~ incremental_abort_as_claimed JsonText.loads
      (initial_world (one_file "app.json" pretty_text) 0) "app.json" None 0.
Proof.
  intros Hclaim.
  destruct (Hclaim pretty_text) as [(e & w' & Hraise) _].
  - vm_compute. reflexivity.
  - assert (drop 0 (stripped_lines pretty_text) = map json_text ["{"; "'a': 1"; "}"])
      as -> by (vm_compute; reflexivity).
    apply Exists_cons_hd. split; [discriminate | vm_compute; reflexivity].
  - vm_compute in Hraise. discriminate.
Qed.

(** C5, amended. For every incremental load with a seen count of at
    least 1 in which some new non-empty line fails to parse as JSON, the
    load aborts with an error and the cache is left exactly as it was. *)
Theorem incremental_bad_line_aborts (json_loads : string -> option json)
    (file_path : string) (progress_callback : option callback)
    (last_record_count : nat) (w : world) (text : string) :
  (0 < last_record_count)%nat ->
  files w !! file_path = Some text ->
  Exists (bad_line json_loads) (drop last_record_count (stripped_lines text)) ->
  exists w',
    load_json json_loads file_path progress_callback last_record_count true w
    = (Raise (LoadError JSONDecodeError), w')
    /\ raw_data_cache w' = raw_data_cache w.
Proof.
  intros Hseen Hfile Hbad.
  destruct (load_json_result json_loads file_path progress_callback last_record_count
              true w) as (w' & Heq & Hq).
  rewrite Hfile in Heq, Hq. unfold load_result in Heq, Hq.
  apply Nat.ltb_lt in Hseen. rewrite Hseen in Heq, Hq. cbn [andb] in Heq, Hq.
  rewrite (line_records_bad_line _ _ Hbad) in Heq, Hq. cbn [fst snd] in Heq, Hq.
  exists w'. split; [exact Heq | by apply cache_kept in Hq].
Qed.

Lemma incremental_bad_line_aborts_witness :
  exists w',
    load_json JsonText.loads "app.jsonl" None 2 true
      (initial_world (one_file "app.jsonl" five_lines_bad_third) 0)
    = (Raise (LoadError JSONDecodeError), w')
    /\ raw_data_cache w'
       = raw_data_cache (initial_world (one_file "app.jsonl" five_lines_bad_third) 0).
Proof.
  apply (incremental_bad_line_aborts JsonText.loads "app.jsonl" None 2
           (initial_world (one_file "app.jsonl" five_lines_bad_third) 0)
           five_lines_bad_third).
  - lia.
  - vm_compute. reflexivity.
  - assert (drop 2 (stripped_lines five_lines_bad_third)
            = map json_text ["{'id':"; "{'id':4}"; "{'id':5}"])
      as -> by (vm_compute; reflexivity).
    apply Exists_cons_hd. split; [discriminate | vm_compute; reflexivity].
Defined.

(** C3 as claimed fails for the seen count 0: on an empty file there
    are no new lines, the contract promises an empty list with the
    count 0, and the loader, which runs a full load for that count,
    raises "No valid JSON objects found." *)
Lemma incremental_load_counterexample :
  ~ incremental_load_as_claimed JsonText.loads
      (initial_world (one_file "app.jsonl" EmptyString) 0) "app.jsonl" None 0.
Proof.
  intros Hclaim.
  destruct (Hclaim EmptyString []) as (w' & Hload & _).
  - vm_compute. reflexivity.
  - reflexivity.
  - vm_compute in Hload. discriminate.
Qed.

(** C3, amended. For every file content and every seen count N of at
    least 1, an incremental load parses the lines after index N under
    the per-line rule of the line-oriented mode and returns exactly their
    records with the new total line count; the records are appended to
    the list cached under the path, whose earlier entries and the
    entries of other paths stay as they were.  With no new line (N equal
    to the line count) it returns the empty list and the count N. *)
Theorem incremental_load_appends (json_loads : string -> option json)
    (file_path : string) (progress_callback : option callback)
    (last_record_count : nat) (w : world) (text : string) :
  (0 < last_record_count)%nat ->
  files w !! file_path = Some text ->
  (forall records,
     line_records json_loads (drop last_record_count (stripped_lines text)) = Some records ->
     exists w',
       load_json json_loads file_path progress_callback last_record_count true w
       = (Return (records, length (stripped_lines text)), w')
       /\ cached w' file_path = (cached w file_path ++ records)%list
       /\ forall other, other <> file_path ->
            raw_data_cache w' !! other = raw_data_cache w !! other)
  /\ (last_record_count = length (stripped_lines text) ->
      exists w',
        load_json json_loads file_path progress_callback last_record_count true w
        = (Return ([], last_record_count), w')
        /\ cached w' file_path = cached w file_path).
Proof.
  intros Hseen Hfile.
  assert (forall records,
     line_records json_loads (drop last_record_count (stripped_lines text)) = Some records ->
     exists w',
       load_json json_loads file_path progress_callback last_record_count true w
       = (Return (records, length (stripped_lines text)), w')
       /\ cached w' file_path = (cached w file_path ++ records)%list
       /\ forall other, other <> file_path ->
            raw_data_cache w' !! other = raw_data_cache w !! other) as Hnew.
  { intros records Hrecords.
    destruct (load_json_result json_loads file_path progress_callback last_record_count
                true w) as (w' & Heq & Hq).
    rewrite Hfile in Heq, Hq. unfold load_result in Heq, Hq.
    apply Nat.ltb_lt in Hseen. rewrite Hseen in Heq, Hq. cbn [andb] in Heq, Hq.
    rewrite Hrecords in Heq, Hq. cbn [fst snd] in Heq, Hq.
    exists w'. split; [exact Heq|]. by apply cached_write_cache in Hq. }
  split; [exact Hnew|].
  intros Hall.
  destruct (Hnew []) as (w' & Hload & Hcached & _).
  - rewrite Hall, drop_all. reflexivity.
  - exists w'. rewrite <- Hall in Hload. split; [exact Hload|].
    by rewrite Hcached, app_nil_r.
Qed.

Lemma incremental_load_appends_witness :
  exists w',
    load_json JsonText.loads "app.jsonl" None 2 true
      (initial_world (one_file "app.jsonl" three_lines) 0)
    = (Return ([JObj [("id", JInt 3)]], length (stripped_lines three_lines)), w')
    /\ cached w' "app.jsonl"
       = (cached (initial_world (one_file "app.jsonl" three_lines) 0) "app.jsonl"
          ++ [JObj [("id", JInt 3)]])%list
    /\ forall other, other <> "app.jsonl" ->
         raw_data_cache w' !! other
         = raw_data_cache (initial_world (one_file "app.jsonl" three_lines) 0) !! other.
Proof.
  refine (proj1 (incremental_load_appends JsonText.loads "app.jsonl" None 2
                   (initial_world (one_file "app.jsonl" three_lines) 0) three_lines _ _)
            [JObj [("id", JInt 3)]] _).
  - lia.
  - vm_compute. reflexivity.
  - vm_compute. reflexivity.
Defined.

(** C2 as claimed fails: a JSON array of two mappings written on one
    line loads in full as two cached records against a line count of 1. *)
Lemma cache_bound_counterexample :
  ~ cache_bound_as_claimed JsonText.loads
      (initial_world (one_file "app.json" array_text) 0) "app.json" None 0 false.
Proof.
  intros Hclaim.
  specialize (Hclaim array_text [JObj [("a", JInt 1)]; JObj [("b", JInt 2)]] 1%nat
                (snd (load_json JsonText.loads "app.json" None 0 false
                        (initial_world (one_file "app.json" array_text) 0)))).
  assert (2 <= 1)%nat as Hbound; [|lia].
  apply Hclaim; vm_compute; reflexivity.
Qed.

(** C2, amended. After a successful load the returned count is the line
    count of the stripped content.  When the load went through the
    line-oriented fallback, the list cached under the path is the list
    returned and is no longer than that line count.  When the load was
    incremental (seen count N of at least 1), the returned records were
    appended to the cached list and are no more than the lines after
    index N, so a cache of at most N records before, with N within the
    line count, is within the line count after.  (A whole-document load
    caches the entries of the document, whatever the line count.) *)
Theorem cache_bound_by_lines (json_loads : string -> option json)
    (file_path : string) (progress_callback : option callback)
    (last_record_count : nat) (partial_load : bool) (w w' : world)
    (text : string) (data : list json) (total : nat) :
  files w !! file_path = Some text ->
  load_json json_loads file_path progress_callback last_record_count partial_load w
    = (Return (data, total), w') ->
  total = length (stripped_lines text)
  /\ (partial_load && (0 <? last_record_count)%nat = false ->
      json_loads (PyText.strip text) = None ->
      cached w' file_path = data /\ length (cached w' file_path) <= total)
  /\ (partial_load && (0 <? last_record_count)%nat = true ->
      cached w' file_path = (cached w file_path ++ data)%list
      /\ length data <= total - last_record_count
      /\ (length (cached w file_path) <= last_record_count ->
          last_record_count <= total ->
          length (cached w' file_path) <= total)).
Proof.
  intros Hfile Hload.
  destruct (load_json_result json_loads file_path progress_callback last_record_count
              partial_load w) as (w'' & Heq & Hq).
  rewrite Hload in Heq. injection Heq as Hres <-.
  rewrite Hfile in Hres, Hq. unfold load_result in Hres, Hq.
  destruct (partial_load && (0 <? last_record_count)%nat) eqn:Hmode.
  - destruct (line_records json_loads _) as [records|] eqn:Hrecords;
      cbn [fst snd] in Hres, Hq; [|discriminate].
    injection Hres as -> ->.
    apply cached_write_cache in Hq as [Hcached _].
    apply line_records_length in Hrecords. rewrite length_drop in Hrecords.
    split; [done|]. split; [done|]. intros _.
    split; [exact Hcached|]. split; [exact Hrecords|].
    intros Hold Hseen. rewrite Hcached, length_app. unfold cached in Hold. lia.
  - split.
    + destruct (json_loads (PyText.strip text)) as [[| | | | |items|d]|];
        cbn [fst snd] in Hres; try discriminate.
      * destruct (forallb is_dict items); cbn [fst] in Hres; [|discriminate].
        by injection Hres as _ ->.
      * by injection Hres as _ ->.
      * destruct (line_records json_loads _) as [[|r records]|]; cbn [fst] in Hres;
          try discriminate.
        by injection Hres as _ ->.
    + split; [|done]. intros _ Hdoc. rewrite Hdoc in Hres, Hq.
      destruct (line_records json_loads _) as [[|r records]|] eqn:Hrecords;
        cbn [fst snd] in Hres, Hq; try discriminate.
      injection Hres as -> ->.
      apply cached_write_cache in Hq as [Hcached _].
      apply line_records_length in Hrecords.
      split; [exact Hcached|]. by rewrite Hcached.
Qed.

Lemma cache_bound_by_lines_witness :
  let w := initial_world (one_file "app.jsonl" three_lines) 0 in
  let w' := snd (load_json JsonText.loads "app.jsonl" None 0 false w) in
  let data := [JObj [("id", JInt 1)]; JObj [("id", JInt 2)]; JObj [("id", JInt 3)]] in
  (files w !! "app.jsonl" = Some three_lines
   /\ load_json JsonText.loads "app.jsonl" None 0 false w = (Return (data, 3%nat), w'))
  /\ (JsonText.loads (PyText.strip three_lines) = None ->
      cached w' "app.jsonl" = data /\ length (cached w' "app.jsonl") <= 3).
Proof.
  intros w w' data.
  assert (files w !! "app.jsonl" = Some three_lines) as Hfile by (vm_compute; reflexivity).
  assert (load_json JsonText.loads "app.jsonl" None 0 false w = (Return (data, 3%nat), w'))
    as Hload by (vm_compute; reflexivity).
  split; [by split|].
  exact (proj1 (proj2 (cache_bound_by_lines JsonText.loads "app.jsonl" None 0 false w w'
                         three_lines data 3 Hfile Hload)) eq_refl).
Defined.

(** ** Refresh boundary *)

Lemma bind_logging {A} (lvl : level) (msg : log_msg) (k : unit -> M A) (w : world) :
  bind (logging lvl msg) k w = k tt (snd (logging lvl msg w)).
Proof. reflexivity. Qed.

Lemma bind_raised {A B} (m : M A) (k : A -> M B) (w w1 : world) (e : exn) :
  m w = (Raise e, w1) -> bind m k w = (Raise e, w1).
Proof. unfold bind. by intros ->. Qed.

Lemma try_except_raised {A} (m : M A) (handler : exn -> M A) (w w1 : world) (e : exn) :
  m w = (Raise e, w1) -> try_except m handler w = handler e w1.
Proof. unfold try_except. by intros ->. Qed.

(** [load_json] shows no dialog and writes no label. *)
Lemma load_json_no_dialog (json_loads : string -> option json) (file_path : string)
    (progress_callback : option callback) (last_record_count : nat)
    (partial_load : bool) (w w1 : world) (r : outcome (list json * nat)) :
  load_json json_loads file_path progress_callback last_record_count partial_load w = (r, w1) ->
  dialogs w1 = dialogs w /\ labels w1 = labels w.
Proof.
  intros Hload.
  destruct (load_json_result json_loads file_path progress_callback last_record_count
              partial_load w) as (w' & Heq & Hq).
  rewrite Hload in Heq. injection Heq as _ <-.
  apply quiet_frame in Hq as (_ & _ & Hdialogs & Hlabels & _).
  rewrite Hdialogs, Hlabels.
  destruct (snd (load_result _ _ _ _ _)); by destruct w.
Qed.

(** C1 as claimed fails: an automatic refresh whose load fails on a
    malformed new line shows the modal error box. *)
Lemma auto_failure_counterexample :
  ~ auto_failure_as_claimed JsonText.loads JsonText.str tracked_world
      (seen_tab main_columns 2) "app.jsonl" main_columns (Some 0%nat).
Proof.
  intros Hclaim.
  specialize (Hclaim (LoadError JSONDecodeError)
    (snd (load_json JsonText.loads "app.jsonl" (Some (Some 0%nat)) 2 true
            (refresh_entry "app.jsonl" true 2 tracked_world)))).
  assert (dialogs
            (snd (refresh_table JsonText.loads JsonText.str 0 "app.jsonl" 0
                    (tab_filters (seen_tab main_columns 2)) [] main_columns 0 true
                    (Some 0%Z) None (Some 0%nat) 2 tracked_world))
          = [ShowError "app.jsonl" (LoadError JSONDecodeError)]) as Hshown
    by (vm_compute; reflexivity).
  assert (dialogs tracked_world = []) as Hnone by reflexivity.
  rewrite Hnone in Hclaim.
  cbn [seen_tab tab_tree tab_error_label tab_group_colors tab_json_text
       tab_last_manual_sync tab_last_auto_sync tab_record_count] in Hclaim.
  rewrite Hshown in Hclaim.
  discriminate Hclaim. vm_compute. reflexivity.
Qed.

(** C1, amended. For every refresh of a tracked file, automatic or
    manual, whose load fails: the status text becomes the error, one
    modal error notification is shown, an error entry is logged, and the
    sync stamps and the seen count come back unchanged. *)
Theorem refresh_failure_surfaces (json_loads : string -> option json)
    (py_str : json -> string) (tree : nat) (file_path : string) (error_label : nat)
    (filters group_colors : list (string * string)) (desired_columns : list string)
    (json_text : nat) (is_auto_refresh : bool) (last_manual_sync last_auto_sync : option Z)
    (popup : option nat) (record_count : nat) (w w1 : world) (e : exn) :
  load_json json_loads file_path (Some popup) record_count is_auto_refresh
    (refresh_entry file_path is_auto_refresh record_count w) = (Raise e, w1) ->
  exists w',
    refresh_table json_loads py_str tree file_path error_label filters group_colors
      desired_columns json_text is_auto_refresh last_manual_sync last_auto_sync popup
      record_count w
    = (Return (last_manual_sync, last_auto_sync, record_count), w')
    /\ labels w' !! error_label = Some (StatusError e)
    /\ dialogs w' = (dialogs w ++ [ShowError file_path e])%list
    /\ log w' = (log w1 ++ [(ERROR, RefreshFailed file_path e)])%list.
Proof.
  intros Hload.
  pose proof (load_json_no_dialog _ _ _ _ _ _ _ _ Hload) as [Hdialogs _].
  unfold refresh_table. rewrite bind_logging.
  change (snd (logging INFO (RefreshingTable file_path is_auto_refresh record_count) w))
    with (refresh_entry file_path is_auto_refresh record_count w).
  erewrite try_except_raised; [|apply bind_raised, Hload].
  eexists. split; [reflexivity|].
  cbn. split; [apply lookup_insert_eq|]. split; [|done].
  rewrite Hdialogs. by destruct w.
Qed.

Lemma refresh_failure_surfaces_witness :
  exists w',
    refresh_table JsonText.loads JsonText.str 0 "app.jsonl" 0
      (tab_filters (seen_tab main_columns 2)) [] main_columns 0 true
      (Some 0%Z) None (Some 0%nat) 2 tracked_world
    = (Return (Some 0%Z, None, 2%nat), w')
    /\ labels w' !! 0%nat = Some (StatusError (LoadError JSONDecodeError))
    /\ dialogs w'
       = (dialogs tracked_world ++ [ShowError "app.jsonl" (LoadError JSONDecodeError)])%list
    /\ log w'
       = (log (snd (load_json JsonText.loads "app.jsonl" (Some (Some 0%nat)) 2 true
                      (refresh_entry "app.jsonl" true 2 tracked_world)))
          ++ [(ERROR, RefreshFailed "app.jsonl" (LoadError JSONDecodeError))])%list.
Proof.
  apply (refresh_failure_surfaces JsonText.loads JsonText.str 0 "app.jsonl" 0
           (tab_filters (seen_tab main_columns 2)) [] main_columns 0 true
           (Some 0%Z) None (Some 0%nat) 2 tracked_world).
  vm_compute. reflexivity.
Defined.

(** The same failure seen from one cycle of the periodic refresh: the
    cycle ends with the error box on screen and the seen count kept. *)
Example periodic_refresh_shows_error :
  let r := periodic_refresh JsonText.loads JsonText.str
             [("app.jsonl", seen_tab main_columns 2)] main_columns
             (initial_world (one_file "app.jsonl" five_lines_bad_third) 0) in
  dialogs (snd r) = [ShowError "app.jsonl" (LoadError JSONDecodeError)]
  /\ fst r = Return [("app.jsonl", seen_tab main_columns 2)].
Proof. vm_compute. split; reflexivity. Qed.

(** * Further properties of the code *)

(** ** Loader: the remaining outcomes of [load_json] *)

Section LoaderOutcomes.

Variable json_loads : string -> option json.

Lemma line_records_all_mappings (lines : list string) (records : list json) :
  Forall2 (fun line record =>
             PyText.strip line <> EmptyString
             /\ json_loads (PyText.strip line) = Some record
             /\ is_dict record = true) lines records ->
  line_records json_loads lines = Some records.
Proof.
  induction 1 as [|line record lines records (Hne & Hparse & Hdict) _ IH];
    cbn [line_records]; [done|].
  apply truthy_spec in Hne. by rewrite Hne, Hparse, IH, Hdict.
Qed.

Lemma line_records_no_mapping (lines : list string) :
  Forall (fun line =>
            PyText.strip line = EmptyString
            \/ exists j, json_loads (PyText.strip line) = Some j /\ is_dict j = false) lines ->
  line_records json_loads lines = Some [].
Proof.
  induction 1 as [|line lines [Hblank|(j & Hparse & Hdict)] _ IH]; cbn [line_records]; [done| |].
  - by rewrite Hblank.
  - rewrite Hparse, IH, Hdict. by destruct (PyText.truthy _).
Qed.

Lemma line_records_are_mappings (lines : list string) (records : list json) :
  line_records json_loads lines = Some records ->
  Forall (fun record => is_dict record = true) records.
Proof.
  revert records. induction lines as [|line lines IH]; intros records; cbn [line_records].
  - intros [= <-]. constructor.
  - destruct (PyText.truthy _); [|apply IH].
    destruct (json_loads _) as [item|]; [|done].
    destruct (line_records json_loads lines) as [rs|]; [|done].
    intros [= <-]. specialize (IH rs eq_refl).
    destruct (is_dict item) eqn:Hdict; [by constructor | done].
Qed.

End LoaderOutcomes.

(** X1. A file that cannot be opened: the load fails with the wrapped
    OS error, the failure is logged as an error after the line that
    announces the load, and the cache is not touched. *)
Theorem load_json_missing_file (json_loads : string -> option json)
    (file_path : string) (progress_callback : option callback)
    (last_record_count : nat) (partial_load : bool) (w : world) :
  files w !! file_path = None ->
  exists w',
    load_json json_loads file_path progress_callback last_record_count partial_load w
    = (Raise (LoadError OSError), w')
    /\ raw_data_cache w' = raw_data_cache w
    /\ log w' = (log w ++ [(INFO, LoadingFile file_path partial_load last_record_count);
                           (ERROR, LoadFailed file_path OSError)])%list.
Proof.
  intros Hfile.
  unfold load_json, bind, try_except, logging, modify, read_file, raise.
  cbn [files set_log]. rewrite Hfile.
  eexists. split; [reflexivity|]. split; [reflexivity|].
  cbn [log set_log]. by rewrite <- app_assoc.
Qed.

Lemma load_json_missing_file_witness :
  exists w',
    load_json JsonText.loads "gone.jsonl" None 0 false
      (initial_world (one_file "app.jsonl" three_lines) 0)
    = (Raise (LoadError OSError), w')
    /\ raw_data_cache w'
       = raw_data_cache (initial_world (one_file "app.jsonl" three_lines) 0)
    /\ log w' = [(INFO, LoadingFile "gone.jsonl" false 0);
                 (ERROR, LoadFailed "gone.jsonl" OSError)].
Proof.
  apply (load_json_missing_file JsonText.loads "gone.jsonl" None 0 false
           (initial_world (one_file "app.jsonl" three_lines) 0)).
  vm_compute. reflexivity.
Defined.

(** X2. JSON Lines fallback: when the content is not one JSON document
    and every line holds one mapping, a full load returns exactly these
    mappings in line order, the count is their number, and they replace
    the cached list of the path. *)
Theorem load_json_lines_fallback (json_loads : string -> option json)
    (file_path : string) (progress_callback : option callback)
    (last_record_count : nat) (partial_load : bool) (w : world)
    (text : string) (records : list json) :
  files w !! file_path = Some text ->
  partial_load && (0 <? last_record_count)%nat = false ->
  json_loads (PyText.strip text) = None ->
  Forall2 (fun line record =>
             PyText.strip line <> EmptyString
             /\ json_loads (PyText.strip line) = Some record
             /\ is_dict record = true) (stripped_lines text) records ->
  records <> [] ->
  exists w',
    load_json json_loads file_path progress_callback last_record_count partial_load w
    = (Return (records, length records), w')
    /\ cached w' file_path = records.
Proof.
  intros Hfile Hfull Hdoc Hlines Hsome.
  destruct (load_json_result json_loads file_path progress_callback last_record_count
              partial_load w) as (w' & Heq & Hq).
  rewrite Hfile in Heq, Hq. unfold load_result in Heq, Hq.
  rewrite Hfull, Hdoc, (line_records_all_mappings _ _ _ Hlines) in Heq, Hq.
  rewrite (Forall2_length _ _ _ Hlines) in Heq.
  destruct records as [|r records]; [done|]. cbn [fst snd] in Heq, Hq.
  exists w'. split; [exact Heq|]. by apply cached_write_cache in Hq as [Hcached _].
Qed.

Lemma load_json_lines_fallback_witness :
  exists w',
    load_json JsonText.loads "app.jsonl" None 0 false
      (initial_world (one_file "app.jsonl" three_lines) 0)
    = (Return ([JObj [("id", JInt 1)]; JObj [("id", JInt 2)]; JObj [("id", JInt 3)]],
               3%nat), w')
    /\ cached w' "app.jsonl"
       = [JObj [("id", JInt 1)]; JObj [("id", JInt 2)]; JObj [("id", JInt 3)]].
Proof.
  apply (load_json_lines_fallback JsonText.loads "app.jsonl" None 0 false
           (initial_world (one_file "app.jsonl" three_lines) 0) three_lines
           [JObj [("id", JInt 1)]; JObj [("id", JInt 2)]; JObj [("id", JInt 3)]]).
  - vm_compute. reflexivity.
  - reflexivity.
  - vm_compute. reflexivity.
  - assert (stripped_lines three_lines = map json_text ["{'id':1}"; "{'id':2}"; "{'id':3}"])
      as -> by (vm_compute; reflexivity).
    repeat constructor; solve [discriminate | vm_compute; reflexivity].
  - discriminate.
Defined.

(** X3. No usable record: when the content is not one JSON document and
    every line is blank or parses to something that is not a mapping
    (the empty file included), a full load fails with "No valid JSON
    objects found." and the cache is not touched. *)
Theorem load_json_no_records (json_loads : string -> option json)
    (file_path : string) (progress_callback : option callback)
    (last_record_count : nat) (partial_load : bool) (w : world) (text : string) :
  files w !! file_path = Some text ->
  partial_load && (0 <? last_record_count)%nat = false ->
  json_loads (PyText.strip text) = None ->
  Forall (fun line =>
            PyText.strip line = EmptyString
            \/ exists j, json_loads (PyText.strip line) = Some j /\ is_dict j = false)
         (stripped_lines text) ->
  exists w',
    load_json json_loads file_path progress_callback last_record_count partial_load w
    = (Raise (LoadError (ValueError "No valid JSON objects found.")), w')
    /\ raw_data_cache w' = raw_data_cache w.
Proof.
  intros Hfile Hfull Hdoc Hlines.
  destruct (load_json_result json_loads file_path progress_callback last_record_count
              partial_load w) as (w' & Heq & Hq).
  rewrite Hfile in Heq, Hq. unfold load_result in Heq, Hq.
  rewrite Hfull, Hdoc, (line_records_no_mapping _ _ Hlines) in Heq, Hq.
  cbn [fst snd] in Heq, Hq.
  exists w'. split; [exact Heq | by apply cache_kept in Hq].
Qed.

Lemma load_json_no_records_witness :
  exists w',
    load_json JsonText.loads "app.jsonl" None 0 false
      (initial_world (one_file "app.jsonl" (json_text ("1" ++ LF ++ "[2]" ++ LF ++ "'x'"))) 0)
    = (Raise (LoadError (ValueError "No valid JSON objects found.")), w')
    /\ raw_data_cache w'
       = raw_data_cache
           (initial_world
              (one_file "app.jsonl" (json_text ("1" ++ LF ++ "[2]" ++ LF ++ "'x'"))) 0).
Proof.
  apply (load_json_no_records JsonText.loads "app.jsonl" None 0 false
           (initial_world
              (one_file "app.jsonl" (json_text ("1" ++ LF ++ "[2]" ++ LF ++ "'x'"))) 0)
           (json_text ("1" ++ LF ++ "[2]" ++ LF ++ "'x'"))).
  - vm_compute. reflexivity.
  - reflexivity.
  - vm_compute. reflexivity.
  - assert (stripped_lines (json_text ("1" ++ LF ++ "[2]" ++ LF ++ "'x'"))
            = map json_text ["1"; "[2]"; "'x'"]) as -> by (vm_compute; reflexivity).
    repeat (apply List.Forall_cons;
            [right; eexists; (split; [vm_compute; reflexivity | reflexivity])|]).
    apply List.Forall_nil.
Defined.

(** What [load_result] can be: a failure is a wrapped error that writes
    nothing; a success returns mappings and writes the cached list, the
    returned list on a full load and the old list followed by it on an
    incremental one. *)
Lemma load_result_cases (json_loads : string -> option json) (text : option string)
    (last_record_count : nat) (partial_load : bool) (old : option (list json)) :
  match fst (load_result json_loads text last_record_count partial_load old) with
  | Raise e =>
      (exists cause, e = LoadError cause)
      /\ snd (load_result json_loads text last_record_count partial_load old) = None
  | Return (data, total) =>
      Forall (fun record => is_dict record = true) data
      /\ snd (load_result json_loads text last_record_count partial_load old)
         = Some (if partial_load && (0 <? last_record_count)%nat
                 then (default [] old ++ data)%list else data)
  end.
Proof.
  unfold load_result. destruct text as [text|]; [|cbn; eauto].
  destruct (partial_load && (0 <? last_record_count)%nat).
  - destruct (line_records json_loads _) as [records|] eqn:Hrecords; cbn; [|eauto].
    split; [by eapply line_records_are_mappings | done].
  - destruct (json_loads (PyText.strip text)) as [[| | | | |items|d]|]; cbn; eauto.
    + destruct (forallb is_dict items) eqn:Hdicts; cbn; [|eauto].
      split; [|done]. apply Forall_forall. intros record Hin.
      rewrite forallb_forall in Hdicts. apply Hdicts. by apply list_elem_of_In.
    + destruct (line_records json_loads _) as [[|r records]|] eqn:Hrecords; cbn; eauto.
      split; [by eapply line_records_are_mappings | done].
Qed.

(** X4. A file whose content is one JSON mapping: a full load wraps it
    in a one-element list, returns it with the line count of the content
    and caches it. *)
Theorem load_json_single_mapping (json_loads : string -> option json)
    (file_path : string) (progress_callback : option callback)
    (last_record_count : nat) (partial_load : bool) (w : world)
    (text : string) (d : pydict) :
  files w !! file_path = Some text ->
  partial_load && (0 <? last_record_count)%nat = false ->
  json_loads (PyText.strip text) = Some (JObj d) ->
  exists w',
    load_json json_loads file_path progress_callback last_record_count partial_load w
    = (Return ([JObj d], length (stripped_lines text)), w')
    /\ cached w' file_path = [JObj d].
Proof.
  intros Hfile Hfull Hdoc.
  destruct (load_json_result json_loads file_path progress_callback last_record_count
              partial_load w) as (w' & Heq & Hq).
  rewrite Hfile in Heq, Hq. unfold load_result in Heq, Hq.
  rewrite Hfull, Hdoc in Heq, Hq. cbn [fst snd] in Heq, Hq.
  exists w'. split; [exact Heq|]. by apply cached_write_cache in Hq as [Hcached _].
Qed.

Lemma load_json_single_mapping_witness :
  exists w',
    load_json JsonText.loads "app.json" None 0 false
      (initial_world (one_file "app.json" pretty_text) 0)
    = (Return ([JObj [("a", JInt 1)]], 3%nat), w')
    /\ cached w' "app.json" = [JObj [("a", JInt 1)]].
Proof.
  apply (load_json_single_mapping JsonText.loads "app.json" None 0 false
           (initial_world (one_file "app.json" pretty_text) 0) pretty_text).
  - vm_compute. reflexivity.
  - reflexivity.
  - vm_compute. reflexivity.
Defined.

(** X5. A document of the wrong shape: when the content parses as one
    JSON document that is neither a mapping nor an array of mappings (a
    scalar, or an array with an entry that is not a mapping), a full load
    fails with a [ValueError]; it does not fall back to the lines, drops
    no entry silently, and leaves the cache alone. *)
Theorem load_json_wrong_shape (json_loads : string -> option json)
    (file_path : string) (progress_callback : option callback)
    (last_record_count : nat) (partial_load : bool) (w : world)
    (text : string) (doc : json) :
  files w !! file_path = Some text ->
  partial_load && (0 <? last_record_count)%nat = false ->
  json_loads (PyText.strip text) = Some doc ->
  (is_list doc = false /\ is_dict doc = false)
  \/ (exists items, doc = JArr items /\ Exists (fun item => is_dict item = false) items) ->
  exists w' msg,
    load_json json_loads file_path progress_callback last_record_count partial_load w
    = (Raise (LoadError (ValueError msg)), w')
    /\ raw_data_cache w' = raw_data_cache w.
Proof.
  intros Hfile Hfull Hdoc Hshape.
  destruct (load_json_result json_loads file_path progress_callback last_record_count
              partial_load w) as (w' & Heq & Hq).
  rewrite Hfile in Heq, Hq. unfold load_result in Heq, Hq.
  rewrite Hfull, Hdoc in Heq, Hq. exists w'.
  destruct Hshape as [[Hlist Hdict]|(items & -> & Hbad)].
  - destruct doc; try discriminate; cbn [fst snd] in Heq, Hq;
      (eexists; split; [exact Heq | by apply cache_kept in Hq]).
  - assert (forallb is_dict items = false) as Hdicts.
    { apply not_true_is_false. rewrite forallb_forall. intros Hall.
      apply Exists_exists in Hbad as (item & Hin & Hitem).
      apply list_elem_of_In, Hall in Hin. congruence. }
    rewrite Hdicts in Heq, Hq. cbn [fst snd] in Heq, Hq.
    eexists. split; [exact Heq | by apply cache_kept in Hq].
Qed.

Lemma load_json_wrong_shape_witness :
  exists w' msg,
    load_json JsonText.loads "app.json" None 0 false
      (initial_world (one_file "app.json" (json_text "[{'a':1},2]")) 0)
    = (Raise (LoadError (ValueError msg)), w')
    /\ raw_data_cache w'
       = raw_data_cache (initial_world (one_file "app.json" (json_text "[{'a':1},2]")) 0).
Proof.
  apply (load_json_wrong_shape JsonText.loads "app.json" None 0 false
           (initial_world (one_file "app.json" (json_text "[{'a':1},2]")) 0)
           (json_text "[{'a':1},2]") (JArr [JObj [("a", JInt 1)]; JInt 2])).
  - vm_compute. reflexivity.
  - reflexivity.
  - vm_compute. reflexivity.
  - right. eexists. split; [reflexivity|]. apply Exists_cons_tl, Exists_cons_hd. reflexivity.
Defined.

Lemma quiet_globals (w w' : world) :
  quiet w w' ->
  now w' = now w /\ use_severity_colors w' = use_severity_colors w
  /\ custom_severity_colors w' = custom_severity_colors w
  /\ auto_scroll_enabled w' = auto_scroll_enabled w
  /\ refresh_interval_ms w' = refresh_interval_ms w
  /\ next_sync_time w' = next_sync_time w.
Proof. unfold quiet. intros ->. by destruct w. Qed.

Lemma write_cache_frame (file_path : string) (entry : option (list json)) (w : world) :
  files (write_cache file_path entry w) = files w
  /\ dialogs (write_cache file_path entry w) = dialogs w
  /\ labels (write_cache file_path entry w) = labels w
  /\ trees (write_cache file_path entry w) = trees w
  /\ now (write_cache file_path entry w) = now w
  /\ use_severity_colors (write_cache file_path entry w) = use_severity_colors w
  /\ custom_severity_colors (write_cache file_path entry w) = custom_severity_colors w
  /\ auto_scroll_enabled (write_cache file_path entry w) = auto_scroll_enabled w
  /\ refresh_interval_ms (write_cache file_path entry w) = refresh_interval_ms w
  /\ next_sync_time (write_cache file_path entry w) = next_sync_time w
  /\ forall other, other <> file_path ->
       raw_data_cache (write_cache file_path entry w) !! other = raw_data_cache w !! other.
Proof.
  destruct entry, w; cbn; repeat split; try done.
  intros other Hne. by rewrite lookup_insert_ne.
Qed.

Lemma load_json_frame (json_loads : string -> option json)
    (file_path : string) (progress_callback : option callback)
    (last_record_count : nat) (partial_load : bool) (w : world) :
  let w' := snd (load_json json_loads file_path progress_callback last_record_count
                   partial_load w) in
  files w' = files w /\ trees w' = trees w /\ labels w' = labels w
  /\ dialogs w' = dialogs w
  /\ (use_severity_colors w' = use_severity_colors w
      /\ custom_severity_colors w' = custom_severity_colors w
      /\ auto_scroll_enabled w' = auto_scroll_enabled w
      /\ refresh_interval_ms w' = refresh_interval_ms w
      /\ next_sync_time w' = next_sync_time w)
  /\ forall other, other <> file_path ->
       raw_data_cache w' !! other = raw_data_cache w !! other.
Proof.
  destruct (load_json_result json_loads file_path progress_callback last_record_count
              partial_load w) as (w' & Heq & Hq).
  rewrite Heq. cbn [snd].
  pose proof (quiet_frame _ _ Hq) as (Hfiles & Hcache & Hdialogs & Hlabels & Htrees).
  pose proof (quiet_globals _ _ Hq) as (_ & Hcolors & Hcustom & Hscroll & Hinterval & Hnext).
  pose proof (write_cache_frame file_path
                (snd (load_result json_loads (files w !! file_path) last_record_count
                        partial_load (raw_data_cache w !! file_path))) w)
    as (Ff & Fd & Fl & Ft & _ & Fc & Fcu & Fs & Fi & Fn & Fo).
  rewrite Hfiles, Htrees, Hlabels, Hdialogs, Hcolors, Hcustom, Hscroll, Hinterval, Hnext, Hcache.
  repeat split; done.
Qed.


(** X7. Every failure of [load_json] is the wrapped error of its outer
    handler, and a failed load leaves the whole cache exactly as it
    was. *)
Theorem load_json_failure_atomic (json_loads : string -> option json)
    (file_path : string) (progress_callback : option callback)
    (last_record_count : nat) (partial_load : bool) (w w' : world) (e : exn) :
  load_json json_loads file_path progress_callback last_record_count partial_load w
    = (Raise e, w') ->
  (exists cause, e = LoadError cause) /\ raw_data_cache w' = raw_data_cache w.
Proof.
  intros Hload.
  destruct (load_json_result json_loads file_path progress_callback last_record_count
              partial_load w) as (w'' & Heq & Hq).
  rewrite Hload in Heq. injection Heq as Hres <-.
  pose proof (load_result_cases json_loads (files w !! file_path) last_record_count
                partial_load (raw_data_cache w !! file_path)) as Hcases.
  rewrite <- Hres in Hcases. destruct Hcases as [Hwrapped Hnone].
  rewrite Hnone in Hq. split; [exact Hwrapped | by apply cache_kept in Hq].
Qed.

Lemma load_json_failure_atomic_witness :
  (exists cause, LoadError JSONDecodeError = LoadError cause)
  /\ raw_data_cache
       (snd (load_json JsonText.loads "app.jsonl" None 2 true
               (initial_world (one_file "app.jsonl" five_lines_bad_third) 0)))
     = raw_data_cache (initial_world (one_file "app.jsonl" five_lines_bad_third) 0).
Proof.
  apply (load_json_failure_atomic JsonText.loads "app.jsonl" None 2 true
           (initial_world (one_file "app.jsonl" five_lines_bad_third) 0)).
  vm_compute. reflexivity.
Defined.

Lemma load_json_returned (json_loads : string -> option json)
    (file_path : string) (progress_callback : option callback)
    (last_record_count : nat) (partial_load : bool) (w w' : world)
    (data : list json) (total : nat) :
  load_json json_loads file_path progress_callback last_record_count partial_load w
    = (Return (data, total), w') ->
  Forall (fun record => is_dict record = true) data
  /\ cached w' file_path
     = (if partial_load && (0 <? last_record_count)%nat
        then (cached w file_path ++ data)%list else data).
Proof.
  intros Hload.
  destruct (load_json_result json_loads file_path progress_callback last_record_count
              partial_load w) as (w'' & Heq & Hq).
  rewrite Hload in Heq. injection Heq as Hres <-.
  pose proof (load_result_cases json_loads (files w !! file_path) last_record_count
                partial_load (raw_data_cache w !! file_path)) as Hcases.
  rewrite <- Hres in Hcases. destruct Hcases as [Hdicts Hentry].
  rewrite Hentry in Hq. split; [exact Hdicts|].
  by apply cached_write_cache in Hq as [Hcached _].
Qed.

(** X8. Every record a successful load returns is a mapping; a full
    load replaces the cached list of the path by the returned list, an
    incremental load (seen count of at least 1) appends the returned
    list to it. *)
Theorem load_json_success_cache (json_loads : string -> option json)
    (file_path : string) (progress_callback : option callback)
    (last_record_count : nat) (partial_load : bool) (w w' : world)
    (data : list json) (total : nat) :
  load_json json_loads file_path progress_callback last_record_count partial_load w
    = (Return (data, total), w') ->
  Forall (fun record => is_dict record = true) data
  /\ cached w' file_path
     = (if partial_load && (0 <? last_record_count)%nat
        then (cached w file_path ++ data)%list else data).
Proof.
  exact (load_json_returned json_loads file_path progress_callback last_record_count
           partial_load w w' data total).
Qed.

Lemma load_json_success_cache_witness :
  Forall (fun record => is_dict record = true) [JObj [("id", JInt 3)]]
  /\ cached
       (snd (load_json JsonText.loads "app.jsonl" None 2 true
               (initial_world (one_file "app.jsonl" three_lines) 0))) "app.jsonl"
     = (cached (initial_world (one_file "app.jsonl" three_lines) 0) "app.jsonl"
        ++ [JObj [("id", JInt 3)]])%list.
Proof.
  apply (load_json_success_cache JsonText.loads "app.jsonl" None 2 true
           (initial_world (one_file "app.jsonl" three_lines) 0) _ _ 3).
  vm_compute. reflexivity.
Defined.

(** ** Filter engine: how filter maps behave *)

Section FilterAlgebra.

Variable py_str : json -> string.

Lemma filters_match_app (item : pydict) (f g : list (string * string)) :
  filters_match py_str item (f ++ g)
  = filters_match py_str item f && filters_match py_str item g.
Proof.
  induction f as [|[col filter_text] f IH]; cbn [app filters_match]; [done|].
  destruct (PyText.truthy filter_text); [|done].
  by destruct (negb _).
Qed.

Lemma filters_match_cons (item : pydict) (entry : string * string)
    (f : list (string * string)) :
  filters_match py_str item (entry :: f)
  = filters_match py_str item [entry] && filters_match py_str item f.
Proof. apply (filters_match_app item [entry] f). Qed.

Lemma filters_match_Permutation (item : pydict) (f g : list (string * string)) :
  Permutation f g -> filters_match py_str item f = filters_match py_str item g.
Proof.
  induction 1 as [|x f g _ IH|x y f|f g h _ IH1 _ IH2].
  - done.
  - by rewrite (filters_match_cons item x f), (filters_match_cons item x g), IH.
  - rewrite (filters_match_cons item y (x :: f)), (filters_match_cons item x f),
      (filters_match_cons item x (y :: f)), (filters_match_cons item y f).
    by rewrite !andb_assoc, (andb_comm (filters_match py_str item [y])).
  - by rewrite IH1.
Qed.

Lemma filters_match_blank (item : pydict) (filters : list (string * string)) :
  Forall (fun entry => snd entry = EmptyString) filters ->
  filters_match py_str item filters = true.
Proof.
  induction 1 as [|[col filter_text] filters Hblank _ IH]; cbn [filters_match]; [done|].
  simpl in Hblank. by rewrite Hblank.
Qed.

(** [filters[col] = filter_text] on a column without a filter adds one
    condition to the conjunction. *)
Lemma filters_match_set (item : pydict) (filters : list (string * string))
    (col filter_text : string) :
  default EmptyString (PyDict.get col filters) = EmptyString ->
  filters_match py_str item (PyDict.set col filter_text filters)
  = filters_match py_str item filters && filters_match py_str item [(col, filter_text)].
Proof.
  induction filters as [|[k v] filters IH]; cbn [PyDict.get PyDict.set]; intros Hblank.
  - by rewrite andb_true_l.
  - destruct (String.eqb_spec col k) as [->|Hne].
    + simpl in Hblank. subst v.
      rewrite (filters_match_cons item (k, filter_text) filters).
      rewrite (filters_match_cons item (k, EmptyString) filters).
      cbn [filters_match PyText.truthy]. rewrite andb_true_l. apply andb_comm.
    + rewrite (filters_match_cons item (k, v) (PyDict.set col filter_text filters)).
      rewrite (filters_match_cons item (k, v) filters).
      rewrite IH; [|exact Hblank]. by rewrite andb_assoc.
Qed.

End FilterAlgebra.

(** X9. Filters that are all empty strings, as every new tab has them,
    keep the whole input: nothing is filtered out. *)
Theorem filter_data_blank_filters (py_str : json -> string) (data : list pydict)
    (filters : list (string * string)) (desired_columns : list string) :
  Forall (fun entry => snd entry = EmptyString) filters ->
  filter_data py_str data filters desired_columns = data.
Proof.
  intros Hblank. rewrite filter_data_filter.
  induction data as [|item data IH]; simpl; [done|].
  by rewrite (filters_match_blank py_str item filters Hblank), IH.
Qed.

Lemma filter_data_blank_filters_witness :
  filter_data JsonText.str example_records (tab_filters (fresh_tab main_columns)) main_columns
  = example_records.
Proof.
  apply (filter_data_blank_filters JsonText.str example_records
           (tab_filters (fresh_tab main_columns)) main_columns).
  repeat constructor.
Defined.

(** X10. Setting a filter on a column that has none (its filter string
    is empty, or the column is not in the map), as the filter dialog
    does with [filters[column] = new_filter], narrows what is shown: the
    records kept are the records kept before that also pass the new
    filter. *)
Theorem filter_data_set_filter (py_str : json -> string) (data : list pydict)
    (filters : list (string * string)) (col filter_text : string)
    (desired_columns : list string) :
  default EmptyString (PyDict.get col filters) = EmptyString ->
  filter_data py_str data (PyDict.set col filter_text filters) desired_columns
    = filter_data py_str (filter_data py_str data filters desired_columns)
        [(col, filter_text)] desired_columns
  /\ filter_data py_str data (PyDict.set col filter_text filters) desired_columns
     `sublist_of` filter_data py_str data filters desired_columns.
Proof.
  intros Hblank.
  assert (filter_data py_str data (PyDict.set col filter_text filters) desired_columns
          = filter_data py_str (filter_data py_str data filters desired_columns)
              [(col, filter_text)] desired_columns) as Hnarrow.
  { rewrite !filter_data_filter.
    induction data as [|item data IH]; simpl List.filter; [done|].
    rewrite (filters_match_set py_str item filters col filter_text Hblank).
    destruct (filters_match py_str item filters); simpl; [|exact IH].
    destruct (filters_match py_str item [(col, filter_text)]); by rewrite IH. }
  split; [exact Hnarrow|]. rewrite Hnarrow. apply filter_data_sublist.
Qed.

Lemma filter_data_set_filter_witness :
  filter_data JsonText.str example_records
    (PyDict.set "severity" "high" (tab_filters (fresh_tab main_columns))) main_columns
  = [[("severity", JStr "High"); ("name", JStr "A")]]
  /\ filter_data JsonText.str example_records
       (PyDict.set "severity" "high" (tab_filters (fresh_tab main_columns))) main_columns
     = filter_data JsonText.str
         (filter_data JsonText.str example_records (tab_filters (fresh_tab main_columns))
            main_columns)
         [("severity", "high")] main_columns
  /\ filter_data JsonText.str example_records
       (PyDict.set "severity" "high" (tab_filters (fresh_tab main_columns))) main_columns
     `sublist_of` filter_data JsonText.str example_records
                    (tab_filters (fresh_tab main_columns)) main_columns.
Proof.
  split; [vm_compute; reflexivity|].
  apply (filter_data_set_filter JsonText.str example_records
           (tab_filters (fresh_tab main_columns)) "severity" "high" main_columns).
  reflexivity.
Defined.

(** X11. The order in which the filter map lists its columns does not
    matter: two filter lists with the same entries keep the same
    records. *)
Theorem filter_data_filter_order (py_str : json -> string) (data : list pydict)
    (f g : list (string * string)) (desired_columns : list string) :
  Permutation f g ->
  filter_data py_str data f desired_columns = filter_data py_str data g desired_columns.
Proof.
  intros Hperm. rewrite !filter_data_filter.
  induction data as [|item data IH]; simpl; [done|].
  by rewrite (filters_match_Permutation py_str item f g Hperm), IH.
Qed.

Lemma filter_data_filter_order_witness :
  filter_data JsonText.str example_records [("severity", "high"); ("name", "a")] main_columns
  = filter_data JsonText.str example_records [("name", "a"); ("severity", "high")] main_columns.
Proof.
  apply (filter_data_filter_order JsonText.str example_records
           [("severity", "high"); ("name", "a")] [("name", "a"); ("severity", "high")]
           main_columns).
  apply perm_swap.
Defined.

Lemma lower_empty (s : string) : PyText.lower s = EmptyString -> s = EmptyString.
Proof. by destruct s. Qed.

Lemma contains_in_empty (needle : string) :
  needle <> EmptyString -> PyText.contains needle EmptyString = false.
Proof. by destruct needle. Qed.

(** X12. A record that lacks a column is dropped by every non-empty
    filter on that column: the missing value counts as the empty string,
    which contains no non-empty text. *)
Theorem filter_data_missing_column (py_str : json -> string)
    (py_str_str : forall s, py_str (JStr s) = s)
    (data : list pydict) (filters : list (string * string)) (desired_columns : list string)
    (item : pydict) (col filter_text : string) :
  PyDict.get col item = None ->
  In (col, filter_text) filters ->
  filter_text <> EmptyString ->
  ~ In item (filter_data py_str data filters desired_columns).
Proof.
  intros Hmissing Hentry Hne Hkept.
  rewrite filter_data_filter, List.filter_In in Hkept. destruct Hkept as [_ Hmatch].
  apply (filters_match_passes py_str py_str_str) in Hmatch.
  specialize (Hmatch col filter_text Hentry Hne).
  unfold string_form in Hmatch. rewrite Hmissing in Hmatch.
  apply contains_spec in Hmatch. cbn [PyText.lower] in Hmatch.
  rewrite contains_in_empty in Hmatch; [done|].
  intros Hlow. by apply lower_empty in Hlow.
Qed.

Lemma filter_data_missing_column_witness :
  ~ In [("name", JStr "A")]
       (filter_data JsonText.str [[("name", JStr "A")]; [("severity", JStr "High")]]
          example_filters main_columns).
Proof.
  apply (filter_data_missing_column JsonText.str (fun s => eq_refl)
           [[("name", JStr "A")]; [("severity", JStr "High")]] example_filters main_columns
           [("name", JStr "A")] "severity" "high").
  - reflexivity.
  - by left.
  - discriminate.
Defined.

(** ** Refresh boundary: the successful refresh and the cycle *)

Lemma table_step_refl tree w : table_step tree w w.
Proof. split; [by destruct w | done]. Qed.

Lemma table_step_trans tree w1 w2 w3 :
  table_step tree w1 w2 -> table_step tree w2 w3 -> table_step tree w1 w3.
Proof.
  intros [H12 F12] [H23 F23]. split.
  - destruct w1, w2, w3; unfold set_log, set_trees in *; simpl in *.
    injection H12; clear H12; intros; subst.
    injection H23; clear H23; intros; subst. reflexivity.
  - intros other Hne. by rewrite F23, F12.
Qed.

Lemma table_step_update tree f w : table_step tree w (snd (update_tree tree f w)).
Proof.
  split; [by destruct w|]. intros other Hne. destruct w; simpl. by rewrite lookup_insert_ne.
Qed.

Lemma table_step_log tree w entries : table_step tree w (set_log entries w).
Proof. split; [by destruct w | by destruct w]. Qed.

Lemma table_step_frame tree w w' :
  table_step tree w w' ->
  files w' = files w /\ now w' = now w /\ raw_data_cache w' = raw_data_cache w
  /\ use_severity_colors w' = use_severity_colors w
  /\ custom_severity_colors w' = custom_severity_colors w
  /\ auto_scroll_enabled w' = auto_scroll_enabled w
  /\ refresh_interval_ms w' = refresh_interval_ms w
  /\ next_sync_time w' = next_sync_time w
  /\ labels w' = labels w /\ popups w' = popups w /\ dialogs w' = dialogs w.
Proof. intros [-> _]. by destruct w. Qed.

Lemma quiet_clock (w w' : world) : quiet w w' -> clock w' = clock w.
Proof. unfold quiet. intros ->. by destruct w. Qed.

Lemma write_cache_clock (file_path : string) (entry : option (list json)) (w : world) :
  clock (write_cache file_path entry w) = clock w.
Proof. by destruct entry, w. Qed.

Lemma table_step_clock tree w w' : table_step tree w w' -> clock w' = clock w.
Proof. intros [-> _]. by destruct w. Qed.

Lemma tree_of_update tree f w :
  tree_of (snd (update_tree tree f w)) tree = f (tree_of w tree).
Proof. unfold tree_of. destruct w; simpl. by rewrite lookup_insert_eq. Qed.

Section RefreshFacts.

Variable py_str : json -> string.

Lemma table_rows_ext w w' gc cols items :
  use_severity_colors w' = use_severity_colors w ->
  custom_severity_colors w' = custom_severity_colors w ->
  forall idx, table_rows py_str w' gc cols idx items = table_rows py_str w gc cols idx items.
Proof.
  intros Hc Hcs. induction items as [|item rest IH]; intros idx; cbn [table_rows]; [done|].
  rewrite IH. unfold row_tag. by rewrite Hc, Hcs.
Qed.

Lemma insert_rows_spec tree gc cols items :
  forall idx w,
  exists w',
    insert_rows py_str tree gc cols idx items w = (Return tt, w')
    /\ table_step tree w w'
    /\ tree_columns (tree_of w' tree) = tree_columns (tree_of w tree)
    /\ tree_children (tree_of w' tree)
       = (tree_children (tree_of w tree) ++ table_rows py_str w gc cols idx items)%list.
Proof.
  induction items as [|item rest IH]; intros idx w.
  - exists w. split; [done|]. split; [apply table_step_refl|].
    split; [done|]. simpl. by rewrite app_nil_r.
  - cbn [insert_rows table_rows].
    set (w1 := snd (update_tree tree (tree_insert
               (row_values py_str cols idx item) (row_tag py_str w gc item)) w)).
    destruct (IH (S idx) w1) as (w' & Heq & Hstep & Hcols & Hrows).
    exists w'. split; [exact Heq|].
    assert (table_step tree w w1) as Hfirst by apply table_step_update.
    pose proof (table_step_frame _ _ _ Hfirst) as (_ & _ & _ & Hc & Hcs & _).
    split; [by eapply table_step_trans|].
    rewrite Hcols, Hrows. subst w1. rewrite tree_of_update. cbn [tree_insert tree_columns tree_children].
    split; [done|]. rewrite <- app_assoc. cbn [app].
    by rewrite (table_rows_ext w _ gc cols rest Hc Hcs).
Qed.

(** A loop that only configures tags and logs. *)
Lemma tag_loop_spec tree (prefix : string) (mk : string -> string -> log_msg)
    (colors : list (string * string)) :
  forall w,
  exists w',
    for_each colors (fun c =>
      bind (update_tree tree (tree_tag_configure (prefix ++ fst c) (snd c)))
           (fun _ => logging INFO (mk (fst c) (snd c)))) w = (Return tt, w')
    /\ table_step tree w w'
    /\ tree_columns (tree_of w' tree) = tree_columns (tree_of w tree)
    /\ tree_children (tree_of w' tree) = tree_children (tree_of w tree).
Proof.
  induction colors as [|c colors IH]; intros w.
  - exists w. split; [done|]. split; [apply table_step_refl | done].
  - cbn [for_each].
    set (w1 := snd (bind (update_tree tree (tree_tag_configure (prefix ++ fst c) (snd c)))
                      (fun _ => logging INFO (mk (fst c) (snd c))) w)).
    destruct (IH w1) as (w' & Heq & Hstep & Hcols & Hrows).
    exists w'. split; [exact Heq|].
    assert (table_step tree w w1) as Hfirst.
    { apply (table_step_trans tree w
               (snd (update_tree tree (tree_tag_configure (prefix ++ fst c) (snd c)) w)) w1).
      - apply table_step_update.
      - apply (table_step_log tree
                 (snd (update_tree tree (tree_tag_configure (prefix ++ fst c) (snd c)) w))). }
    split; [by eapply table_step_trans|].
    rewrite Hcols, Hrows. subst w1. unfold tree_of. destruct w; simpl.
    by rewrite lookup_insert_eq.
Qed.

Variable json_loads : string -> option json.

Lemma bind_returned {A B} (m : M A) (k : A -> M B) (w w1 : world) (a : A) :
  m w = (Return a, w1) -> bind m k w = k a w1.
Proof. unfold bind. by intros ->. Qed.

Lemma try_except_returned {A} (m : M A) (handler : exn -> M A) (w w1 : world) (a : A) :
  m w = (Return a, w1) -> try_except m handler w = (Return a, w1).
Proof. unfold try_except. by intros ->. Qed.

Lemma refresh_table_loaded (tree : nat) (file_path : string) (error_label : nat)
    (filters group_colors : list (string * string)) (desired_columns : list string)
    (json_text : nat) (is_auto_refresh : bool) (last_manual_sync last_auto_sync : option Z)
    (popup : option nat) (record_count : nat) (w w1 : world)
    (data : list json) (total : nat) :
  load_json json_loads file_path (Some popup) record_count is_auto_refresh
    (refresh_entry file_path is_auto_refresh record_count w) = (Return (data, total), w1) ->
  data <> [] \/ is_auto_refresh = true ->
  exists w',
    refresh_table json_loads py_str tree file_path error_label filters group_colors
      desired_columns json_text is_auto_refresh last_manual_sync last_auto_sync popup
      record_count w
    = (Return (if is_auto_refresh then last_manual_sync else Some (now w),
               if is_auto_refresh then Some (now w) else last_auto_sync,
               total), w')
    /\ (tree_children (tree_of w' tree)
        = ((if is_auto_refresh then tree_children (tree_of w tree) else []) ++
           table_rows py_str w group_colors desired_columns
             (if is_auto_refresh then length (tree_children (tree_of w tree)) + 1 else 1)
             (filter_data py_str (map (fun item => flatten_json item EmptyString ".") data)
                filters desired_columns))%list
        /\ tree_columns (tree_of w' tree)
           = (if is_auto_refresh then tree_columns (tree_of w tree)
              else "Line" :: desired_columns)
        /\ forall other, other <> tree -> trees w' !! other = trees w !! other)
    /\ (next_sync_time w'
        = (if is_auto_refresh then Some (clock w 0%nat + refresh_interval_ms w)%Z
           else next_sync_time w)
        /\ labels w'
           = <[error_label :=
                 StatusLoaded (length (tree_children (tree_of w' tree))) total
                   (if is_auto_refresh then last_manual_sync else Some (now w))
                   (if is_auto_refresh then Some (now w) else last_auto_sync)
                   (countdown_text (next_sync_time w')
                      (clock w (if is_auto_refresh then 1 else 0)%nat))]> (labels w))
    /\ (dialogs w' = dialogs w
        /\ raw_data_cache w' = raw_data_cache w1
        /\ popups w' = match popup with
                       | Some p => alter closed p (popups w1)
                       | None => popups w1
                       end).
Proof.
  intros Hload Hsome.
  (* what the load left alone *)
  destruct (load_json_result json_loads file_path (Some popup) record_count is_auto_refresh
              (refresh_entry file_path is_auto_refresh record_count w)) as (w1' & Heq & Hq).
  rewrite Hload in Heq. injection Heq as _ <-.
  pose proof (quiet_frame _ _ Hq) as (_ & _ & Hd1 & Hl1 & Ht1).
  pose proof (quiet_globals _ _ Hq) as (Hn1 & Hc1 & Hcs1 & Hs1 & Hi1 & Hx1).
  pose proof (write_cache_frame file_path
                (snd (load_result json_loads
                        (files (refresh_entry file_path is_auto_refresh record_count w)
                           !! file_path) record_count is_auto_refresh
                        (raw_data_cache (refresh_entry file_path is_auto_refresh record_count w)
                           !! file_path)))
                (refresh_entry file_path is_auto_refresh record_count w))
    as (_ & Fd & Fl & Ft & Fn & Fc & Fcs & Fs & Fi & Fx & _).
  rewrite Fd in Hd1. rewrite Fl in Hl1. rewrite Ft in Ht1. rewrite Fn in Hn1.
  rewrite Fc in Hc1. rewrite Fcs in Hcs1. rewrite Fs in Hs1. rewrite Fi in Hi1.
  rewrite Fx in Hx1.
  pose proof (quiet_clock _ _ Hq) as Hk1. rewrite write_cache_clock in Hk1.
  change (clock w1 = clock w) in Hk1.
  clear Fd Fl Ft Fn Fc Fcs Fs Fi Fx Hq.
  change (dialogs w1 = dialogs w) in Hd1. change (labels w1 = labels w) in Hl1.
  change (trees w1 = trees w) in Ht1. change (now w1 = now w) in Hn1.
  change (use_severity_colors w1 = use_severity_colors w) in Hc1.
  change (custom_severity_colors w1 = custom_severity_colors w) in Hcs1.
  change (auto_scroll_enabled w1 = auto_scroll_enabled w) in Hs1.
  change (refresh_interval_ms w1 = refresh_interval_ms w) in Hi1.
  change (next_sync_time w1 = next_sync_time w) in Hx1.
  unfold refresh_table. rewrite bind_logging.
  change (snd (logging INFO (RefreshingTable file_path is_auto_refresh record_count) w))
    with (refresh_entry file_path is_auto_refresh record_count w).
  assert (match data with [] => true | _ => false end && negb is_auto_refresh = false) as Hbranch.
  { destruct Hsome as [Hne| ->]; [by destruct data | by rewrite andb_false_r]. }
  match goal with |- exists w', try_except ?body ?h ?w0 = (Return ?r, w') /\ @?Q w' =>
    cut (exists w', body w0 = (Return r, w') /\ Q w')
  end.
  { intros (w' & Hbody & HQ). exists w'. split; [|exact HQ].
    by apply try_except_returned. }
  rewrite (bind_returned _ _ _ _ _ Hload). cbn [fst snd].
  (* the popup is closed *)
  set (w2 := snd (match popup with Some p => popup_close p | None => ret tt end w1)).
  rewrite (bind_returned _ _ w1 w2 tt); [|by destruct popup].
  rewrite Hbranch.
  assert (w2 = set_log (log w2) (set_popups (popups w2) w1)
          /\ popups w2 = match popup with
                         | Some p => alter closed p (popups w1)
                         | None => popups w1
                         end) as [Hw2 Hp2].
  { subst w2. destruct popup; by destruct w1. }
  clearbody w2.
  (* the table is cleared and its columns set on a full refresh *)
  set (w3 := snd ((bind (if negb is_auto_refresh then update_tree tree tree_clear else ret tt)
                     (fun _ => if negb is_auto_refresh
                               then update_tree tree (tree_set_columns ("Line" :: desired_columns))
                               else ret tt)) w2)).
  assert (table_step tree w2 w3
          /\ tree_children (tree_of w3 tree)
             = (if is_auto_refresh then tree_children (tree_of w2 tree) else [])
          /\ tree_columns (tree_of w3 tree)
             = (if is_auto_refresh then tree_columns (tree_of w2 tree)
                else "Line" :: desired_columns)) as (Hs3 & Hch3 & Hco3).
  { subst w3. destruct is_auto_refresh; cbn [negb].
    - split; [apply table_step_refl | done].
    - split.
      + apply (table_step_trans tree w2 (snd (update_tree tree tree_clear w2))).
        * apply table_step_update.
        * apply (table_step_update tree _ (snd (update_tree tree tree_clear w2))).
      + unfold tree_of. destruct w2; simpl. by rewrite !lookup_insert_eq. }
  rewrite (bind_returned _ _ w2
             (snd ((if negb is_auto_refresh then update_tree tree tree_clear else ret tt) w2)) tt);
    [|by destruct is_auto_refresh].
  rewrite (bind_returned _ _ _ w3 tt); [|by destruct is_auto_refresh].
  clearbody w3.
  rewrite (bind_returned (get_tree tree) _ w3 w3 (tree_of w3 tree) eq_refl).
  (* the rows are inserted *)
  destruct (insert_rows_spec tree group_colors desired_columns
              (filter_data py_str (map (fun item => flatten_json item EmptyString ".") data)
                 filters desired_columns)
              (if is_auto_refresh then length (tree_children (tree_of w3 tree)) + 1 else 1) w3)
    as (w4 & Hrun4 & Hs4 & Hco4 & Hch4).
  rewrite (bind_returned _ _ w3 w4 tt Hrun4).
  (* the tags are coloured *)
  destruct (tag_loop_spec tree "group_" AppliedGroupColor group_colors w4)
    as (w5 & Hrun5 & Hs5 & Hco5 & Hch5).
  rewrite (bind_returned _ _ w4 w5 tt Hrun5).
  rewrite (bind_returned (gets use_severity_colors) _ w5 w5 (use_severity_colors w5) eq_refl).
  assert (exists w6,
    (if use_severity_colors w5
     then bind (gets custom_severity_colors) (fun severity_colors =>
            for_each severity_colors (fun sc =>
              bind (update_tree tree (tree_tag_configure ("severity_" ++ fst sc) (snd sc)))
                   (fun _ => logging INFO (AppliedSeverityColor (fst sc) (snd sc)))))
     else ret tt) w5 = (Return tt, w6)
    /\ table_step tree w5 w6
    /\ tree_columns (tree_of w6 tree) = tree_columns (tree_of w5 tree)
    /\ tree_children (tree_of w6 tree) = tree_children (tree_of w5 tree))
    as (w6 & Hrun6 & Hs6 & Hco6 & Hch6).
  { destruct (use_severity_colors w5).
    - apply (tag_loop_spec tree "severity_" AppliedSeverityColor (custom_severity_colors w5) w5).
    - exists w5. split; [done|]. split; [apply table_step_refl | done]. }
  rewrite (bind_returned _ _ w5 w6 tt Hrun6).
  rewrite (bind_returned (gets auto_scroll_enabled) _ w6 w6 (auto_scroll_enabled w6) eq_refl).
  set (w7 := snd ((if auto_scroll_enabled w6 then update_tree tree tree_yview_bottom
                   else ret tt) w6)).
  assert (table_step tree w6 w7
          /\ tree_columns (tree_of w7 tree) = tree_columns (tree_of w6 tree)
          /\ tree_children (tree_of w7 tree) = tree_children (tree_of w6 tree))
    as (Hs7 & Hco7 & Hch7).
  { subst w7. destruct (auto_scroll_enabled w6).
    - split; [apply table_step_update|]. by rewrite tree_of_update.
    - split; [apply table_step_refl | done]. }
  rewrite (bind_returned _ _ w6 w7 tt); [|by destruct (auto_scroll_enabled w6)].
  clearbody w7.
  (* from the state after the load to the state before the stamps *)
  assert (table_step tree w2 w7) as Hs27.
  { repeat (eapply table_step_trans; [eassumption|]). apply table_step_refl. }
  pose proof (table_step_frame _ _ _ Hs3) as (_ & _ & _ & Hc3 & Hcs3 & _).
  pose proof (table_step_frame _ _ _ Hs27)
    as (_ & Hn7 & Hca7 & _ & _ & _ & Hi7 & Hx7 & Hl7 & Hp7 & Hd7).
  pose proof (table_step_clock _ _ _ Hs27) as Hk7.
  destruct Hs27 as [_ Ho7].
  pose proof (quiet_frame _ _ Hw2) as (_ & Hca2 & Hd2 & Hl2 & Ht2).
  pose proof (quiet_globals _ _ Hw2) as (Hn2 & Hc2 & Hcs2 & _ & Hi2 & Hx2).
  assert (tree_of w2 tree = tree_of w tree) as Htree2.
  { unfold tree_of. by rewrite Ht2, Ht1. }
  assert (tree_children (tree_of w7 tree)
          = ((if is_auto_refresh then tree_children (tree_of w tree) else []) ++
             table_rows py_str w group_colors desired_columns
               (if is_auto_refresh then length (tree_children (tree_of w tree)) + 1 else 1)
               (filter_data py_str (map (fun item => flatten_json item EmptyString ".") data)
                  filters desired_columns))%list) as Hchildren.
  { rewrite Hch7, Hch6, Hch5, Hch4, Hch3, Htree2.
    rewrite (table_rows_ext w w3); [|congruence|congruence].
    by destruct is_auto_refresh. }
  assert (tree_columns (tree_of w7 tree)
          = (if is_auto_refresh then tree_columns (tree_of w tree)
             else "Line" :: desired_columns)) as Hcolumns.
  { by rewrite Hco7, Hco6, Hco5, Hco4, Hco3, Htree2. }
  assert (now w7 = now w) as Hnow by congruence.
  assert (clock w7 = clock w) as Hclock.
  { rewrite Hk7, (quiet_clock _ _ Hw2), Hk1. reflexivity. }
  assert (refresh_interval_ms w7 = refresh_interval_ms w) as Hinterval by congruence.
  assert (next_sync_time w7 = next_sync_time w) as Hnext by congruence.
  assert (labels w7 = labels w) as Hlabels by congruence.
  assert (dialogs w7 = dialogs w) as Hdialogs by congruence.
  assert (raw_data_cache w7 = raw_data_cache w1) as Hcache by congruence.
  assert (forall other, other <> tree -> trees w7 !! other = trees w !! other) as Hothers.
  { intros other Hne. by rewrite (Ho7 other Hne), Ht2, Ht1. }
  rewrite <- Hp7 in Hp2.
  clear - Hchildren Hcolumns Hnow Hclock Hinterval Hnext Hlabels Hdialogs Hcache Hothers Hp2.
  (* the stamps, the clock readings and the label *)
  unfold countdown_text.
  destruct is_auto_refresh.
  - cbv [bind gets modify get_tree label_config logging ret time_time].
    cbn [next_sync_time refresh_interval_ms clock set_clock set_next_sync_time].
    rewrite Hnow, Hclock, Hinterval.
    destruct (clock w 0%nat + refresh_interval_ms w =? 0)%Z eqn:Hzero.
    + eexists. split; [reflexivity|].
      unfold tree_of in *.
      cbn [trees labels dialogs raw_data_cache popups next_sync_time now
           set_log set_labels set_next_sync_time set_clock].
      rewrite Hchildren, Hcolumns, ?Hzero, ?Hlabels.
      repeat split; auto.
    + cbn [clock set_clock set_next_sync_time]. rewrite ?Hclock.
      eexists. split; [reflexivity|].
      unfold tree_of in *.
      cbn [trees labels dialogs raw_data_cache popups next_sync_time now
           set_log set_labels set_next_sync_time set_clock].
      rewrite Hchildren, Hcolumns, ?Hzero, ?Hlabels.
      repeat split; auto.
  - cbv [bind gets modify get_tree label_config logging ret].
    rewrite Hnow, Hnext.
    destruct (next_sync_time w) as [next|] eqn:Hnext_w; [destruct (next =? 0)%Z eqn:Hzero|].
    + eexists. split; [reflexivity|].
      unfold tree_of in *.
      cbn [trees labels dialogs raw_data_cache popups next_sync_time now
           set_log set_labels set_next_sync_time set_clock].
      rewrite Hchildren, Hcolumns, ?Hnext, ?Hnext_w, ?Hzero, ?Hlabels.
      repeat split; auto.
    + cbv [bind gets modify ret time_time]. rewrite ?Hclock.
      eexists. split; [reflexivity|].
      unfold tree_of in *.
      cbn [trees labels dialogs raw_data_cache popups next_sync_time now
           set_log set_labels set_next_sync_time set_clock].
      rewrite Hchildren, Hcolumns, ?Hnext, ?Hnext_w, ?Hzero, ?Hlabels.
      repeat split; auto.
    + eexists. split; [reflexivity|].
      unfold tree_of in *.
      cbn [trees labels dialogs raw_data_cache popups next_sync_time now
           set_log set_labels set_next_sync_time set_clock].
      rewrite Hchildren, Hcolumns, ?Hnext, ?Hnext_w, ?Hlabels.
      repeat split; auto.
Qed.

Lemma refresh_table_no_data (tree : nat) (file_path : string) (error_label : nat)
    (filters group_colors : list (string * string)) (desired_columns : list string)
    (json_text : nat) (last_manual_sync last_auto_sync : option Z)
    (popup : option nat) (record_count : nat) (w w1 : world) (total : nat) :
  load_json json_loads file_path (Some popup) record_count false
    (refresh_entry file_path false record_count w) = (Return ([], total), w1) ->
  exists w',
    refresh_table json_loads py_str tree file_path error_label filters group_colors
      desired_columns json_text false last_manual_sync last_auto_sync popup record_count w
    = (Return (last_manual_sync, last_auto_sync, record_count), w')
    /\ labels w' = <[error_label := StatusNoData]> (labels w)
    /\ trees w' = trees w
    /\ dialogs w' = dialogs w
    /\ raw_data_cache w' = raw_data_cache w1
    /\ popups w' = match popup with
                   | Some p => alter closed p (popups w1)
                   | None => popups w1
                   end.
Proof.
  intros Hload.
  pose proof (load_json_frame json_loads file_path (Some popup) record_count false
                (refresh_entry file_path false record_count w)) as Hfoot.
  rewrite Hload in Hfoot. cbn [snd] in Hfoot.
  destruct Hfoot as (_ & Ht1 & Hl1 & Hd1 & _).
  change (trees w1 = trees w) in Ht1. change (labels w1 = labels w) in Hl1.
  change (dialogs w1 = dialogs w) in Hd1.
  unfold refresh_table. rewrite bind_logging.
  change (snd (logging INFO (RefreshingTable file_path false record_count) w))
    with (refresh_entry file_path false record_count w).
  match goal with |- exists w', try_except ?body ?h ?w0 = (Return ?r, w') /\ @?Q w' =>
    cut (exists w', body w0 = (Return r, w') /\ Q w')
  end.
  { intros (w' & Hbody & HQ). exists w'. split; [|exact HQ].
    by apply try_except_returned. }
  rewrite (bind_returned _ _ _ _ _ Hload). cbn [fst snd andb negb].
  destruct popup as [p|].
  - eexists. split; [reflexivity|]. cbn. by rewrite Hl1, Ht1, Hd1.
  - eexists. split; [reflexivity|]. cbn. by rewrite Hl1, Ht1, Hd1.
Qed.

Lemma refresh_table_failed (tree : nat) (file_path : string) (error_label : nat)
    (filters group_colors : list (string * string)) (desired_columns : list string)
    (json_text : nat) (is_auto_refresh : bool) (last_manual_sync last_auto_sync : option Z)
    (popup : option nat) (record_count : nat) (w w1 : world) (e : exn) :
  load_json json_loads file_path (Some popup) record_count is_auto_refresh
    (refresh_entry file_path is_auto_refresh record_count w) = (Raise e, w1) ->
  exists w',
    refresh_table json_loads py_str tree file_path error_label filters group_colors
      desired_columns json_text is_auto_refresh last_manual_sync last_auto_sync popup
      record_count w
    = (Return (last_manual_sync, last_auto_sync, record_count), w')
    /\ popups w' = popups w1 /\ trees w' = trees w.
Proof.
  intros Hload.
  pose proof (load_json_frame json_loads file_path (Some popup) record_count
                is_auto_refresh
                (refresh_entry file_path is_auto_refresh record_count w)) as Hfoot.
  rewrite Hload in Hfoot. cbn [snd] in Hfoot.
  destruct Hfoot as (_ & Ht1 & _).
  change (trees w1 = trees w) in Ht1.
  unfold refresh_table. rewrite bind_logging.
  change (snd (logging INFO (RefreshingTable file_path is_auto_refresh record_count) w))
    with (refresh_entry file_path is_auto_refresh record_count w).
  erewrite try_except_raised; [|apply bind_raised, Hload].
  eexists. split; [reflexivity|]. cbn. by rewrite Ht1.
Qed.

Lemma refresh_table_returns (tree : nat) (file_path : string) (error_label : nat)
    (filters group_colors : list (string * string)) (desired_columns : list string)
    (json_text : nat) (is_auto_refresh : bool) (last_manual_sync last_auto_sync : option Z)
    (popup : option nat) (record_count : nat) (w : world) :
  exists r w',
    refresh_table json_loads py_str tree file_path error_label filters group_colors
      desired_columns json_text is_auto_refresh last_manual_sync last_auto_sync popup
      record_count w = (Return r, w').
Proof.
  destruct (load_json json_loads file_path (Some popup) record_count is_auto_refresh
              (refresh_entry file_path is_auto_refresh record_count w))
    as [[[data total]|e] w1] eqn:Hload.
  - destruct is_auto_refresh.
    + destruct (refresh_table_loaded tree file_path error_label filters group_colors
                  desired_columns json_text true last_manual_sync last_auto_sync popup
                  record_count w w1 data total Hload) as (w' & Hrun & _); eauto.
    + destruct data as [|record data].
      * destruct (refresh_table_no_data tree file_path error_label filters group_colors
                    desired_columns json_text last_manual_sync last_auto_sync popup
                    record_count w w1 total Hload) as (w' & Hrun & _). eauto.
      * destruct (refresh_table_loaded tree file_path error_label filters group_colors
                    desired_columns json_text false last_manual_sync last_auto_sync popup
                    record_count w w1 (record :: data) total Hload) as (w' & Hrun & _);
          [by left | eauto].
  - destruct (refresh_table_failed tree file_path error_label filters group_colors
                desired_columns json_text is_auto_refresh last_manual_sync last_auto_sync
                popup record_count w w1 e Hload) as (w' & Hrun & _). eauto.
Qed.
End RefreshFacts.

(** *** Properties kept by every run *)

Section Keeps.
Context {A B : Type} (I : world -> Prop).

Lemma keeps_ret (a : A) : keeps I (ret a).
Proof. by intros w. Qed.

Lemma keeps_raise (e : exn) : keeps I (@raise A e).
Proof. by intros w. Qed.

Lemma keeps_gets (f : world -> A) : keeps I (gets f).
Proof. by intros w. Qed.

Lemma keeps_modify (f : world -> world) : (forall w, I w -> I (f w)) -> keeps I (modify f).
Proof. intros Hf w. apply Hf. Qed.

Lemma keeps_bind (m : M A) (k : A -> M B) :
  keeps I m -> (forall a, keeps I (k a)) -> keeps I (bind m k).
Proof.
  intros Hm Hk w Hw. unfold bind. specialize (Hm w Hw).
  destruct (m w) as [[a|e] w1]; [by apply Hk | done].
Qed.

Lemma keeps_try_except (m : M A) (handler : exn -> M A) :
  keeps I m -> (forall e, keeps I (handler e)) -> keeps I (try_except m handler).
Proof.
  intros Hm Hh w Hw. unfold try_except. specialize (Hm w Hw).
  destruct (m w) as [[a|e] w1]; [done | by apply Hh].
Qed.
End Keeps.

Lemma popup_flags_log w entries : popup_flags (set_log entries w) = popup_flags w.
Proof. by destruct w. Qed.

Lemma popup_flags_cache w c : popup_flags (set_raw_data_cache c w) = popup_flags w.
Proof. by destruct w. Qed.

Lemma popup_flags_progress w p v :
  popup_flags (set_popups (alter (fun st => {| popup_open := popup_open st;
                                               popup_value := v |}) p (popups w)) w)
  = popup_flags w.
Proof.
  unfold popup_flags. destruct w; simpl.
  rewrite (list_fmap_alter popup_open
             (fun st => {| popup_open := popup_open st; popup_value := v |}) id);
    [by apply list_alter_id | by apply Forall_forall].
Qed.

(** [load_json] keeps every property of the state that its log lines,
    its progress updates and its cache writes keep. *)
Section LoaderKeeps.

Variable json_loads : string -> option json.
Variable I : world -> Prop.

Hypothesis I_logging :
  forall lvl msg, cycle_event (lvl, msg) = false -> keeps I (logging lvl msg).
Hypothesis I_progress : forall popup num den, keeps I (update_progress popup num den).
Hypothesis I_cache : forall c w, I w -> I (set_raw_data_cache c w).

Lemma keeps_call_progress cb num den : keeps I (call_progress cb num den).
Proof. destruct cb as [p|]; [apply I_progress | apply keeps_ret]. Qed.

Lemma keeps_json_lines_loop cb n lines : forall i data,
  keeps I (json_lines_loop json_loads cb n i lines data).
Proof.
  induction lines as [|line rest IH]; intros i data; cbn [json_lines_loop].
  - apply keeps_ret.
  - apply keeps_bind.
    + destruct (PyText.truthy _); [|apply keeps_ret].
      apply keeps_bind; [|intros; apply keeps_ret].
      unfold py_json_loads. destruct (json_loads _); [apply keeps_ret | apply keeps_raise].
    + intros data'. apply keeps_bind; [|intros; apply IH].
      destruct cb as [cb|]; [|apply keeps_ret].
      destruct (0 <? n)%nat; [apply keeps_call_progress | apply keeps_ret].
Qed.

Lemma keeps_load_json file_path cb N partial_load :
  keeps I (load_json json_loads file_path cb N partial_load).
Proof.
  unfold load_json.
  apply keeps_bind; [by apply I_logging|]. intros _.
  apply keeps_try_except.
  2:{ intros e. apply keeps_bind; [by apply I_logging | intros; apply keeps_raise]. }
  apply keeps_bind.
  { intros w Hw. unfold read_file. by destruct (files w !! file_path). }
  intros text.
  destruct (partial_load && (0 <? N)%nat).
  - apply keeps_bind; [apply keeps_json_lines_loop|]. intros data.
    apply keeps_bind; [by apply I_logging|]. intros _.
    apply keeps_bind; [|intros; apply keeps_ret].
    apply keeps_modify. intros w Hw.
    destruct (raw_data_cache w !! file_path); by apply I_cache.
  - apply keeps_try_except.
    + apply keeps_bind.
      { unfold py_json_loads. destruct (json_loads _); [apply keeps_ret | apply keeps_raise]. }
      intros doc. apply keeps_bind.
      { destruct (negb (is_list doc)); [|apply keeps_ret].
        destruct (is_dict doc); [apply keeps_ret | apply keeps_raise]. }
      intros data. destruct (negb (forallb is_dict data)); [apply keeps_raise|].
      apply keeps_bind; [by apply I_logging|]. intros _.
      apply keeps_bind; [destruct cb; [apply keeps_call_progress | apply keeps_ret]|].
      intros _. apply keeps_bind; [|intros; apply keeps_ret].
      apply keeps_modify. intros w Hw. by apply I_cache.
    + intros e. destruct e; try apply keeps_raise.
      apply keeps_bind; [apply keeps_json_lines_loop|]. intros data.
      destruct (negb _); [apply keeps_raise|].
      apply keeps_bind; [by apply I_logging|]. intros _.
      apply keeps_bind; [|intros; apply keeps_ret].
      apply keeps_modify. intros w Hw. by apply I_cache.
Qed.
End LoaderKeeps.

(** *** The log lines of the cycle

    Beyond its first line, [refresh_table] writes no log line of the
    cycle: the lines of the load, of the table and of its own handler
    are of other kinds. *)
Section LogMarks.

Variable json_loads : string -> option json.
Variable py_str : json -> string.
Variable base marks : list (level * log_msg).

Let I := log_marks base marks.

Lemma marks_modify (f : world -> world) :
  (forall w, log (f w) = log w) -> keeps I (modify f).
Proof. intros Hf. apply keeps_modify. intros w (added & Hlog & Hmarks). exists added. by rewrite Hf. Qed.

Lemma marks_logging lvl msg : cycle_event (lvl, msg) = false -> keeps I (logging lvl msg).
Proof.
  intros Hother. apply keeps_modify. intros w (added & Hlog & Hmarks).
  exists (added ++ [(lvl, msg)])%list. split.
  - destruct w; simpl in *. by rewrite Hlog, <- app_assoc.
  - rewrite List.filter_app. cbn [List.filter]. rewrite Hother, Hmarks. apply app_nil_r.
Qed.

Lemma marks_update_tree tree f : keeps I (update_tree tree f).
Proof. apply marks_modify. by intros []. Qed.

Lemma marks_time_time : keeps I time_time.
Proof.
  unfold time_time. apply keeps_bind; [apply keeps_gets|]. intros t.
  apply keeps_bind; [|intros; apply keeps_ret]. apply marks_modify. by intros [].
Qed.

Lemma marks_load_json file_path cb N partial_load :
  keeps I (load_json json_loads file_path cb N partial_load).
Proof.
  apply keeps_load_json.
  - apply marks_logging.
  - intros popup num den. apply marks_modify. by intros [].
  - intros c w (added & Hlog & Hmarks). exists added. by destruct w.
Qed.

Lemma marks_insert_rows tree gc cols items : forall idx,
  keeps I (insert_rows py_str tree gc cols idx items).
Proof.
  induction items as [|item rest IH]; intros idx; cbn [insert_rows]; [apply keeps_ret|].
  apply keeps_bind; [apply keeps_gets|]. intros use_colors.
  apply keeps_bind; [apply keeps_gets|]. intros severity_colors.
  apply keeps_bind; [apply marks_update_tree | intros; apply IH].
Qed.

Lemma marks_tag_loop tree (prefix : string) (mk : string -> string -> log_msg)
    (colors : list (string * string)) :
  (forall a b, cycle_event (INFO, mk a b) = false) ->
  keeps I (for_each colors (fun c =>
             bind (update_tree tree (tree_tag_configure (prefix ++ fst c) (snd c)))
                  (fun _ => logging INFO (mk (fst c) (snd c))))).
Proof.
  intros Hmk. induction colors as [|c colors IH]; cbn [for_each]; [apply keeps_ret|].
  apply keeps_bind; [|intros; apply IH].
  apply keeps_bind; [apply marks_update_tree|]. intros _. by apply marks_logging.
Qed.

(** From its second log line on, [refresh_table] adds no line of the
    cycle. *)
Lemma marks_refresh_table (tree : nat) (file_path : string) (error_label : nat)
    (filters group_colors : list (string * string)) (desired_columns : list string)
    (json_text : nat) (is_auto_refresh : bool) (last_manual_sync last_auto_sync : option Z)
    (popup : option nat) (record_count : nat) (w : world) :
  I (refresh_entry file_path is_auto_refresh record_count w) ->
  I (snd (refresh_table json_loads py_str tree file_path error_label filters group_colors
            desired_columns json_text is_auto_refresh last_manual_sync last_auto_sync popup
            record_count w)).
Proof.
  unfold refresh_table. rewrite bind_logging.
  change (snd (logging INFO (RefreshingTable file_path is_auto_refresh record_count) w))
    with (refresh_entry file_path is_auto_refresh record_count w).
  generalize (refresh_entry file_path is_auto_refresh record_count w).
  apply keeps_try_except.
  2:{ intros e. apply keeps_bind; [apply marks_modify; by intros []|]. intros _.
      apply keeps_bind; [apply marks_modify; by intros []|]. intros _.
      apply keeps_bind; [by apply marks_logging | intros; apply keeps_ret]. }
  apply keeps_bind; [apply marks_load_json|]. intros loaded.
  apply keeps_bind.
  { destruct popup as [p|]; [|apply keeps_ret].
    apply keeps_bind; [apply marks_modify; by intros [] | intros; by apply marks_logging]. }
  intros _.
  destruct (_ && negb is_auto_refresh).
  { apply keeps_bind; [apply marks_modify; by intros []|]. intros _.
    apply keeps_bind; [by apply marks_logging | intros; apply keeps_ret]. }
  apply keeps_bind.
  { destruct (negb is_auto_refresh); [apply marks_update_tree | apply keeps_ret]. }
  intros _. apply keeps_bind.
  { destruct (negb is_auto_refresh); [apply marks_update_tree | apply keeps_ret]. }
  intros _. apply keeps_bind; [apply keeps_gets|]. intros t.
  apply keeps_bind; [apply marks_insert_rows|]. intros _.
  apply keeps_bind; [by apply marks_tag_loop|]. intros _.
  apply keeps_bind; [apply keeps_gets|]. intros use_colors.
  apply keeps_bind.
  { destruct use_colors; [|apply keeps_ret].
    apply keeps_bind; [apply keeps_gets|]. intros severity_colors.
    by apply marks_tag_loop. }
  intros _. apply keeps_bind; [apply keeps_gets|]. intros auto_scroll.
  apply keeps_bind.
  { destruct auto_scroll; [apply marks_update_tree | apply keeps_ret]. }
  intros _. apply keeps_bind; [apply keeps_gets|]. intros current_time.
  apply keeps_bind.
  { destruct is_auto_refresh; [|apply keeps_ret].
    apply keeps_bind; [apply marks_time_time|]. intros time.
    apply marks_modify. by intros []. }
  intros _. apply keeps_bind; [apply keeps_gets|]. intros t'.
  apply keeps_bind; [apply keeps_gets|]. intros next.
  apply keeps_bind.
  { destruct next as [next|]; [|apply keeps_ret].
    destruct (next =? 0)%Z; [apply keeps_ret|].
    apply keeps_bind; [apply marks_time_time | intros; apply keeps_ret]. }
  intros countdown.
  apply keeps_bind; [apply marks_modify; by intros []|]. intros _.
  apply keeps_bind; [by apply marks_logging | intros; apply keeps_ret].
Qed.

End LogMarks.

(** X13. An automatic refresh that loads appends to the table: the
    rows already shown stay as they are, in their order; the rows of the
    new records that pass the filters follow, numbered on from the last
    row; the columns and every other table are left alone. *)
Theorem refresh_table_auto_appends (json_loads : string -> option json)
    (py_str : json -> string) (tree : nat) (file_path : string) (error_label : nat)
    (filters group_colors : list (string * string)) (desired_columns : list string)
    (json_text : nat) (last_manual_sync last_auto_sync : option Z)
    (popup : option nat) (record_count : nat) (w w1 : world)
    (data : list json) (total : nat) :
  load_json json_loads file_path (Some popup) record_count true
    (refresh_entry file_path true record_count w) = (Return (data, total), w1) ->
  exists w',
    refresh_table json_loads py_str tree file_path error_label filters group_colors
      desired_columns json_text true last_manual_sync last_auto_sync popup record_count w
    = (Return (last_manual_sync, Some (now w), total), w')
    /\ tree_children (tree_of w' tree)
       = (tree_children (tree_of w tree) ++
          table_rows py_str w group_colors desired_columns
            (length (tree_children (tree_of w tree)) + 1)
            (filter_data py_str (map (fun item => flatten_json item EmptyString ".") data)
               filters desired_columns))%list
    /\ tree_columns (tree_of w' tree) = tree_columns (tree_of w tree)
    /\ forall other, other <> tree -> trees w' !! other = trees w !! other.
Proof.
  intros Hload.
  destruct (refresh_table_loaded py_str json_loads tree file_path error_label filters
              group_colors desired_columns json_text true last_manual_sync last_auto_sync
              popup record_count w w1 data total Hload (or_intror eq_refl))
    as (w' & Hrun & Htable & _).
  exists w'. split; [exact Hrun | exact Htable].
Qed.

Lemma refresh_table_auto_appends_witness :
  exists w',
    refresh_table JsonText.loads JsonText.str 0 "app.jsonl" 0 [] [] ["id"] 0 true
      (Some 0%Z) None None 2 (initial_world (one_file "app.jsonl" three_lines) 5)
    = (Return (Some 0%Z, Some 5%Z, 3%nat), w')
    /\ tree_children (tree_of w' 0)
       = (tree_children (tree_of (initial_world (one_file "app.jsonl" three_lines) 5) 0) ++
          table_rows JsonText.str (initial_world (one_file "app.jsonl" three_lines) 5) [] ["id"]
            (length (tree_children
                       (tree_of (initial_world (one_file "app.jsonl" three_lines) 5) 0)) + 1)
            (filter_data JsonText.str
               (map (fun item => flatten_json item EmptyString ".") [JObj [("id", JInt 3)]])
               [] ["id"]))%list
    /\ tree_columns (tree_of w' 0)
       = tree_columns (tree_of (initial_world (one_file "app.jsonl" three_lines) 5) 0)
    /\ forall other, other <> 0%nat ->
         trees w' !! other
         = trees (initial_world (one_file "app.jsonl" three_lines) 5) !! other.
Proof.
  apply (refresh_table_auto_appends JsonText.loads JsonText.str 0 "app.jsonl" 0 [] [] ["id"]
           0 (Some 0%Z) None None 2 (initial_world (one_file "app.jsonl" three_lines) 5)
           (snd (load_json JsonText.loads "app.jsonl" (Some None) 2 true
                   (refresh_entry "app.jsonl" true 2
                      (initial_world (one_file "app.jsonl" three_lines) 5))))
           [JObj [("id", JInt 3)]] 3).
  vm_compute. reflexivity.
Defined.

(** X14. A full refresh that loads at least one record rebuilds the
    table: the columns become Line followed by the wanted columns, and
    the rows are exactly the rows of the records that pass the filters,
    in file order and numbered from 1; other tables are left alone. *)
Theorem refresh_table_full_replaces (json_loads : string -> option json)
    (py_str : json -> string) (tree : nat) (file_path : string) (error_label : nat)
    (filters group_colors : list (string * string)) (desired_columns : list string)
    (json_text : nat) (last_manual_sync last_auto_sync : option Z)
    (popup : option nat) (record_count : nat) (w w1 : world)
    (data : list json) (total : nat) :
  load_json json_loads file_path (Some popup) record_count false
    (refresh_entry file_path false record_count w) = (Return (data, total), w1) ->
  data <> [] ->
  exists w',
    refresh_table json_loads py_str tree file_path error_label filters group_colors
      desired_columns json_text false last_manual_sync last_auto_sync popup record_count w
    = (Return (Some (now w), last_auto_sync, total), w')
    /\ tree_children (tree_of w' tree)
       = table_rows py_str w group_colors desired_columns 1
           (filter_data py_str (map (fun item => flatten_json item EmptyString ".") data)
              filters desired_columns)
    /\ tree_columns (tree_of w' tree) = "Line" :: desired_columns
    /\ forall other, other <> tree -> trees w' !! other = trees w !! other.
Proof.
  intros Hload Hsome.
  destruct (refresh_table_loaded py_str json_loads tree file_path error_label filters
              group_colors desired_columns json_text false last_manual_sync last_auto_sync
              popup record_count w w1 data total Hload (or_introl Hsome))
    as (w' & Hrun & Htable & _).
  exists w'. split; [exact Hrun | exact Htable].
Qed.

Lemma refresh_table_full_replaces_witness :
  exists w',
    refresh_table JsonText.loads JsonText.str 0 "app.jsonl" 0 [] [] ["id"] 0 false
      (Some 0%Z) None None 0 (initial_world (one_file "app.jsonl" three_lines) 5)
    = (Return (Some 5%Z, None, 3%nat), w')
    /\ tree_children (tree_of w' 0)
       = table_rows JsonText.str (initial_world (one_file "app.jsonl" three_lines) 5) [] ["id"] 1
           (filter_data JsonText.str
              (map (fun item => flatten_json item EmptyString ".")
                 [JObj [("id", JInt 1)]; JObj [("id", JInt 2)]; JObj [("id", JInt 3)]])
              [] ["id"])
    /\ tree_columns (tree_of w' 0) = ["Line"; "id"]
    /\ forall other, other <> 0%nat ->
         trees w' !! other
         = trees (initial_world (one_file "app.jsonl" three_lines) 5) !! other.
Proof.
  apply (refresh_table_full_replaces JsonText.loads JsonText.str 0 "app.jsonl" 0 [] [] ["id"]
           0 (Some 0%Z) None None 0 (initial_world (one_file "app.jsonl" three_lines) 5)
           (snd (load_json JsonText.loads "app.jsonl" (Some None) 0 false
                   (refresh_entry "app.jsonl" false 0
                      (initial_world (one_file "app.jsonl" three_lines) 5))))
           [JObj [("id", JInt 1)]; JObj [("id", JInt 2)]; JObj [("id", JInt 3)]] 3).
  - vm_compute. reflexivity.
  - discriminate.
Defined.

(** X15. A refresh that loads and renders shows no dialog, writes the
    status text with the number of rows displayed and the line count
    returned by the load, stamps the sync time of its own mode with
    [datetime.now()] and keeps the other stamp.  An automatic refresh
    sets the next sync time one interval after its first reading of
    [time.time()] and shows the countdown to it from a second, later
    reading; a manual refresh leaves the next sync time and shows the
    countdown to it from the one reading it takes. *)
Theorem refresh_table_status (json_loads : string -> option json)
    (py_str : json -> string) (tree : nat) (file_path : string) (error_label : nat)
    (filters group_colors : list (string * string)) (desired_columns : list string)
    (json_text : nat) (is_auto_refresh : bool) (last_manual_sync last_auto_sync : option Z)
    (popup : option nat) (record_count : nat) (w w1 : world)
    (data : list json) (total : nat) :
  load_json json_loads file_path (Some popup) record_count is_auto_refresh
    (refresh_entry file_path is_auto_refresh record_count w) = (Return (data, total), w1) ->
  data <> [] \/ is_auto_refresh = true ->
  let r := refresh_table json_loads py_str tree file_path error_label filters group_colors
             desired_columns json_text is_auto_refresh last_manual_sync last_auto_sync popup
             record_count w in
  fst r = Return (if is_auto_refresh then last_manual_sync else Some (now w),
                  if is_auto_refresh then Some (now w) else last_auto_sync,
                  total)
  /\ dialogs (snd r) = dialogs w
  /\ next_sync_time (snd r)
     = (if is_auto_refresh then Some (clock w 0%nat + refresh_interval_ms w)%Z
        else next_sync_time w)
  /\ labels (snd r) !! error_label
     = Some (StatusLoaded (length (tree_children (tree_of (snd r) tree))) total
               (if is_auto_refresh then last_manual_sync else Some (now w))
               (if is_auto_refresh then Some (now w) else last_auto_sync)
               (countdown_text (next_sync_time (snd r))
                  (clock w (if is_auto_refresh then 1 else 0)%nat))).
Proof.
  intros Hload Hsome r.
  destruct (refresh_table_loaded py_str json_loads tree file_path error_label filters
              group_colors desired_columns json_text is_auto_refresh last_manual_sync
              last_auto_sync popup record_count w w1 data total Hload Hsome)
    as (w' & Hrun & _ & [Hnext Hlabels] & Hdialogs & _).
  subst r. rewrite Hrun. cbn [fst snd].
  split; [done|]. split; [exact Hdialogs|]. split; [exact Hnext|].
  rewrite Hlabels. apply lookup_insert_eq.
Qed.

Lemma refresh_table_status_witness :
  let w := initial_world (one_file "app.jsonl" three_lines) 5 in
  let r := refresh_table JsonText.loads JsonText.str 0 "app.jsonl" 0 [] [] ["id"] 0 true
             (Some 0%Z) None None 2 w in
  (next_sync_time (snd r) = Some 3600006%Z
   /\ labels (snd r) !! 0%nat
      = Some (StatusLoaded 1 3 (Some 0%Z) (Some 5%Z) (Some "59m 59s")))
  /\ fst r = Return (Some 0%Z, Some 5%Z, 3%nat)
  /\ dialogs (snd r) = dialogs w
  /\ next_sync_time (snd r) = Some (clock w 0%nat + refresh_interval_ms w)%Z
  /\ labels (snd r) !! 0%nat
     = Some (StatusLoaded (length (tree_children (tree_of (snd r) 0))) 3
               (Some 0%Z) (Some 5%Z)
               (countdown_text (next_sync_time (snd r)) (clock w 1%nat))).
Proof.
  intros w. split; [vm_compute; split; reflexivity|].
  apply (refresh_table_status JsonText.loads JsonText.str 0 "app.jsonl" 0 [] [] ["id"]
           0 true (Some 0%Z) None None 2 w
           (snd (load_json JsonText.loads "app.jsonl" (Some None) 2 true
                   (refresh_entry "app.jsonl" true 2 w)))
           [JObj [("id", JInt 3)]] 3).
  - vm_compute. reflexivity.
  - by right.
Defined.

Section CycleFacts.

Variable json_loads : string -> option json.
Variable py_str : json -> string.

(** The load inside a refresh opens and closes no popup. *)
Lemma load_json_popup_flags (file_path : string) (cb : option callback) (N : nat)
    (partial_load : bool) (w : world) :
  popup_flags (snd (load_json json_loads file_path cb N partial_load w)) = popup_flags w.
Proof.
  apply (keeps_load_json json_loads (flags_are (popup_flags w))); [| | |reflexivity].
  - intros lvl msg _. apply keeps_modify. intros w0 Hw0.
    unfold flags_are. by rewrite popup_flags_log.
  - intros p num den. apply keeps_modify. intros w0 Hw0.
    unfold flags_are. by rewrite popup_flags_progress.
  - intros c w0 Hw0. unfold flags_are. by rewrite popup_flags_cache.
Qed.

Lemma popup_flags_length (w : world) : length (popup_flags w) = length (popups w).
Proof. apply length_fmap. Qed.

Lemma popup_flags_closed (p : nat) (l : list popup_state) :
  popup_open <$> alter closed p l = alter (fun _ => false) p (popup_open <$> l).
Proof. apply list_fmap_alter. by apply Forall_forall. Qed.

(** The popups before and after a refresh: the one handed over is
    closed when the load returned, none is touched otherwise. *)
Lemma refresh_table_popups (tree : nat) (file_path : string) (error_label : nat)
    (filters group_colors : list (string * string)) (desired_columns : list string)
    (json_text : nat) (is_auto_refresh : bool) (last_manual_sync last_auto_sync : option Z)
    (popup : option nat) (record_count : nat) (w : world) :
  popup_flags
    (snd (refresh_table json_loads py_str tree file_path error_label filters group_colors
            desired_columns json_text is_auto_refresh last_manual_sync last_auto_sync popup
            record_count w))
  = match fst (load_json json_loads file_path (Some popup) record_count is_auto_refresh
                 (refresh_entry file_path is_auto_refresh record_count w)), popup with
    | Return _, Some p => alter (fun _ => false) p (popup_flags w)
    | _, _ => popup_flags w
    end.
Proof.
  pose proof (load_json_popup_flags file_path (Some popup) record_count is_auto_refresh
                (refresh_entry file_path is_auto_refresh record_count w)) as Hflags.
  change (popup_flags (refresh_entry file_path is_auto_refresh record_count w))
    with (popup_flags w) in Hflags.
  destruct (load_json json_loads file_path (Some popup) record_count is_auto_refresh
              (refresh_entry file_path is_auto_refresh record_count w))
    as [[[data total]|e] w1] eqn:Hload; cbn [fst snd] in *.
  - assert (exists r w',
      refresh_table json_loads py_str tree file_path error_label filters group_colors
        desired_columns json_text is_auto_refresh last_manual_sync last_auto_sync popup
        record_count w = (Return r, w')
      /\ popups w' = match popup with
                     | Some p => alter closed p (popups w1)
                     | None => popups w1
                     end) as (r & w' & Hrun & Hpopups).
    { destruct is_auto_refresh.
      - destruct (refresh_table_loaded py_str json_loads tree file_path error_label filters
                    group_colors desired_columns json_text true last_manual_sync
                    last_auto_sync popup record_count w w1 data total Hload
                    (or_intror eq_refl)) as (w' & Hrun & _ & _ & _ & _ & Hp).
        eexists _, w'. split; [exact Hrun | exact Hp].
      - destruct data as [|record data].
        + destruct (refresh_table_no_data py_str json_loads tree file_path error_label
                      filters group_colors desired_columns json_text last_manual_sync
                      last_auto_sync popup record_count w w1 total Hload)
            as (w' & Hrun & _ & _ & _ & _ & Hp).
          eexists _, w'. split; [exact Hrun | exact Hp].
        + assert (record :: data <> []) as Hne by discriminate.
          destruct (refresh_table_loaded py_str json_loads tree file_path error_label filters
                      group_colors desired_columns json_text false last_manual_sync
                      last_auto_sync popup record_count w w1 (record :: data) total Hload
                      (or_introl Hne)) as (w' & Hrun & _ & _ & _ & _ & Hp).
          eexists _, w'. split; [exact Hrun | exact Hp]. }
    rewrite Hrun. cbn [snd]. unfold popup_flags in *. rewrite Hpopups.
    destruct popup as [p|]; [|exact Hflags].
    by rewrite popup_flags_closed, Hflags.
  - destruct (refresh_table_failed py_str json_loads tree file_path error_label filters
                group_colors desired_columns json_text is_auto_refresh last_manual_sync
                last_auto_sync popup record_count w w1 e Hload) as (w' & Hrun & Hp & _).
    rewrite Hrun. cbn [snd]. unfold popup_flags in *. rewrite Hp. by destruct popup.
Qed.

Lemma keys_set_present {V} (k : string) (v : V) (d : list (string * V)) :
  In k (PyDict.keys d) -> PyDict.keys (PyDict.set k v d) = PyDict.keys d.
Proof.
  induction d as [|[k' v'] d IH]; simpl; [done|].
  destruct (String.eqb_spec k k') as [->|Hne]; simpl; [done|].
  intros [?|Hin]; [congruence|]. by rewrite IH.
Qed.

(** One step of the loop over the tabs: it returns, opens one popup,
    writes the entry of its file, and of the log lines of the cycle it
    adds the two of a refresh that started. *)
Lemma refresh_tab_returns (desired_columns : list string) (is_auto_refresh : bool)
    (failed : string -> exn -> log_msg) (tabs : list (string * tab))
    (entry : string * tab) (w : world) :
  exists r w',
    refresh_tab json_loads py_str desired_columns is_auto_refresh failed tabs entry w
    = (Return (PyDict.set (fst entry) (tab_refreshed (snd entry) r) tabs), w')
    /\ length (popups w') = S (length (popups w))
    /\ log_marks (log w) (cycle_events is_auto_refresh [entry]) w'.
Proof.
  unfold refresh_tab.
  set (w0 := snd (PleaseWaitPopup w)).
  assert (PleaseWaitPopup w = (Return (length (popups w)), w0)) as Hpopup by reflexivity.
  assert (length (popups w0) = S (length (popups w))) as Hlen.
  { subst w0. destruct w; simpl. rewrite length_app. simpl. lia. }
  assert (log w0 = (log w ++ [(INFO, PopupOpened)])%list) as Hlog0.
  { subst w0. by destruct w. }
  clearbody w0.
  destruct (refresh_table_returns py_str json_loads (tab_tree (snd entry)) (fst entry)
              (tab_error_label (snd entry)) (tab_filters (snd entry))
              (tab_group_colors (snd entry)) desired_columns (tab_json_text (snd entry))
              is_auto_refresh (tab_last_manual_sync (snd entry))
              (tab_last_auto_sync (snd entry)) (Some (length (popups w)))
              (if is_auto_refresh then tab_record_count (snd entry) else 0%nat) w0)
    as (r & w' & Hrun).
  exists r, w'. split; [|split].
  - apply try_except_returned.
    rewrite (bind_returned _ _ _ _ _ Hpopup).
    by rewrite (bind_returned _ _ _ _ _ Hrun).
  - rewrite <- Hlen, <- !popup_flags_length.
    pose proof (refresh_table_popups (tab_tree (snd entry)) (fst entry)
              (tab_error_label (snd entry)) (tab_filters (snd entry))
              (tab_group_colors (snd entry)) desired_columns (tab_json_text (snd entry))
              is_auto_refresh (tab_last_manual_sync (snd entry))
              (tab_last_auto_sync (snd entry)) (Some (length (popups w)))
              (if is_auto_refresh then tab_record_count (snd entry) else 0%nat) w0) as Hp.
    rewrite Hrun in Hp. cbn [snd] in Hp. rewrite Hp.
    match goal with
    | |- context [match ?x with Return _ => _ | Raise _ => _ end] => destruct x
    end; [apply length_alter | done].
  - pose proof (marks_refresh_table json_loads py_str (log w)
              (cycle_events is_auto_refresh [entry])
              (tab_tree (snd entry)) (fst entry)
              (tab_error_label (snd entry)) (tab_filters (snd entry))
              (tab_group_colors (snd entry)) desired_columns (tab_json_text (snd entry))
              is_auto_refresh (tab_last_manual_sync (snd entry))
              (tab_last_auto_sync (snd entry)) (Some (length (popups w)))
              (if is_auto_refresh then tab_record_count (snd entry) else 0%nat) w0) as Hmarks.
    rewrite Hrun in Hmarks. cbn [snd] in Hmarks. apply Hmarks.
    exists (cycle_events is_auto_refresh [entry]). split; [|reflexivity].
    unfold refresh_entry, logging, modify. cbn [snd log set_log].
    rewrite Hlog0, <- app_assoc. reflexivity.
Qed.

Lemma cycle_events_cons (is_auto_refresh : bool) (entry : string * tab)
    (rest : list (string * tab)) :
  cycle_events is_auto_refresh (entry :: rest)
  = (cycle_events is_auto_refresh [entry] ++ cycle_events is_auto_refresh rest)%list.
Proof. reflexivity. Qed.

Lemma log_marks_trans (base marks marks' : list (level * log_msg)) (w w' : world) :
  log_marks base marks w -> log_marks (log w) marks' w' ->
  log_marks base (marks ++ marks')%list w'.
Proof.
  intros (added & Hlog & Hmarks) (added' & Hlog' & Hmarks').
  exists (added ++ added')%list. split.
  - by rewrite Hlog', Hlog, <- app_assoc.
  - by rewrite List.filter_app, Hmarks, Hmarks'.
Qed.

Lemma refresh_tabs_returns (desired_columns : list string) (is_auto_refresh : bool)
    (failed : string -> exn -> log_msg) (snapshot : list (string * tab)) :
  forall (tabs : list (string * tab)) (w : world),
  (forall entry, In entry snapshot -> In (fst entry) (PyDict.keys tabs)) ->
  exists tabs' w',
    refresh_tabs json_loads py_str desired_columns is_auto_refresh failed snapshot tabs w
    = (Return tabs', w')
    /\ PyDict.keys tabs' = PyDict.keys tabs
    /\ length (popups w') = (length (popups w) + length snapshot)%nat
    /\ log_marks (log w) (cycle_events is_auto_refresh snapshot) w'.
Proof.
  induction snapshot as [|entry rest IH]; intros tabs w Hkeys; cbn [refresh_tabs].
  - exists tabs, w. split; [done|]. split; [done|]. split; [simpl; lia|].
    exists []. by rewrite app_nil_r.
  - destruct (refresh_tab_returns desired_columns is_auto_refresh failed tabs entry w)
      as (r & w1 & Hrun & Hlen & Hmarks).
    rewrite (bind_returned _ _ _ _ _ Hrun).
    assert (PyDict.keys (PyDict.set (fst entry) (tab_refreshed (snd entry) r) tabs)
            = PyDict.keys tabs) as Hsame.
    { apply keys_set_present, Hkeys. by left. }
    destruct (IH (PyDict.set (fst entry) (tab_refreshed (snd entry) r) tabs) w1)
      as (tabs' & w' & Hrest & Hk & Hl & Hm).
    { intros e He. rewrite Hsame. apply Hkeys. by right. }
    exists tabs', w'. split; [exact Hrest|]. split; [congruence|].
    split; [rewrite Hl, Hlen; simpl; lia|].
    rewrite cycle_events_cons. by eapply log_marks_trans.
Qed.

End CycleFacts.

(** X16. The popup handed to a refresh: when the load returns the
    popup is closed; when the load fails it is left open, since the
    handler of [refresh_table] does not close it. *)
Theorem refresh_table_popup_fate (json_loads : string -> option json)
    (py_str : json -> string) (tree : nat) (file_path : string) (error_label : nat)
    (filters group_colors : list (string * string)) (desired_columns : list string)
    (json_text : nat) (is_auto_refresh : bool) (last_manual_sync last_auto_sync : option Z)
    (p : nat) (record_count : nat) (w : world) :
  popup_flags w !! p = Some true ->
  popup_flags
    (snd (refresh_table json_loads py_str tree file_path error_label filters group_colors
            desired_columns json_text is_auto_refresh last_manual_sync last_auto_sync
            (Some p) record_count w)) !! p
  = Some (match fst (load_json json_loads file_path (Some (Some p)) record_count
                       is_auto_refresh
                       (refresh_entry file_path is_auto_refresh record_count w)) with
          | Return _ => false
          | Raise _ => true
          end).
Proof.
  intros Hopen. rewrite refresh_table_popups.
  match goal with
  | |- context [match ?x with Return _ => _ | Raise _ => _ end] => destruct x
  end; [|exact Hopen].
  by rewrite list_lookup_alter_eq, Hopen.
Qed.

Lemma refresh_table_popup_fate_witness :
  popup_flags
    (snd (refresh_table JsonText.loads JsonText.str 0 "app.jsonl" 0
            (tab_filters (seen_tab main_columns 2)) [] main_columns 0 true
            (Some 0%Z) None (Some 0%nat) 2 tracked_world)) !! 0%nat
  = Some (match fst (load_json JsonText.loads "app.jsonl" (Some (Some 0%nat)) 2 true
                       (refresh_entry "app.jsonl" true 2 tracked_world)) with
          | Return _ => false
          | Raise _ => true
          end).
Proof.
  apply (refresh_table_popup_fate JsonText.loads JsonText.str 0 "app.jsonl" 0
           (tab_filters (seen_tab main_columns 2)) [] main_columns 0 true
           (Some 0%Z) None 0 2 tracked_world).
  reflexivity.
Defined.

(** X17. A full refresh that loads no record (an empty JSON array):
    the status text becomes "No data to display.", the table keeps the
    rows it had, no dialog is shown, the stamps and the seen count that
    were passed in come back, and the cached list of the file is now
    empty. *)
Theorem refresh_table_empty_load (json_loads : string -> option json)
    (py_str : json -> string) (tree : nat) (file_path : string) (error_label : nat)
    (filters group_colors : list (string * string)) (desired_columns : list string)
    (json_text : nat) (last_manual_sync last_auto_sync : option Z)
    (popup : option nat) (record_count : nat) (w w1 : world) (total : nat) :
  load_json json_loads file_path (Some popup) record_count false
    (refresh_entry file_path false record_count w) = (Return ([], total), w1) ->
  exists w',
    refresh_table json_loads py_str tree file_path error_label filters group_colors
      desired_columns json_text false last_manual_sync last_auto_sync popup record_count w
    = (Return (last_manual_sync, last_auto_sync, record_count), w')
    /\ labels w' !! error_label = Some StatusNoData
    /\ trees w' = trees w
    /\ dialogs w' = dialogs w
    /\ cached w' file_path = [].
Proof.
  intros Hload.
  destruct (refresh_table_no_data py_str json_loads tree file_path error_label filters
              group_colors desired_columns json_text last_manual_sync last_auto_sync popup
              record_count w w1 total Hload) as (w' & Hrun & Hlabels & Htrees & Hdialogs & Hcache & _).
  exists w'. split; [exact Hrun|].
  split; [rewrite Hlabels; apply lookup_insert_eq|].
  split; [exact Htrees|]. split; [exact Hdialogs|].
  apply load_json_returned in Hload as [_ Hcached].
  unfold cached in *. rewrite Hcache. by rewrite andb_false_l in Hcached.
Qed.

Lemma refresh_table_empty_load_witness :
  exists w',
    refresh_table JsonText.loads JsonText.str 0 "app.json" 0 [] [] ["id"] 0 false
      (Some 0%Z) None None 0 (initial_world (one_file "app.json" "[]") 5)
    = (Return (Some 0%Z, None, 0%nat), w')
    /\ labels w' !! 0%nat = Some StatusNoData
    /\ trees w' = trees (initial_world (one_file "app.json" "[]") 5)
    /\ dialogs w' = dialogs (initial_world (one_file "app.json" "[]") 5)
    /\ cached w' "app.json" = [].
Proof.
  apply (refresh_table_empty_load JsonText.loads JsonText.str 0 "app.json" 0 [] [] ["id"] 0
           (Some 0%Z) None None 0 (initial_world (one_file "app.json" "[]") 5)
           (snd (load_json JsonText.loads "app.json" (Some None) 0 false
                   (refresh_entry "app.json" false 0
                      (initial_world (one_file "app.json" "[]") 5)))) 1).
  vm_compute. reflexivity.
Defined.

(** X18. The refresh cycles cannot be stopped by a file: whatever the
    tabs and the files hold, [refresh_table] returns, and so do one
    cycle of [periodic_refresh] and [manual_refresh].  Each tab of the
    cycle is refreshed in turn: the tabs keep their file paths in their
    order, one popup is opened per tab, and of the log lines of the
    cycle the run adds, tab by tab, the opened popup and the start of
    [refresh_table] on the path of the tab (with its seen count in the
    periodic cycle, with 0 in the manual one), and never the failure
    line of the handler of the cycle. *)
Theorem refresh_cycle_returns (json_loads : string -> option json)
    (py_str : json -> string) (tabs : list (string * tab)) (desired_columns : list string)
    (w : world) :
  (forall tree file_path error_label filters group_colors json_text is_auto_refresh
          last_manual_sync last_auto_sync popup record_count w0,
     exists r w',
       refresh_table json_loads py_str tree file_path error_label filters group_colors
         desired_columns json_text is_auto_refresh last_manual_sync last_auto_sync popup
         record_count w0 = (Return r, w'))
  /\ (exists tabs' w',
        periodic_refresh json_loads py_str tabs desired_columns w = (Return tabs', w')
        /\ PyDict.keys tabs' = PyDict.keys tabs
        /\ length (popups w') = (length (popups w) + length tabs)%nat
        /\ exists added,
             log w' = (log w ++ added)%list
             /\ List.filter cycle_event added = cycle_events true tabs)
  /\ (exists tabs' w',
        manual_refresh json_loads py_str tabs desired_columns w = (Return tabs', w')
        /\ PyDict.keys tabs' = PyDict.keys tabs
        /\ length (popups w') = (length (popups w) + length tabs)%nat
        /\ exists added,
             log w' = (log w ++ added)%list
             /\ List.filter cycle_event added = cycle_events false tabs).
Proof.
  split; [|split].
  - intros. apply refresh_table_returns.
  - unfold periodic_refresh.
    apply (refresh_tabs_returns json_loads py_str desired_columns true
             PeriodicRefreshFailed tabs tabs w).
    intros entry Hin. by apply in_map.
  - unfold manual_refresh.
    apply (refresh_tabs_returns json_loads py_str desired_columns false
             ManualRefreshFailed tabs tabs w).
    intros entry Hin. by apply in_map.
Qed.

Lemma refresh_cycle_returns_witness :
  let w := initial_world (one_file "app.jsonl" five_lines_bad_third) 0 in
  let tabs := [("app.jsonl", seen_tab main_columns 2)] in
  List.filter cycle_event
    (log (snd (periodic_refresh JsonText.loads JsonText.str tabs main_columns w)))
  = [(INFO, PopupOpened); (INFO, RefreshingTable "app.jsonl" true 2)]
  /\ exists tabs' w',
       periodic_refresh JsonText.loads JsonText.str tabs main_columns w = (Return tabs', w')
       /\ PyDict.keys tabs' = PyDict.keys tabs
       /\ length (popups w') = (length (popups w) + length tabs)%nat
       /\ exists added,
            log w' = (log w ++ added)%list
            /\ List.filter cycle_event added = cycle_events true tabs.
Proof.
  intros w tabs. split; [vm_compute; reflexivity|].
  apply (proj1 (proj2 (refresh_cycle_returns JsonText.loads JsonText.str tabs main_columns w))).
Defined.

(** X19. What a failed load leaves in the entry of its tab: the stamps
    are kept; the seen count is kept by the periodic cycle and reset to 0
    by a manual refresh, which hands the count 0 to [refresh_table] and
    stores what comes back. *)
Theorem refresh_tab_failed_count (json_loads : string -> option json)
    (py_str : json -> string) (desired_columns : list string) (is_auto_refresh : bool)
    (failed : string -> exn -> log_msg) (tabs : list (string * tab))
    (file_path : string) (t : tab) (w w1 : world) (e : exn) :
  load_json json_loads file_path (Some (Some (length (popups w))))
    (if is_auto_refresh then tab_record_count t else 0%nat) is_auto_refresh
    (refresh_entry file_path is_auto_refresh
       (if is_auto_refresh then tab_record_count t else 0%nat)
       (snd (PleaseWaitPopup w))) = (Raise e, w1) ->
  fst (refresh_tab json_loads py_str desired_columns is_auto_refresh failed tabs
         (file_path, t) w)
  = Return (PyDict.set file_path
              (tab_refreshed t (tab_last_manual_sync t, tab_last_auto_sync t,
                                if is_auto_refresh then tab_record_count t else 0%nat))
              tabs).
Proof.
  intros Hload.
  destruct (refresh_table_failed py_str json_loads (tab_tree t) file_path (tab_error_label t)
              (tab_filters t) (tab_group_colors t) desired_columns (tab_json_text t)
              is_auto_refresh (tab_last_manual_sync t) (tab_last_auto_sync t)
              (Some (length (popups w)))
              (if is_auto_refresh then tab_record_count t else 0%nat)
              (snd (PleaseWaitPopup w)) w1 e Hload) as (w' & Hrun & _).
  unfold refresh_tab. cbn [fst snd].
  erewrite try_except_returned; [reflexivity|].
  rewrite (bind_returned PleaseWaitPopup _ w (snd (PleaseWaitPopup w)) (length (popups w))
             eq_refl).
  by rewrite (bind_returned _ _ _ _ _ Hrun).
Qed.

Lemma refresh_tab_failed_count_witness :
  fst (refresh_tab JsonText.loads JsonText.str main_columns false ManualRefreshFailed
         [("app.jsonl", seen_tab main_columns 2)] ("app.jsonl", seen_tab main_columns 2)
         (initial_world (one_file "app.jsonl" five_lines_bad_third) 0))
  = Return (PyDict.set "app.jsonl"
              (tab_refreshed (seen_tab main_columns 2) (Some 0%Z, None, 0%nat))
              [("app.jsonl", seen_tab main_columns 2)]).
Proof.
  apply (refresh_tab_failed_count JsonText.loads JsonText.str main_columns false
           ManualRefreshFailed [("app.jsonl", seen_tab main_columns 2)] "app.jsonl"
           (seen_tab main_columns 2)
           (initial_world (one_file "app.jsonl" five_lines_bad_third) 0)
           (snd (load_json JsonText.loads "app.jsonl" (Some (Some 0%nat)) 0 false
                   (refresh_entry "app.jsonl" false 0
                      (snd (PleaseWaitPopup
                              (initial_world (one_file "app.jsonl" five_lines_bad_third) 0))))))
           (LoadError JSONDecodeError)).
  vm_compute. reflexivity.
Defined.

(** X20. An automatic refresh of a file that has no new line (its line
    count is the seen count, at least 1) changes nothing to show: the
    rows of the table and the cached list stay as they are and the seen
    count comes back unchanged. *)
Theorem refresh_table_auto_unchanged (json_loads : string -> option json)
    (py_str : json -> string) (tree : nat) (file_path : string) (error_label : nat)
    (filters group_colors : list (string * string)) (desired_columns : list string)
    (json_text : nat) (last_manual_sync last_auto_sync : option Z)
    (popup : option nat) (w : world) (text : string) :
  files w !! file_path = Some text ->
  (0 < length (stripped_lines text))%nat ->
  exists w',
    refresh_table json_loads py_str tree file_path error_label filters group_colors
      desired_columns json_text true last_manual_sync last_auto_sync popup
      (length (stripped_lines text)) w
    = (Return (last_manual_sync, Some (now w), length (stripped_lines text)), w')
    /\ tree_children (tree_of w' tree) = tree_children (tree_of w tree)
    /\ cached w' file_path = cached w file_path.
Proof.
  intros Hfile Hseen.
  destruct (load_json_result json_loads file_path (Some popup) (length (stripped_lines text))
              true (refresh_entry file_path true (length (stripped_lines text)) w))
    as (w1 & Hload & Hq).
  change (files (refresh_entry file_path true (length (stripped_lines text)) w))
    with (files w) in Hload, Hq.
  change (raw_data_cache (refresh_entry file_path true (length (stripped_lines text)) w))
    with (raw_data_cache w) in Hload, Hq.
  rewrite Hfile in Hload, Hq. unfold load_result in Hload, Hq.
  apply Nat.ltb_lt in Hseen. rewrite Hseen in Hload, Hq. cbn [andb] in Hload, Hq.
  rewrite drop_all in Hload, Hq. cbn [line_records fst snd] in Hload, Hq.
  apply cached_write_cache in Hq as [Hcached _]. rewrite app_nil_r in Hcached.
  destruct (refresh_table_loaded py_str json_loads tree file_path error_label filters
              group_colors desired_columns json_text true last_manual_sync last_auto_sync
              popup (length (stripped_lines text)) w w1 [] (length (stripped_lines text))
              Hload (or_intror eq_refl)) as (w' & Hrun & (Hrows & _) & _ & _ & Hcache & _).
  exists w'. split; [exact Hrun|]. split.
  - rewrite Hrows. cbn. by rewrite app_nil_r.
  - unfold cached in *. by rewrite Hcache.
Qed.

Lemma refresh_table_auto_unchanged_witness :
  exists w',
    refresh_table JsonText.loads JsonText.str 0 "app.jsonl" 0 [] [] ["id"] 0 true
      (Some 0%Z) None None (length (stripped_lines three_lines))
      (initial_world (one_file "app.jsonl" three_lines) 5)
    = (Return (Some 0%Z, Some 5%Z, length (stripped_lines three_lines)), w')
    /\ tree_children (tree_of w' 0)
       = tree_children (tree_of (initial_world (one_file "app.jsonl" three_lines) 5) 0)
    /\ cached w' "app.jsonl"
       = cached (initial_world (one_file "app.jsonl" three_lines) 5) "app.jsonl".
Proof.
  apply (refresh_table_auto_unchanged JsonText.loads JsonText.str 0 "app.jsonl" 0 [] []
           ["id"] 0 (Some 0%Z) None None
           (initial_world (one_file "app.jsonl" three_lines) 5) three_lines).
  - vm_compute. reflexivity.
  - vm_compute. lia.
Defined.

(** ** Flattener: what the flattened record holds *)

Section DictShape.
Context {V : Type}.
Implicit Types (d : list (string * V)) (k : string) (v : V).

Lemma set_fresh k v d : k ∉ PyDict.keys d -> PyDict.set k v d = (d ++ [(k, v)])%list.
Proof.
  induction d as [|[k' v'] d IH]; simpl; [done|].
  rewrite not_elem_of_cons. intros [Hne Hnotin].
  destruct (String.eqb_spec k k') as [->|_]; [done|]. by rewrite IH.
Qed.

Lemma fold_set_fresh (items : list (string * V)) d :
  NoDup (PyDict.keys (d ++ items)) ->
  fold_left (fun d kv => PyDict.set (fst kv) (snd kv) d) items d = (d ++ items)%list.
Proof.
  revert d. induction items as [|[k v] items IH]; intros d Hnodup; simpl.
  - by rewrite app_nil_r.
  - assert (k ∉ PyDict.keys d) as Hfresh.
    { unfold PyDict.keys in *. rewrite map_app in Hnodup. simpl in Hnodup.
      apply NoDup_app in Hnodup as (_ & Hdisj & _).
      intros Hin. apply (Hdisj k Hin). by left. }
    rewrite (set_fresh k v d Hfresh), IH, <- app_assoc; [done|].
    by rewrite <- app_assoc.
Qed.

(** [dict(items)] of pairs with distinct keys is the list itself. *)
Lemma of_items_distinct (items : list (string * V)) :
  NoDup (PyDict.keys items) -> PyDict.of_items items = items.
Proof. intros Hnodup. by apply (fold_set_fresh items []). Qed.




End DictShape.

Lemma flatten_items_flat (d : pydict) (sep : string) :
  no_dict_values d -> flatten_items d EmptyString sep = d.
Proof.
  induction 1 as [|[k v] d Hv _ IH]; simpl; [done|]. simpl in Hv. by rewrite Hv, IH.
Qed.

Lemma flatten_dict_flat_id (d : pydict) (sep : string) :
  no_dict_values d -> NoDup (PyDict.keys d) -> flatten_dict d EmptyString sep = d.
Proof.
  intros Hflat Hnodup. unfold flatten_dict.
  rewrite flatten_json_items, flatten_items_flat; [|done]. by apply of_items_distinct.
Qed.

Lemma flatten_items_app (d1 d2 : pydict) (p sep : string) :
  flatten_items (d1 ++ d2)%list p sep
  = (flatten_items d1 p sep ++ flatten_items d2 p sep)%list.
Proof.
  induction d1 as [|[k v] d1 IH]; simpl; [done|]. by rewrite IH, <- app_assoc.
Qed.


Lemma leaf_paths_app (d1 d2 : pydict) :
  leaf_paths (d1 ++ d2)%list = (leaf_paths d1 ++ leaf_paths d2)%list.
Proof.
  induction d1 as [|[k v] d1 IH]; [done|].
  change (((k, v) :: d1) ++ d2)%list with ((k, v) :: (d1 ++ d2))%list.
  by rewrite !leaf_paths_cons, IH, <- app_assoc.
Qed.






(** X21. A record that is already flat (no value is a mapping, keys
    distinct) is its own flattening. *)
Theorem flatten_dict_flat (d : pydict) (sep : string) :
  no_dict_values d -> NoDup (PyDict.keys d) -> flatten_dict d EmptyString sep = d.
Proof. apply flatten_dict_flat_id. Qed.

Lemma flatten_dict_flat_witness :
  flatten_dict [("severity", JStr "High"); ("name", JStr "A")] EmptyString "."
  = [("severity", JStr "High"); ("name", JStr "A")].
Proof.
  apply (flatten_dict_flat [("severity", JStr "High"); ("name", JStr "A")] ".").
  - repeat constructor.
  - apply (bool_decide_unpack _). vm_compute. reflexivity.
Defined.

(** X22. Flattening is idempotent: flattening the flattened record
    changes nothing. *)
Theorem flatten_dict_idempotent (d : pydict) (sep : string) :
  flatten_dict (flatten_dict d EmptyString sep) EmptyString sep
  = flatten_dict d EmptyString sep.
Proof.
  apply flatten_dict_flat_id.
  - apply flatten_json_no_dict.
  - unfold flatten_dict. rewrite flatten_json_items. apply of_items_NoDup.
Qed.

(** X23. A key whose value is an empty mapping leaves no trace in the
    flattened record: the record flattens as if the key were absent. *)
Theorem flatten_dict_empty_mapping (d1 d2 : pydict) (k parent_key sep : string) :
  flatten_dict (d1 ++ (k, JObj []) :: d2)%list parent_key sep
  = flatten_dict (d1 ++ d2)%list parent_key sep.
Proof.
  unfold flatten_dict. rewrite !flatten_json_items, !flatten_items_app. reflexivity.
Qed.





(** ** The countdown text *)

(** X26. [format_time_remaining]: at or below zero the text is "Syncing
    now..."; above zero it shows the whole seconds left as hours,
    minutes and seconds that add up to them, with minutes and seconds
    below 60, and leaves out the leading units that are zero. *)
Theorem format_time_remaining_parts (ms : Z) :
  ((ms <= 0)%Z -> format_time_remaining ms = "Syncing now...")
  /\ ((0 < ms)%Z ->
      exists h m s : Z,
        (ms / 1000 = 3600 * h + 60 * m + s /\ 0 <= h /\ 0 <= m < 60 /\ 0 <= s < 60)%Z
        /\ format_time_remaining ms
           = if (0 <? h)%Z then pretty h ++ "h " ++ pretty m ++ "m " ++ pretty s ++ "s"
             else if (0 <? m)%Z then pretty m ++ "m " ++ pretty s ++ "s"
             else pretty s ++ "s").
Proof.
  unfold format_time_remaining. split.
  - intros Hle. apply Z.leb_le in Hle. by rewrite Hle.
  - intros Hpos. assert ((ms <=? 0)%Z = false) as -> by (apply Z.leb_gt; lia).
    exists (ms / 1000 / 60 / 60)%Z, ((ms / 1000 / 60) mod 60)%Z, ((ms / 1000) mod 60)%Z.
    split; [|reflexivity].
    assert (0 <= ms / 1000)%Z as Htotal by (apply Z.div_pos; lia).
    assert (0 <= ms / 1000 / 60)%Z as Hminutes by (apply Z.div_pos; lia).
    pose proof (Z.div_mod (ms / 1000) 60 ltac:(lia)) as Hsecs.
    pose proof (Z.div_mod (ms / 1000 / 60) 60 ltac:(lia)) as Hmins.
    pose proof (Z.mod_pos_bound (ms / 1000) 60 ltac:(lia)).
    pose proof (Z.mod_pos_bound (ms / 1000 / 60) 60 ltac:(lia)).
    assert (0 <= ms / 1000 / 60 / 60)%Z by (apply Z.div_pos; lia).
    repeat split; lia.
Qed.

Lemma format_time_remaining_parts_witness :
  exists h m s : Z,
    (3725000 / 1000 = 3600 * h + 60 * m + s /\ 0 <= h /\ 0 <= m < 60 /\ 0 <= s < 60)%Z
    /\ format_time_remaining 3725000
       = if (0 <? h)%Z then pretty h ++ "h " ++ pretty m ++ "m " ++ pretty s ++ "s"
         else if (0 <? m)%Z then pretty m ++ "m " ++ pretty s ++ "s"
         else pretty s ++ "s".
Proof.
  apply (proj2 (format_time_remaining_parts 3725000)). lia.
Defined.
